(** * Lagos State Property Portal: role checks and status transitions

    A shallow embedding of the Django/REST-framework code that decides who
    may move which record to which status: the permission classes, the
    verification serializers, the payment and invoice model hooks and the
    view actions built on them.  Database tables are finite maps from
    primary keys to rows; a view is a function from the requesting user, the
    request payload, the clock reading and the tables it touches to an HTTP
    response and the new tables. *)

From stdpp Require Import gmap strings list.
From Stdlib Require Import ZArith Ascii String.

Open Scope Z_scope.
Open Scope string_scope.

(** ** Exceptions, results and responses *)

(** The exceptions the modelled code can raise. *)
Inductive Exception : Type :=
| ValidationError
| SkipField
| IntegrityError
| ValueError
| DoesNotExist
| AssertionError.

(** Outcome of a call that either returns or raises. *)
Inductive Result (A : Type) : Type :=
| Ok (a : A)
| Raise (e : Exception).
Arguments Ok {A} a.
Arguments Raise {A} e.

Definition bind {A B : Type} (r : Result A) (k : A -> Result B) : Result B :=
  match r with
  | Ok a => k a
  | Raise e => Raise e
  end.

Notation "x <- c1 ;;; c2" := (bind c1 (fun x => c2))
  (at level 100, c1 at next level, right associativity).

(** What a view answers.  An exception that no handler catches leaves the
    view as a server error. *)
Inductive Response (A : Type) : Type :=
| HTTP_200_OK (data : A)
| HTTP_201_CREATED (data : A)
| HTTP_400_BAD_REQUEST
| HTTP_401_UNAUTHORIZED
| HTTP_403_FORBIDDEN
| HTTP_404_NOT_FOUND
| HTTP_500_SERVER_ERROR (e : Exception).
Arguments HTTP_200_OK {A} data.
Arguments HTTP_201_CREATED {A} data.
Arguments HTTP_400_BAD_REQUEST {A}.
Arguments HTTP_401_UNAUTHORIZED {A}.
Arguments HTTP_403_FORBIDDEN {A}.
Arguments HTTP_404_NOT_FOUND {A}.
Arguments HTTP_500_SERVER_ERROR {A} e.

(** The body of a successful response. *)
Definition response_data {A : Type} (r : Response A) : option A :=
  match r with
  | HTTP_200_OK data | HTTP_201_CREATED data => Some data
  | _ => None
  end.

(** Timestamps and dates are points on an integer time line. *)
Abbreviation Time := Z.
Abbreviation Date := Z.

(** Python truth value of [d.get(key)] for a text field: [None] and the
    empty string are false. *)
Definition truthy (o : option string) : bool :=
  match o with
  | None => false
  | Some s => negb (String.eqb s "")
  end.

(** ** Querysets

    A queryset is the finite map of the rows it selects. *)

(** [queryset.filter(...)] with the condition [f] on a row. *)
Definition qfilter {A : Type} (f : A -> bool) (q : gmap nat A) : gmap nat A :=
  filter (fun kv => f kv.2 = true) q.

(** The rows a queryset evaluates to, each with its primary key. *)
Definition rows {A : Type} (q : gmap nat A) : list (nat * A) := map_to_list q.

(** [get_object]: the row of the queryset under the key of the URL (detail
    routes are taken without query-string filters). *)
Definition get_object {A : Type} (q : gmap nat A) (key : nat) : option A :=
  q !! key.

(** ASCII lower-casing, for the [icontains] lookups. *)
Definition lower (c : ascii) : ascii :=
  let n := nat_of_ascii c in
  if ((65 <=? n) && (n <=? 90))%nat then ascii_of_nat (n + 32) else c.

Fixpoint lower_string (s : string) : string :=
  match s with
  | EmptyString => EmptyString
  | String c t => String (lower c) (lower_string t)
  end.

Fixpoint starts_with (p s : string) : bool :=
  match p, s with
  | EmptyString, _ => true
  | String a p', String b s' => Ascii.eqb a b && starts_with p' s'
  | String _ _, EmptyString => false
  end.

Fixpoint contains (needle hay : string) : bool :=
  starts_with needle hay ||
  match hay with
  | EmptyString => false
  | String _ t => contains needle t
  end.

(** [column__icontains=needle] *)
Definition icontains (needle column : string) : bool :=
  contains (lower_string needle) (lower_string column).

(** ** users/models.py *)

Module Users.

Inductive Role : Type :=
| ADMIN
| GOVERNMENT
| REAL_ESTATE_FIRM
| PROPERTY_OWNER
| BUYER_RENTER.

#[global] Instance Role_eq_dec : EqDecision Role.
Proof. solve_decision. Defined.

Definition ROLE_CHOICES : list Role :=
  [ADMIN; GOVERNMENT; REAL_ESTATE_FIRM; PROPERTY_OWNER; BUYER_RENTER].

(** A row of the user table; [pk] is its primary key.  Model instances
    compare equal when their primary keys do. *)
Record User : Type := mkUser {
  pk : nat;
  email : string;
  password : string;
  first_name : string;
  last_name : string;
  role : Role;
  phone_number : string;
  address : string;
  is_verified : bool;
  is_staff : bool;
  is_superuser : bool
}.

Definition is_admin (u : User) : bool := bool_decide (role u = ADMIN).
Definition is_government (u : User) : bool := bool_decide (role u = GOVERNMENT).
Definition is_real_estate_firm (u : User) : bool :=
  bool_decide (role u = REAL_ESTATE_FIRM).
Definition is_property_owner (u : User) : bool :=
  bool_decide (role u = PROPERTY_OWNER).
Definition is_buyer_renter (u : User) : bool :=
  bool_decide (role u = BUYER_RENTER).

Definition set_is_verified (b : bool) (u : User) : User :=
  mkUser (pk u) (email u) (password u) (first_name u) (last_name u) (role u)
         (phone_number u) (address u) b (is_staff u) (is_superuser u).

(** [user.save()]: the row is written under its primary key. *)
Definition User_save (u : User) (tbl : gmap nat User) : gmap nat User :=
  <[pk u := u]> tbl.

(** [request.user]: the anonymous user or a row of the user table. *)
Inductive RequestUser : Type :=
| AnonymousUser
| Authenticated (u : User).

Definition is_authenticated (r : RequestUser) : bool :=
  match r with
  | AnonymousUser => false
  | Authenticated _ => true
  end.

Inductive KYCStatus : Type :=
| KYC_PENDING
| KYC_APPROVED
| KYC_REJECTED.

#[global] Instance KYCStatus_eq_dec : EqDecision KYCStatus.
Proof. solve_decision. Defined.

(** A row of the KYC table.  [kyc_status] is [None] only on an instance
    whose status attribute was assigned [None]; such a row cannot be
    saved. *)
Record KYCVerification : Type := mkKYC {
  kyc_user : nat;
  kyc_status : option KYCStatus;
  submitted_at : Time;
  kyc_verified_at : option Time;
  kyc_verified_by : option nat;
  kyc_rejection_reason : option string
}.

Definition set_kyc_status (v : option KYCStatus) (k : KYCVerification)
  : KYCVerification :=
  mkKYC (kyc_user k) v (submitted_at k) (kyc_verified_at k) (kyc_verified_by k)
        (kyc_rejection_reason k).

Definition set_kyc_rejection_reason (r : option string) (k : KYCVerification)
  : KYCVerification :=
  mkKYC (kyc_user k) (kyc_status k) (submitted_at k) (kyc_verified_at k)
        (kyc_verified_by k) r.

Definition set_kyc_verified_by (u : option nat) (k : KYCVerification)
  : KYCVerification :=
  mkKYC (kyc_user k) (kyc_status k) (submitted_at k) (kyc_verified_at k) u
        (kyc_rejection_reason k).

Definition set_kyc_verified_at (t : option Time) (k : KYCVerification)
  : KYCVerification :=
  mkKYC (kyc_user k) (kyc_status k) (submitted_at k) t (kyc_verified_by k)
        (kyc_rejection_reason k).

(** [instance.save()] on a KYC row; a null status violates the column's
    NOT NULL constraint. *)
Definition KYCVerification_save (key : nat) (k : KYCVerification)
  (tbl : gmap nat KYCVerification) : Result (gmap nat KYCVerification) :=
  match kyc_status k with
  | None => Raise IntegrityError
  | Some _ => Ok (<[key := k]> tbl)
  end.

End Users.

(** ** permissions.py *)

Module Permissions.
Import Users.

(** [request.user and request.user.is_authenticated and <flag>] *)
Definition authenticated_and (flag : User -> bool) (r : RequestUser) : bool :=
  match r with
  | AnonymousUser => false
  | Authenticated u => flag u
  end.

Definition IsAdmin := authenticated_and is_admin.
Definition IsGovernmentAgency := authenticated_and is_government.
Definition IsRealEstateFirm := authenticated_and is_real_estate_firm.
Definition IsPropertyOwner := authenticated_and is_property_owner.
Definition IsBuyerRenter := authenticated_and is_buyer_renter.
Definition IsVerifiedUser := authenticated_and is_verified.
Definition IsPropertyOwnerOrRealEstateFirm :=
  authenticated_and (fun u => is_property_owner u || is_real_estate_firm u).
Definition IsAuthenticated := is_authenticated.
Definition AllowAny (_ : RequestUser) : bool := true.

(** [IsOwnerOrAdmin.has_object_permission] on an object whose [owner] (or
    else [user]) attribute holds the primary key [owner_pk].  The check
    reads [request.user.is_admin], which the anonymous user lacks; the
    views below reach it only behind a check that the user is
    authenticated or not at all. *)
Definition IsOwnerOrAdmin_object (r : RequestUser) (owner_pk : nat) : bool :=
  match r with
  | AnonymousUser => false
  | Authenticated u => is_admin u || bool_decide (owner_pk = pk u)
  end.

(** What the framework answers when a permission class refuses: 401 for a
    request without credentials, 403 for an authenticated one. *)
Definition permission_denied {A : Type} (r : RequestUser) : Response A :=
  if is_authenticated r then HTTP_403_FORBIDDEN else HTTP_401_UNAUTHORIZED.

End Permissions.

(** ** properties/models.py, properties/serializers.py, properties/views.py *)

Module Properties.
Import Users Permissions.

Inductive VerificationStatus : Type :=
| PENDING
| VERIFIED
| REJECTED.

#[global] Instance VerificationStatus_eq_dec : EqDecision VerificationStatus.
Proof. solve_decision. Defined.

(** A row of the property table.  Prices are counted in hundredths of a
    naira (two decimal places); [property_type] and [listing_type] hold the
    stored text; [location_name] and [location_city] are the columns of the
    related location row the search reads.
    [verification_status] is [None] only on an instance whose attribute was
    assigned [None]; the column is not nullable. *)
Record Property : Type := mkProperty {
  title : string;
  price : Z;
  property_type : string;
  listing_type : string;
  location_name : string;
  location_city : string;
  address : string;
  bedrooms : option nat;
  bathrooms : option nat;
  amenities : list nat;
  owner : nat;
  verification_status : option VerificationStatus;
  rejection_reason : option string;
  verified_by : option nat;
  verified_at : option Time;
  is_featured : bool;
  is_active : bool
}.

Definition set_verification_status (v : option VerificationStatus)
  (p : Property) : Property :=
  mkProperty (title p) (price p) (property_type p) (listing_type p)
    (location_name p) (location_city p) (address p) (bedrooms p) (bathrooms p)
    (amenities p) (owner p) v (rejection_reason p) (verified_by p)
    (verified_at p) (is_featured p) (is_active p).

Definition set_rejection_reason (r : option string) (p : Property) : Property :=
  mkProperty (title p) (price p) (property_type p) (listing_type p)
    (location_name p) (location_city p) (address p) (bedrooms p) (bathrooms p)
    (amenities p) (owner p) (verification_status p) r (verified_by p)
    (verified_at p) (is_featured p) (is_active p).

Definition set_verified_by (u : option nat) (p : Property) : Property :=
  mkProperty (title p) (price p) (property_type p) (listing_type p)
    (location_name p) (location_city p) (address p) (bedrooms p) (bathrooms p)
    (amenities p) (owner p) (verification_status p) (rejection_reason p) u
    (verified_at p) (is_featured p) (is_active p).

Definition set_verified_at (t : option Time) (p : Property) : Property :=
  mkProperty (title p) (price p) (property_type p) (listing_type p)
    (location_name p) (location_city p) (address p) (bedrooms p) (bathrooms p)
    (amenities p) (owner p) (verification_status p) (rejection_reason p)
    (verified_by p) t (is_featured p) (is_active p).

(** [Model.save] on a property: the row is written under its key; a null
    [verification_status] violates the column's NOT NULL constraint. *)
Definition Property_save (key : nat) (p : Property)
  (tbl : gmap nat Property) : Result (gmap nat Property) :=
  match verification_status p with
  | None => Raise IntegrityError
  | Some _ => Ok (<[key := p]> tbl)
  end.

(** The validated fields of [PropertyVerificationSerializer]; both are
    optional in the payload. *)
Record VerificationAttrs : Type := mkVerificationAttrs {
  attr_verification_status : option VerificationStatus;
  attr_rejection_reason : option string
}.

(** [PropertyVerificationSerializer.validate] *)
Definition PropertyVerificationSerializer_validate (attrs : VerificationAttrs)
  : Result VerificationAttrs :=
  if bool_decide (attr_verification_status attrs = Some REJECTED)
     && negb (truthy (attr_rejection_reason attrs))
  then Raise ValidationError
  else Ok attrs.

(** [PropertyVerificationSerializer.update], up to the call of
    [instance.save()]: the attribute writes on the instance. *)
Definition PropertyVerificationSerializer_assign (request_user : User)
  (now : Time) (instance : Property) (validated_data : VerificationAttrs)
  : Property :=
  let instance :=
    set_verification_status (attr_verification_status validated_data) instance in
  if bool_decide (verification_status instance = Some REJECTED) then
    set_rejection_reason (attr_rejection_reason validated_data) instance
  else if bool_decide (verification_status instance = Some VERIFIED) then
    let instance := set_verified_by (Some (pk request_user)) instance in
    let instance := set_verified_at (Some now) instance in
    set_rejection_reason None instance
  else instance.

(** [PropertyVerificationSerializer.update]: the writes, then the save;
    returns the instance and the table. *)
Definition PropertyVerificationSerializer_update (request_user : User)
  (now : Time) (key : nat) (instance : Property)
  (validated_data : VerificationAttrs) (tbl : gmap nat Property)
  : Result (Property * gmap nat Property) :=
  let instance :=
    PropertyVerificationSerializer_assign request_user now instance validated_data in
  tbl' <- Property_save key instance tbl ;;;
  Ok (instance, tbl').

(** The actions of [PropertyViewSet]. *)
Inductive Action : Type :=
| act_create
| act_update
| act_partial_update
| act_destroy
| act_verify
| act_list
| act_retrieve
| act_my_properties
| act_pending_verification
| act_search.

(** [PropertyViewSet.get_permissions]: the view-level check of each action.
    [IsOwnerOrAdmin] defines an object-level check only, so at view level it
    lets every request through. *)
Definition PropertyViewSet_get_permissions (a : Action) (r : RequestUser) : bool :=
  match a with
  | act_create => IsPropertyOwnerOrRealEstateFirm r && IsVerifiedUser r
  | act_update | act_partial_update | act_destroy => true
  | act_verify => IsAdmin r || IsGovernmentAgency r
  | act_list | act_retrieve => true
  | act_my_properties | act_pending_verification | act_search => IsVerifiedUser r
  end.

(** [PropertyViewSet.queryset]: [Property.objects.filter(is_active=True)] *)
Definition PropertyViewSet_queryset (tbl : gmap nat Property)
  : gmap nat Property :=
  qfilter is_active tbl.

(** [PropertyViewSet.verify] *)
Definition PropertyViewSet_verify (r : RequestUser) (key : nat)
  (data : VerificationAttrs) (now : Time) (tbl : gmap nat Property)
  : Response Property * gmap nat Property :=
  match r with
  | Authenticated u =>
    if PropertyViewSet_get_permissions act_verify r then
      match get_object (PropertyViewSet_queryset tbl) key with
      | None => (HTTP_404_NOT_FOUND, tbl)
      | Some property_instance =>
        match PropertyVerificationSerializer_validate data with
        | Raise _ => (HTTP_400_BAD_REQUEST, tbl)
        | Ok validated_data =>
          match PropertyVerificationSerializer_update u now key
                  property_instance validated_data tbl with
          | Ok (instance, tbl') => (HTTP_200_OK instance, tbl')
          | Raise e => (HTTP_500_SERVER_ERROR e, tbl)
          end
        end
      end
    else (permission_denied r, tbl)
  | AnonymousUser => (permission_denied r, tbl)
  end.

(** [PropertyViewSet.list].  The filter backends and the paginator only
    narrow the queryset by what the client asks for; [backend_filter] is
    that narrowing. *)
Definition PropertyViewSet_list (r : RequestUser)
  (backend_filter : Property -> bool) (tbl : gmap nat Property)
  : Response (list (nat * Property)) :=
  if PropertyViewSet_get_permissions act_list r then
    HTTP_200_OK (rows (qfilter backend_filter (PropertyViewSet_queryset tbl)))
  else permission_denied r.

(** [PropertyViewSet.retrieve] *)
Definition PropertyViewSet_retrieve (r : RequestUser) (key : nat)
  (tbl : gmap nat Property) : Response Property :=
  if PropertyViewSet_get_permissions act_retrieve r then
    match get_object (PropertyViewSet_queryset tbl) key with
    | Some p => HTTP_200_OK p
    | None => HTTP_404_NOT_FOUND
    end
  else permission_denied r.

(** The query parameters of [search]; a parameter that is absent or empty is
    [None]. *)
Record SearchParams : Type := mkSearchParams {
  min_price : option Z;
  max_price : option Z;
  q_property_type : option string;
  q_listing_type : option string;
  q_location : option string;
  min_bedrooms : option nat;
  min_bathrooms : option nat;
  q_amenities : list nat
}.

(** [if param: queryset = queryset.filter(cond)] *)
Definition filter_if {P : Type} (param : option P) (cond : P -> Property -> bool)
  (q : gmap nat Property) : gmap nat Property :=
  match param with
  | Some v => qfilter (cond v) q
  | None => q
  end.

(** [column__gte=bound] on a nullable column: a null never matches. *)
Definition gte_nullable (bound : nat) (column : option nat) : bool :=
  match column with
  | Some v => (bound <=? v)%nat
  | None => false
  end.

(** The body of [PropertyViewSet.search]: the queryset it serializes. *)
Definition search_queryset (params : SearchParams) (tbl : gmap nat Property)
  : gmap nat Property :=
  let queryset :=
    qfilter (fun p => is_active p
                      && bool_decide (verification_status p = Some VERIFIED)) tbl in
  let queryset := filter_if (min_price params) (fun v p => (v <=? price p)%Z) queryset in
  let queryset := filter_if (max_price params) (fun v p => (price p <=? v)%Z) queryset in
  let queryset :=
    filter_if (q_property_type params)
      (fun v p => String.eqb (property_type p) v) queryset in
  let queryset :=
    filter_if (q_listing_type params)
      (fun v p => String.eqb (listing_type p) v) queryset in
  let queryset :=
    filter_if (q_location params)
      (fun v p => icontains v (location_name p) || icontains v (location_city p)
                  || icontains v (address p)) queryset in
  let queryset :=
    filter_if (min_bedrooms params) (fun v p => gte_nullable v (bedrooms p)) queryset in
  let queryset :=
    filter_if (min_bathrooms params) (fun v p => gte_nullable v (bathrooms p)) queryset in
  foldl (fun q amenity => qfilter (fun p => bool_decide (amenity ∈ amenities p)) q)
        queryset (q_amenities params).

(** [PropertyViewSet.search] behind its permission check. *)
Definition PropertyViewSet_search (r : RequestUser) (params : SearchParams)
  (tbl : gmap nat Property) : Response (list (nat * Property)) :=
  if PropertyViewSet_get_permissions act_search r then
    HTTP_200_OK (rows (search_queryset params tbl))
  else permission_denied r.

End Properties.

(** ** users/serializers.py, users/views.py *)

Module UsersApi.
Import Users Permissions.

(** The validated fields of [UserSerializer].  The e-mail address and both
    passwords are required; the others may be absent. *)
Record UserAttrs : Type := mkUserAttrs {
  attr_email : string;
  attr_password : string;
  attr_password_confirmation : string;
  attr_first_name : option string;
  attr_last_name : option string;
  attr_role : option Role;
  attr_phone_number : option string;
  attr_address : option string
}.

(** [UserSerializer.validate] *)
Definition UserSerializer_validate (attrs : UserAttrs) : Result UserAttrs :=
  if String.eqb (attr_password attrs) (attr_password_confirmation attrs)
  then Ok attrs
  else Raise ValidationError.

(** [validated_data.get(key, default)] *)
Definition get_default {A : Type} (field : option A) (default : A) : A :=
  match field with
  | Some v => v
  | None => default
  end.

(** The white space of [str.strip], for ASCII texts: the codes 9 to 13 and
    28 to 32. *)
Definition is_space (c : ascii) : bool :=
  let n := nat_of_ascii c in
  ((9 <=? n) && (n <=? 13) || (28 <=? n) && (n <=? 32))%nat.

Fixpoint lstrip (s : string) : string :=
  match s with
  | EmptyString => EmptyString
  | String c t => if is_space c then lstrip t else s
  end.

Fixpoint rstrip (s : string) : string :=
  match s with
  | EmptyString => EmptyString
  | String c t =>
    match rstrip t with
    | EmptyString => if is_space c then EmptyString else String c EmptyString
    | t' => String c t'
    end
  end.

(** [s.strip()] *)
Definition strip (s : string) : string := rstrip (lstrip s).

(** [s.rsplit("@", 1)] where it gives two parts: the text before the last
    at sign and the text after it; [None] when [s] has no at sign, where
    the unpacking of the source raises. *)
Fixpoint rsplit_at (s : string) : option (string * string) :=
  match s with
  | EmptyString => None
  | String c t =>
    match rsplit_at t with
    | Some (email_name, domain_part) => Some (String c email_name, domain_part)
    | None => if Ascii.eqb c "@" then Some (EmptyString, t) else None
    end
  end.

(** [BaseUserManager.normalize_email]: the domain part of the stripped
    address in lower case; an address without an at sign is returned as it
    came. *)
Definition normalize_email (email : string) : string :=
  match rsplit_at (strip email) with
  | Some (email_name, domain_part) =>
    email_name ++ "@" ++ lower_string domain_part
  | None => email
  end.

(** Whether a row of the table has the e-mail address [e]: the condition of
    the unique constraint on the e-mail column. *)
Definition email_taken (e : string) (tbl : gmap nat User) : bool :=
  bool_decide (Exists (fun kv => email kv.2 = e) (map_to_list tbl)).

(** [UserManager._create_user] behind [UserManager.create_user], which sets
    [is_staff] and [is_superuser] to false.  The address is normalised; the
    insertion of [user.save] fails on the unique constraint of the e-mail
    column when a row already has the normalised address, and otherwise the
    new row takes a key the table does not use; [is_verified] starts at its
    column default.  The hashing of the password is left out: the row keeps
    the text as given. *)
Definition UserManager_create_user (email password first_name last_name : string)
  (role : Role) (phone_number address : string) (tbl : gmap nat User)
  : Result (User * gmap nat User) :=
  if String.eqb email "" then Raise ValueError
  else
    let email := normalize_email email in
    let user := mkUser (fresh (dom tbl)) email password first_name last_name
                       role phone_number address false false false in
    if email_taken email tbl then Raise IntegrityError
    else Ok (user, User_save user tbl).

(** [UserSerializer.create] *)
Definition UserSerializer_create (validated_data : UserAttrs)
  (tbl : gmap nat User) : Result (User * gmap nat User) :=
  UserManager_create_user
    (attr_email validated_data)
    (attr_password validated_data)
    (get_default (attr_first_name validated_data) "")
    (get_default (attr_last_name validated_data) "")
    (get_default (attr_role validated_data) BUYER_RENTER)
    (get_default (attr_phone_number validated_data) "")
    (get_default (attr_address validated_data) "")
    tbl.

(** The actions of [UserViewSet]. *)
Inductive UserAction : Type :=
| user_create
| user_update
| user_partial_update
| user_change_password
| user_list
| user_retrieve
| user_destroy
| user_me.

(** [UserViewSet.get_permissions] *)
Definition UserViewSet_get_permissions (a : UserAction) (r : RequestUser) : bool :=
  match a with
  | user_create => AllowAny r
  | user_update | user_partial_update | user_change_password => IsAuthenticated r
  | user_list | user_retrieve | user_destroy => IsAdmin r
  | user_me => IsAuthenticated r
  end.

(** [UserViewSet.create]: registration.  The unique validator of the e-mail
    field looks the address up as it was sent, before [validate] runs; an
    exception of [create] is not caught and ends the request as a server
    error. *)
Definition UserViewSet_create (r : RequestUser) (data : UserAttrs)
  (tbl : gmap nat User) : Response User * gmap nat User :=
  if UserViewSet_get_permissions user_create r then
    if email_taken (attr_email data) tbl then (HTTP_400_BAD_REQUEST, tbl)
    else
      match UserSerializer_validate data with
      | Raise _ => (HTTP_400_BAD_REQUEST, tbl)
      | Ok validated_data =>
        match UserSerializer_create validated_data tbl with
        | Ok (user, tbl') => (HTTP_201_CREATED user, tbl')
        | Raise e => (HTTP_500_SERVER_ERROR e, tbl)
        end
      end
  else (permission_denied r, tbl).

(** The validated fields of [UserUpdateSerializer]: its [Meta.fields] list
    (the profile picture, a file, is left out). *)
Record UserUpdateAttrs : Type := mkUserUpdateAttrs {
  upd_first_name : option string;
  upd_last_name : option string;
  upd_phone_number : option string;
  upd_address : option string
}.

(** [UserUpdateSerializer.update], the inherited model-serializer update:
    every validated field is written to the attribute of its name. *)
Definition UserUpdateSerializer_assign (instance : User)
  (validated_data : UserUpdateAttrs) : User :=
  mkUser (pk instance) (email instance) (password instance)
    (get_default (upd_first_name validated_data) (first_name instance))
    (get_default (upd_last_name validated_data) (last_name instance))
    (role instance)
    (get_default (upd_phone_number validated_data) (phone_number instance))
    (get_default (upd_address validated_data) (address instance))
    (is_verified instance) (is_staff instance) (is_superuser instance).

(** The validated fields of [KYCVerificationUpdateSerializer]. *)
Record KYCAttrs : Type := mkKYCAttrs {
  attr_status : option KYCStatus;
  attr_kyc_rejection_reason : option string
}.

(** [KYCVerificationUpdateSerializer.validate] *)
Definition KYCVerificationUpdateSerializer_validate (attrs : KYCAttrs)
  : Result KYCAttrs :=
  if bool_decide (attr_status attrs = Some KYC_REJECTED)
     && negb (truthy (attr_kyc_rejection_reason attrs))
  then Raise ValidationError
  else Ok attrs.

(** [rest_framework.fields.Field.get_default] on a field constructed with
    the default [default] ([None]: constructed without one): a field without
    a default raises [SkipField]. *)
Definition Field_get_default (default : option Time) : Result Time :=
  match default with
  | None => Raise SkipField
  | Some d => Ok d
  end.

(** [DateTimeField.to_representation] and [DateTimeField.to_internal_value]:
    the ISO text of a time and the time of an ISO text. *)
Definition DateTimeField_to_representation (t : Time) : Result Time := Ok t.
Definition DateTimeField_to_internal_value (t : Time) : Result Time := Ok t.

(** The right-hand side of the assignment to [instance.verified_at] in
    [KYCVerificationUpdateSerializer.update]; each [DateTimeField()] there is
    constructed without arguments. *)
Definition verified_at_expression : Result Time :=
  d <- Field_get_default None ;;;
  r <- DateTimeField_to_representation d ;;;
  v <- DateTimeField_to_internal_value r ;;;
  DateTimeField_to_representation v.

(** The body of [KYCVerificationUpdateSerializer.update] with the value
    assigned to [instance.verified_at] computed by [stamp]. *)
Definition update_with (stamp : Result Time) (request_user : User) (key : nat)
  (instance : KYCVerification) (validated_data : KYCAttrs)
  (users : gmap nat User) (kycs : gmap nat KYCVerification)
  : Result (KYCVerification * gmap nat User * gmap nat KYCVerification) :=
  match users !! kyc_user instance with
  | None => Raise DoesNotExist
  | Some user =>
    let status := attr_status validated_data in
    let instance := set_kyc_status status instance in
    iu <- (if bool_decide (status = Some KYC_REJECTED) then
             Ok (set_kyc_rejection_reason
                   (attr_kyc_rejection_reason validated_data) instance,
                 set_is_verified false user)
           else if bool_decide (status = Some KYC_APPROVED) then
             let user := set_is_verified true user in
             let instance := set_kyc_verified_by (Some (pk request_user)) instance in
             t <- stamp ;;;
             Ok (set_kyc_verified_at (Some t) instance, user)
           else Ok (instance, user)) ;;;
    let users' := User_save iu.2 users in
    kycs' <- KYCVerification_save key iu.1 kycs ;;;
    Ok (iu.1, users', kycs')
  end.

(** [KYCVerificationUpdateSerializer.update] *)
Definition KYCVerificationUpdateSerializer_update :=
  update_with verified_at_expression.

(** [KYCVerificationViewSet.get_permissions] for [update] and
    [partial_update] *)
Definition KYCVerificationViewSet_update_permission (r : RequestUser) : bool :=
  IsAdmin r || IsGovernmentAgency r.

(** [KYCVerificationViewSet.get_queryset] *)
Definition KYCVerificationViewSet_get_queryset (user : User)
  (kycs : gmap nat KYCVerification) : gmap nat KYCVerification :=
  if is_admin user || is_government user then kycs
  else qfilter (fun k => bool_decide (kyc_user k = pk user)) kycs.

(** [KYCVerificationViewSet.partial_update] (and [update]): the inherited
    update of the view set with [KYCVerificationUpdateSerializer].  When an
    exception leaves the serializer nothing has been saved: the only save
    that can precede a raise writes back a user row that was not changed. *)
Definition KYCVerificationViewSet_partial_update (r : RequestUser) (key : nat)
  (data : KYCAttrs) (users : gmap nat User) (kycs : gmap nat KYCVerification)
  : Response KYCVerification * gmap nat User * gmap nat KYCVerification :=
  match r with
  | Authenticated u =>
    if KYCVerificationViewSet_update_permission r then
      match get_object (KYCVerificationViewSet_get_queryset u kycs) key with
      | None => (HTTP_404_NOT_FOUND, users, kycs)
      | Some instance =>
        match KYCVerificationUpdateSerializer_validate data with
        | Raise _ => (HTTP_400_BAD_REQUEST, users, kycs)
        | Ok validated_data =>
          match KYCVerificationUpdateSerializer_update u key instance
                  validated_data users kycs with
          | Ok (instance', users', kycs') => (HTTP_200_OK instance', users', kycs')
          | Raise e => (HTTP_500_SERVER_ERROR e, users, kycs)
          end
        end
      end
    else (permission_denied r, users, kycs)
  | AnonymousUser => (permission_denied r, users, kycs)
  end.

End UsersApi.

(** ** leads/models.py, leads/views.py, leads/serializers.py *)

Module Leads.
Import Users Permissions.

Definition NEW : string := "new".
Definition CONTACTED : string := "contacted".
Definition QUALIFIED : string := "qualified".
Definition LOST : string := "lost".
Definition CONVERTED : string := "converted".

Definition STATUS_CHOICES : list (string * string) :=
  [(NEW, "New"); (CONTACTED, "Contacted"); (QUALIFIED, "Qualified");
   (LOST, "Lost"); (CONVERTED, "Converted")].

(** [dict(Lead.STATUS_CHOICES).keys()] *)
Definition STATUS_KEYS : list string := STATUS_CHOICES.*1.

(** A row of the lead table; [status] holds the stored text. *)
Record Lead : Type := mkLead {
  user : nat;
  property : nat;
  status : string;
  message : string
}.

Definition set_status (s : string) (l : Lead) : Lead :=
  mkLead (user l) (property l) s (message l).

(** [lead.property.owner]: the owner of the related property row. *)
Definition property_owner (l : Lead) (properties : gmap nat Properties.Property)
  : option nat :=
  Properties.owner <$> properties !! property l.

(** [LeadViewSet.get_queryset] *)
Definition LeadViewSet_get_queryset (u : User)
  (properties : gmap nat Properties.Property) (leads : gmap nat Lead)
  : gmap nat Lead :=
  if is_property_owner u || is_real_estate_firm u then
    qfilter (fun l => bool_decide (property_owner l properties = Some (pk u))) leads
  else
    qfilter (fun l => bool_decide (user l = pk u)) leads.

(** [LeadViewSet.update_status]; [status_value] is
    [request.data.get('status')]. *)
Definition LeadViewSet_update_status (r : RequestUser) (key : nat)
  (status_value : option string) (properties : gmap nat Properties.Property)
  (leads : gmap nat Lead) : Response Lead * gmap nat Lead :=
  match r with
  | AnonymousUser => (permission_denied r, leads)
  | Authenticated u =>
    match get_object (LeadViewSet_get_queryset u properties leads) key with
    | None => (HTTP_404_NOT_FOUND, leads)
    | Some lead =>
      match status_value with
      | None => (HTTP_400_BAD_REQUEST, leads)
      | Some value =>
        if negb (truthy status_value) || negb (bool_decide (value ∈ STATUS_KEYS))
        then (HTTP_400_BAD_REQUEST, leads)
        else
          match property_owner lead properties with
          | None => (HTTP_500_SERVER_ERROR DoesNotExist, leads)
          | Some owner_pk =>
            if negb (bool_decide (pk u = owner_pk)) && negb (is_admin u)
            then (HTTP_403_FORBIDDEN, leads)
            else
              let lead := set_status value lead in
              (HTTP_200_OK lead, <[key := lead]> leads)
          end
      end
    end
  end.

(** [LeadViewSet.partial_update], the inherited update of the view set with
    [LeadSerializer], for a body that carries at most the [status] field.
    [status] is a writable choice field of the serializer: a value outside
    the choices (the empty text included) is a validation error, a valid one
    is written to the instance, which is then saved. *)
Definition LeadViewSet_partial_update (r : RequestUser) (key : nat)
  (data_status : option string) (properties : gmap nat Properties.Property)
  (leads : gmap nat Lead) : Response Lead * gmap nat Lead :=
  match r with
  | AnonymousUser => (permission_denied r, leads)
  | Authenticated u =>
    match get_object (LeadViewSet_get_queryset u properties leads) key with
    | None => (HTTP_404_NOT_FOUND, leads)
    | Some lead =>
      match data_status with
      | None => (HTTP_200_OK lead, <[key := lead]> leads)
      | Some value =>
        if bool_decide (value ∈ STATUS_KEYS) then
          let lead := set_status value lead in
          (HTTP_200_OK lead, <[key := lead]> leads)
        else (HTTP_400_BAD_REQUEST, leads)
      end
    end
  end.

End Leads.

(** ** payments/models.py, payments/views.py *)

Module Payments.
Import Users Permissions.

Inductive PaymentStatus : Type :=
| PENDING
| COMPLETED
| FAILED
| REFUNDED.

#[global] Instance PaymentStatus_eq_dec : EqDecision PaymentStatus.
Proof. solve_decision. Defined.

(** A row of the payment table; amounts are counted in hundredths. *)
Record Payment : Type := mkPayment {
  property : nat;
  payer : nat;
  receiver : nat;
  amount : Z;
  reference : string;
  status : PaymentStatus;
  completed_at : option Time
}.

Definition set_status (s : PaymentStatus) (p : Payment) : Payment :=
  mkPayment (property p) (payer p) (receiver p) (amount p) (reference p) s
            (completed_at p).

Definition set_completed_at (t : option Time) (p : Payment) : Payment :=
  mkPayment (property p) (payer p) (receiver p) (amount p) (reference p)
            (status p) t.

(** [Payment.save]; [now] is the reading of the clock. *)
Definition Payment_save (now : Time) (key : nat) (p : Payment)
  (tbl : gmap nat Payment) : Payment * gmap nat Payment :=
  let p :=
    if bool_decide (status p = COMPLETED) && negb (bool_decide (is_Some (completed_at p)))
    then set_completed_at (Some now) p
    else p in
  (p, <[key := p]> tbl).

(** A row of the transaction table. *)
Record Transaction : Type := mkTransaction {
  payment : nat;
  transaction_type : string;
  t_amount : Z;
  t_status : string;
  gateway_response : string
}.

Inductive InvoiceStatus : Type :=
| INV_PENDING
| PAID
| OVERDUE
| CANCELLED.

#[global] Instance InvoiceStatus_eq_dec : EqDecision InvoiceStatus.
Proof. solve_decision. Defined.

(** A row of the invoice table; [inv_payment] is the one-to-one link to a
    payment, null until a payment is generated. *)
Record Invoice : Type := mkInvoice {
  inv_property : nat;
  inv_user : nat;
  inv_payment : option nat;
  invoice_number : string;
  inv_amount : Z;
  inv_status : InvoiceStatus;
  due_date : Date
}.

Definition set_inv_status (s : InvoiceStatus) (i : Invoice) : Invoice :=
  mkInvoice (inv_property i) (inv_user i) (inv_payment i) (invoice_number i)
            (inv_amount i) s (due_date i).

(** [Invoice.is_overdue]; [today] is [timezone.now().date()]. *)
Definition Invoice_is_overdue (today : Date) (i : Invoice) : bool :=
  bool_decide (inv_status i = INV_PENDING) && (due_date i <? today)%Z.

(** [Invoice.save] *)
Definition Invoice_save (today : Date) (key : nat) (i : Invoice)
  (tbl : gmap nat Invoice) : Invoice * gmap nat Invoice :=
  let i :=
    if Invoice_is_overdue today i && bool_decide (inv_status i = INV_PENDING)
    then set_inv_status OVERDUE i
    else i in
  (i, <[key := i]> tbl).

(** The three tables the payment views touch. *)
Record Tables : Type := mkTables {
  payments : gmap nat Payment;
  transactions : list Transaction;
  invoices : gmap nat Invoice
}.

(** [PaymentViewSet.get_queryset] *)
Definition PaymentViewSet_get_queryset (u : User) (tbl : gmap nat Payment)
  : gmap nat Payment :=
  if is_staff u then tbl
  else qfilter (fun p => bool_decide (payer p = pk u)
                         || bool_decide (receiver p = pk u)) tbl.

(** [payment.invoice]: the invoice whose one-to-one link points at the
    payment, if there is one. *)
Definition payment_invoice (key : nat) (tbl : gmap nat Invoice)
  : option (nat * Invoice) :=
  head (rows (qfilter (fun i => bool_decide (inv_payment i = Some key)) tbl)).

(** [PaymentViewSet.verify_payment]; [now] is [timezone.now()] and [today]
    its date. *)
Definition PaymentViewSet_verify_payment (r : RequestUser) (key : nat)
  (now : Time) (today : Date) (db : Tables) : Response Payment * Tables :=
  match r with
  | AnonymousUser => (permission_denied r, db)
  | Authenticated u =>
    match get_object (PaymentViewSet_get_queryset u (payments db)) key with
    | None => (HTTP_404_NOT_FOUND, db)
    | Some payment =>
      let payment := set_status COMPLETED payment in
      let payment := set_completed_at (Some now) payment in
      let '(payment, payments') := Payment_save now key payment (payments db) in
      let transactions' :=
        (transactions db ++
         [mkTransaction key "verification" (amount payment) "success"
                        "Payment verified successfully"])%list in
      let invoices' :=
        match payment_invoice key (invoices db) with
        | Some (ikey, invoice) =>
          let invoice := set_inv_status PAID invoice in
          (Invoice_save today ikey invoice (invoices db)).2
        | None => invoices db
        end in
      (HTTP_200_OK payment, mkTables payments' transactions' invoices')
    end
  end.

(** [InvoiceViewSet.get_queryset] *)
Definition InvoiceViewSet_get_queryset (u : User)
  (properties : gmap nat Properties.Property) (tbl : gmap nat Invoice)
  : gmap nat Invoice :=
  if is_staff u then tbl
  else if bool_decide (role u ∈ [PROPERTY_OWNER; REAL_ESTATE_FIRM]) then
    qfilter (fun i => bool_decide
               (Properties.owner <$> properties !! inv_property i = Some (pk u))) tbl
  else qfilter (fun i => bool_decide (inv_user i = pk u)) tbl.

(** [rest_framework.fields.Field.bind]: binding a field to a serializer
    under the name [field_name].  [source] is the [source] argument the field
    was declared with, [None] when it has none; a source equal to the name
    of the field is refused by an assertion. *)
Definition Field_bind (field_name : string) (source : option string)
  : Result unit :=
  if bool_decide (source = Some field_name) then Raise AssertionError
  else Ok tt.

(** The fields of [InvoiceSerializer], payments/serializers.py, in the order
    of [Meta.fields], each with its [source] argument. *)
Definition InvoiceSerializer_fields : list (string * option string) :=
  [("id", None); ("property", None); ("property_id", Some "property");
   ("user", None); ("payment", None); ("invoice_number", None);
   ("amount", None); ("description", None); ("status", None);
   ("due_date", None); ("created_at", None); ("updated_at", None);
   ("is_overdue", Some "is_overdue")].

(** The first access to [serializer.fields] binds every field in turn. *)
Fixpoint bind_fields (fields : list (string * option string)) : Result unit :=
  match fields with
  | [] => Ok tt
  | (field_name, source) :: rest =>
    bound <- Field_bind field_name source ;;;
    bind_fields rest
  end.

(** What the representation of an invoice says about its status. *)
Record InvoiceData : Type := mkInvoiceData {
  data_status : InvoiceStatus;
  data_is_overdue : bool
}.

(** [InvoiceSerializer(instance).data]: the fields are bound, then [status]
    is read from the column and [is_overdue] from the method. *)
Definition InvoiceSerializer_data (today : Date) (i : Invoice)
  : Result InvoiceData :=
  bound <- bind_fields InvoiceSerializer_fields ;;;
  Ok (mkInvoiceData (inv_status i) (Invoice_is_overdue today i)).

(** [InvoiceViewSet.retrieve]: [get_object] on the queryset, then the
    representation of the instance.  Nothing is saved on the way. *)
Definition InvoiceViewSet_retrieve (r : RequestUser) (key : nat) (today : Date)
  (properties : gmap nat Properties.Property) (tbl : gmap nat Invoice)
  : Response InvoiceData :=
  match r with
  | AnonymousUser => permission_denied r
  | Authenticated u =>
    match get_object (InvoiceViewSet_get_queryset u properties tbl) key with
    | Some i =>
      match InvoiceSerializer_data today i with
      | Ok data => HTTP_200_OK data
      | Raise e => HTTP_500_SERVER_ERROR e
      end
    | None => HTTP_404_NOT_FOUND
    end
  end.

(** The queryset of [InvoiceViewSet.overdue]: the invoices of the caller's
    queryset that are stored as overdue. *)
Definition InvoiceViewSet_overdue_queryset (u : User)
  (properties : gmap nat Properties.Property) (tbl : gmap nat Invoice)
  : gmap nat Invoice :=
  qfilter (fun i => bool_decide (inv_status i = OVERDUE))
          (InvoiceViewSet_get_queryset u properties tbl).

End Payments.

(** ** Sample rows *)

Module Samples.
Import Users.

Definition admin_user : User :=
  mkUser 1%nat "admin@example.com" "adminpass" "Admin" "User" ADMIN "" ""
         true true true.

Definition government_user : User :=
  mkUser 2%nat "gov@example.com" "govpass" "Gov" "Agency" GOVERNMENT "" ""
         true false false.

Definition owner_user : User :=
  mkUser 3%nat "owner@example.com" "password123" "Olu" "Owner" PROPERTY_OWNER
         "" "" true false false.

Definition buyer_user : User :=
  mkUser 4%nat "buyer@example.com" "password123" "Bola" "Buyer" BUYER_RENTER
         "" "" false false false.

Definition verified_buyer_user : User :=
  mkUser 6%nat "tenant@example.com" "password123" "Tayo" "Tenant" BUYER_RENTER
         "" "" true false false.

Definition second_government_user : User :=
  mkUser 5%nat "lands@example.com" "govpass" "Lands" "Bureau" GOVERNMENT "" ""
         true false false.

Definition user_table : gmap nat User :=
  {[ 1%nat := admin_user; 2%nat := government_user; 3%nat := owner_user;
     4%nat := buyer_user; 5%nat := second_government_user;
     6%nat := verified_buyer_user ]}.

(** The owner's KYC record, approved by the administrator at time 50, and
    the buyer's record, which waits for review. *)
Definition owner_kyc : KYCVerification :=
  mkKYC 3%nat (Some KYC_APPROVED) 40 (Some 50) (Some 1%nat) None.

Definition buyer_kyc : KYCVerification :=
  mkKYC 4%nat (Some KYC_PENDING) 60 None None None.

Definition kyc_table : gmap nat KYCVerification :=
  {[ 1%nat := owner_kyc; 2%nat := buyer_kyc ]}.

(** A listing of the owner that waits for review. *)
Definition pending_property : Properties.Property :=
  Properties.mkProperty "Unverified House" 1000000000 "house" "for_sale"
    "Ikeja" "Lagos" "456 Oak Ave" (Some 3%nat) (Some 2%nat) [] 3%nat
    (Some Properties.PENDING) None None None false true.

(** A listing the government user verified at time 100. *)
Definition verified_property : Properties.Property :=
  Properties.mkProperty "Beautiful Apartment" 5000000000 "apartment" "for_sale"
    "Lekki Phase 1" "Lagos" "123 Main St" (Some 3%nat) (Some 3%nat) [] 3%nat
    (Some Properties.VERIFIED) None (Some 2%nat) (Some 100) false true.

Definition property_table : gmap nat Properties.Property :=
  {[ 1%nat := pending_property; 2%nat := verified_property ]}.



Definition reject_without_reason : Properties.VerificationAttrs :=
  Properties.mkVerificationAttrs (Some Properties.REJECTED) None.

Definition verify_attrs : Properties.VerificationAttrs :=
  Properties.mkVerificationAttrs (Some Properties.VERIFIED) None.

(** The buyer's enquiry about the verified listing. *)
Definition buyer_lead : Leads.Lead :=
  Leads.mkLead 4%nat 2%nat Leads.NEW "Is the apartment still available?".

Definition lead_table : gmap nat Leads.Lead := {[ 1%nat := buyer_lead ]}.

(** The buyer's payments to the owner: one pending, one that failed. *)
Definition pending_payment : Payments.Payment :=
  Payments.mkPayment 2%nat 4%nat 3%nat 5000000000 "PAY-1A2B3C4D"
    Payments.PENDING None.

Definition failed_payment : Payments.Payment :=
  Payments.mkPayment 2%nat 4%nat 3%nat 5000000000 "PAY-5E6F7A8B"
    Payments.FAILED None.

(** The invoice of the pending payment, due on day 500, and an invoice
    without payment that was due on day 9. *)
Definition linked_invoice : Payments.Invoice :=
  Payments.mkInvoice 2%nat 4%nat (Some 1%nat) "INV-0A1B2C3D" 5000000000
    Payments.INV_PENDING 500.

Definition late_invoice : Payments.Invoice :=
  Payments.mkInvoice 2%nat 4%nat None "INV-4E5F6A7B" 250000
    Payments.INV_PENDING 9.

Definition paid_invoice : Payments.Invoice :=
  Payments.mkInvoice 2%nat 4%nat None "INV-8C9D0E1F" 250000 Payments.PAID 9.

Definition invoice_table : gmap nat Payments.Invoice :=
  {[ 1%nat := linked_invoice; 2%nat := late_invoice ]}.

Definition payment_tables : Payments.Tables :=
  Payments.mkTables {[ 1%nat := pending_payment; 2%nat := failed_payment ]} []
    invoice_table.

(** The tables after the buyer has had payment 1 verified at time 100, and
    after the same request has been repeated at time 200. *)
Definition tables_after_first : Payments.Tables :=
  (Payments.PaymentViewSet_verify_payment (Authenticated buyer_user) 1%nat
     100 10 payment_tables).2.

Definition tables_after_second : Payments.Tables :=
  (Payments.PaymentViewSet_verify_payment (Authenticated buyer_user) 1%nat
     200 10 tables_after_first).2.

(** A registration payload that asks for the administrator role. *)
Definition admin_registration : UsersApi.UserAttrs :=
  UsersApi.mkUserAttrs "root@example.com" "adminpassword123" "adminpassword123"
    (Some "Admin") (Some "User") (Some ADMIN) None None.

End Samples.

(** ** properties/views.py and properties/serializers.py: the owner's actions *)

Module PropertyActions.
Import Users Permissions Properties.

(** [PropertyViewSet.my_properties]: the requester's own listings, read from
    the whole table. *)
Definition PropertyViewSet_my_properties (r : RequestUser)
  (tbl : gmap nat Property) : Response (list (nat * Property)) :=
  match r with
  | AnonymousUser => permission_denied r
  | Authenticated u =>
    if PropertyViewSet_get_permissions act_my_properties r then
      HTTP_200_OK (rows (qfilter (fun p => bool_decide (owner p = pk u)) tbl))
    else permission_denied r
  end.

(** [PropertyViewSet.pending_verification]: behind the permission class of
    the action, the view checks the role itself and reads the whole table. *)
Definition PropertyViewSet_pending_verification (r : RequestUser)
  (tbl : gmap nat Property) : Response (list (nat * Property)) :=
  match r with
  | AnonymousUser => permission_denied r
  | Authenticated u =>
    if PropertyViewSet_get_permissions act_pending_verification r then
      if negb (is_admin u || is_government u) then HTTP_403_FORBIDDEN
      else
        HTTP_200_OK
          (rows (qfilter (fun p => bool_decide (verification_status p = Some PENDING))
                   tbl))
    else permission_denied r
  end.

(** The validated writable fields of [PropertyDetailSerializer] that the row
    record carries; an absent field is [None].  [upd_location] is the name
    and city of the location row that [location_id] resolves to; a nullable
    column can be set to null. *)
Record PropertyDetailAttrs : Type := mkPropertyDetailAttrs {
  upd_title : option string;
  upd_price : option Z;
  upd_property_type : option string;
  upd_listing_type : option string;
  upd_location : option (string * string);
  upd_address : option string;
  upd_bedrooms : option (option nat);
  upd_bathrooms : option (option nat);
  upd_amenities : option (list nat);
  upd_is_featured : option bool;
  upd_is_active : option bool
}.

(** [validated_data.get(key, current)] *)
Definition or_keep {A : Type} (field : option A) (current : A) : A :=
  match field with
  | Some v => v
  | None => current
  end.

(** The loop of [PropertyDetailSerializer.update]: every validated field but
    the amenities is written to the attribute of its name. *)
Definition PropertyDetailSerializer_assign (instance : Property)
  (validated_data : PropertyDetailAttrs) : Property :=
  mkProperty
    (or_keep (upd_title validated_data) (title instance))
    (or_keep (upd_price validated_data) (price instance))
    (or_keep (upd_property_type validated_data) (property_type instance))
    (or_keep (upd_listing_type validated_data) (listing_type instance))
    (or_keep (fst <$> upd_location validated_data) (location_name instance))
    (or_keep (snd <$> upd_location validated_data) (location_city instance))
    (or_keep (upd_address validated_data) (address instance))
    (or_keep (upd_bedrooms validated_data) (bedrooms instance))
    (or_keep (upd_bathrooms validated_data) (bathrooms instance))
    (amenities instance)
    (owner instance)
    (verification_status instance)
    (rejection_reason instance)
    (verified_by instance)
    (verified_at instance)
    (or_keep (upd_is_featured validated_data) (is_featured instance))
    (or_keep (upd_is_active validated_data) (is_active instance)).

Definition set_amenities (l : list nat) (p : Property) : Property :=
  mkProperty (title p) (price p) (property_type p) (listing_type p)
    (location_name p) (location_city p) (address p) (bedrooms p) (bathrooms p)
    l (owner p) (verification_status p) (rejection_reason p) (verified_by p)
    (verified_at p) (is_featured p) (is_active p).

(** [PropertyDetailSerializer.update]: the amenities are popped, the other
    fields written and the instance saved, then the amenities are set. *)
Definition PropertyDetailSerializer_update (key : nat) (instance : Property)
  (validated_data : PropertyDetailAttrs) (tbl : gmap nat Property)
  : Result (Property * gmap nat Property) :=
  let instance := PropertyDetailSerializer_assign instance validated_data in
  tbl' <- Property_save key instance tbl ;;;
  match upd_amenities validated_data with
  | Some l => Ok (set_amenities l instance, <[key := set_amenities l instance]> tbl')
  | None => Ok (instance, tbl')
  end.

(** [PropertyViewSet.partial_update] (and [update]) for an authenticated
    requester: the inherited update of the view set, with the object
    permission [IsOwnerOrAdmin] checked by [get_object]. *)
Definition PropertyViewSet_partial_update (u : User) (key : nat)
  (data : PropertyDetailAttrs) (tbl : gmap nat Property)
  : Response Property * gmap nat Property :=
  if PropertyViewSet_get_permissions act_partial_update (Authenticated u) then
    match get_object (PropertyViewSet_queryset tbl) key with
    | None => (HTTP_404_NOT_FOUND, tbl)
    | Some instance =>
      if IsOwnerOrAdmin_object (Authenticated u) (owner instance) then
        match PropertyDetailSerializer_update key instance data tbl with
        | Ok (instance', tbl') => (HTTP_200_OK instance', tbl')
        | Raise e => (HTTP_500_SERVER_ERROR e, tbl)
        end
      else (HTTP_403_FORBIDDEN, tbl)
    end
  else (HTTP_403_FORBIDDEN, tbl).

End PropertyActions.

(** ** More sample rows *)

Module MoreSamples.
Import Users.

(** A government user whose own KYC has not been approved. *)
Definition unverified_government_user : User :=
  mkUser 7%nat "survey@example.com" "govpass" "Survey" "Office" GOVERNMENT "" ""
         false false false.

(** The owner raises the price of the verified listing. *)
Definition price_change : PropertyActions.PropertyDetailAttrs :=
  PropertyActions.mkPropertyDetailAttrs None (Some 5500000000) None None None
    None None None None None None.

Definition repriced_property : Properties.Property :=
  Properties.mkProperty "Beautiful Apartment" 5500000000 "apartment" "for_sale"
    "Lekki Phase 1" "Lagos" "123 Main St" (Some 3%nat) (Some 3%nat) [] 3%nat
    (Some Properties.VERIFIED) None (Some 2%nat) (Some 100) false true.

(** The owner takes the verified listing off the market. *)
Definition deactivation : PropertyActions.PropertyDetailAttrs :=
  PropertyActions.mkPropertyDetailAttrs None None None None None None None None
    None None (Some false).

Definition deactivated_property : Properties.Property :=
  Properties.mkProperty "Beautiful Apartment" 5000000000 "apartment" "for_sale"
    "Lekki Phase 1" "Lagos" "123 Main St" (Some 3%nat) (Some 3%nat) [] 3%nat
    (Some Properties.VERIFIED) None (Some 2%nat) (Some 100) false false.

Definition reactivation : PropertyActions.PropertyDetailAttrs :=
  PropertyActions.mkPropertyDetailAttrs None None None None None None None None
    None None (Some true).

End MoreSamples.

(** ** users/serializers.py and users/views.py: submission, passwords, profiles *)

Module UserActions.
Import Users Permissions UsersApi.

(** The validated fields of [KYCSubmissionSerializer]; a document is the
    name of the uploaded file.  The user record does not carry these
    columns. *)
Record KYCSubmissionAttrs : Type := mkKYCSubmissionAttrs {
  id_type : option string;
  id_number : option string;
  id_document : option string;
  business_name : option string;
  business_registration_number : option string;
  business_document : option string
}.

(** [KYCSubmissionSerializer.validate]; [user] is the requester. *)
Definition KYCSubmissionSerializer_validate (user : User)
  (attrs : KYCSubmissionAttrs) : Result KYCSubmissionAttrs :=
  if bool_decide (role user ∈ [PROPERTY_OWNER; BUYER_RENTER])
     && (negb (truthy (id_type attrs)) || negb (truthy (id_number attrs))
         || negb (truthy (id_document attrs)))
  then Raise ValidationError
  else if bool_decide (role user = REAL_ESTATE_FIRM)
          && (negb (truthy (business_name attrs))
              || negb (truthy (business_registration_number attrs))
              || negb (truthy (business_document attrs)))
  then Raise ValidationError
  else Ok attrs.

Definition set_submitted_at (t : Time) (k : KYCVerification) : KYCVerification :=
  mkKYC (kyc_user k) (kyc_status k) t (kyc_verified_at k) (kyc_verified_by k)
        (kyc_rejection_reason k).

(** [KYCVerification.objects.get_or_create(user=user)] at time [now]: the
    key and the row of the user's record, the table with the row in it, and
    whether the row was created. *)
Definition get_or_create (user : User) (now : Time)
  (kycs : gmap nat KYCVerification)
  : nat * KYCVerification * gmap nat KYCVerification * bool :=
  match head (rows (qfilter (fun k => bool_decide (kyc_user k = pk user)) kycs)) with
  | Some (key, kyc) => (key, kyc, kycs, false)
  | None =>
    let kyc := mkKYC (pk user) (Some KYC_PENDING) now None None None in
    (fresh (dom kycs), kyc, <[fresh (dom kycs) := kyc]> kycs, true)
  end.

(** [KYCVerificationViewSet.submit] *)
Definition KYCVerificationViewSet_submit (r : RequestUser)
  (data : KYCSubmissionAttrs) (now : Time)
  (users : gmap nat User) (kycs : gmap nat KYCVerification)
  : Response unit * gmap nat User * gmap nat KYCVerification :=
  match r with
  | AnonymousUser => (permission_denied r, users, kycs)
  | Authenticated user =>
    match KYCSubmissionSerializer_validate user data with
    | Raise _ => (HTTP_400_BAD_REQUEST, users, kycs)
    | Ok _ =>
      let users' := User_save user users in
      let '(key, kyc, kycs', created) := get_or_create user now kycs in
      let kyc :=
        if negb created then
          set_kyc_verified_by None
            (set_kyc_verified_at None
               (set_kyc_rejection_reason None
                  (set_kyc_status (Some KYC_PENDING) kyc)))
        else kyc in
      let kyc := set_submitted_at now kyc in
      match KYCVerification_save key kyc kycs' with
      | Ok kycs'' => (HTTP_200_OK tt, users', kycs'')
      | Raise e => (HTTP_500_SERVER_ERROR e, users', kycs')
      end
    end
  end.

(** [KYCVerificationViewSet.pending] *)
Definition KYCVerificationViewSet_pending (r : RequestUser)
  (kycs : gmap nat KYCVerification) : Response (list (nat * KYCVerification)) :=
  match r with
  | AnonymousUser => permission_denied r
  | Authenticated u =>
    if negb (is_admin u || is_government u) then HTTP_403_FORBIDDEN
    else
      HTTP_200_OK
        (rows (qfilter (fun k => bool_decide (kyc_status k = Some KYC_PENDING)) kycs))
  end.

(** The fields of [ChangePasswordSerializer], all required. *)
Record ChangePasswordAttrs : Type := mkChangePasswordAttrs {
  old_password : string;
  new_password : string;
  confirm_password : string
}.

(** [ChangePasswordSerializer.validate] *)
Definition ChangePasswordSerializer_validate (attrs : ChangePasswordAttrs)
  : Result ChangePasswordAttrs :=
  if String.eqb (new_password attrs) (confirm_password attrs) then Ok attrs
  else Raise ValidationError.

(** [user.check_password] and [user.set_password] on a row that keeps the
    password text as given. *)
Definition check_password (u : User) (raw : string) : bool :=
  String.eqb (password u) raw.

Definition set_password (raw : string) (u : User) : User :=
  mkUser (pk u) (email u) raw (first_name u) (last_name u) (role u)
         (phone_number u) (address u) (is_verified u) (is_staff u)
         (is_superuser u).

(** [UserViewSet.change_password] *)
Definition UserViewSet_change_password (r : RequestUser)
  (data : ChangePasswordAttrs) (users : gmap nat User)
  : Response unit * gmap nat User :=
  match r with
  | AnonymousUser => (permission_denied r, users)
  | Authenticated user =>
    if UserViewSet_get_permissions user_change_password r then
      match ChangePasswordSerializer_validate data with
      | Raise _ => (HTTP_400_BAD_REQUEST, users)
      | Ok validated_data =>
        if negb (check_password user (old_password validated_data))
        then (HTTP_400_BAD_REQUEST, users)
        else
          (HTTP_200_OK tt,
           User_save (set_password (new_password validated_data) user) users)
      end
    else (permission_denied r, users)
  end.

(** [UserViewSet.partial_update] (and [update]): the inherited update of the
    view set with [UserUpdateSerializer] on the queryset of all users. *)
Definition UserViewSet_partial_update (r : RequestUser) (key : nat)
  (data : UserUpdateAttrs) (users : gmap nat User)
  : Response User * gmap nat User :=
  if UserViewSet_get_permissions user_partial_update r then
    match get_object users key with
    | None => (HTTP_404_NOT_FOUND, users)
    | Some instance =>
      let instance := UserUpdateSerializer_assign instance data in
      (HTTP_200_OK instance, User_save instance users)
    end
  else (permission_denied r, users).

End UserActions.

Module UserSamples.
Import Users.

(** The buyer's identity papers. *)
Definition buyer_submission : UserActions.KYCSubmissionAttrs :=
  UserActions.mkKYCSubmissionAttrs (Some "National ID") (Some "123456789")
    (Some "national_id.pdf") None None None.

Definition buyer_record_after : KYCVerification :=
  mkKYC 4%nat (Some KYC_PENDING) 70 None None None.

(** The owner, approved earlier, submits again. *)
Definition owner_submission : UserActions.KYCSubmissionAttrs :=
  UserActions.mkKYCSubmissionAttrs (Some "Passport") (Some "A7654321")
    (Some "passport.pdf") None None None.

Definition buyer_password_change : UserActions.ChangePasswordAttrs :=
  UserActions.mkChangePasswordAttrs "password123" "newsecurepassword"
    "newsecurepassword".

(** New profile texts, sent by the buyer for the owner's row. *)
Definition profile_change : UsersApi.UserUpdateAttrs :=
  UsersApi.mkUserUpdateAttrs (Some "Mallory") None (Some "0800000000") None.

End UserSamples.

(** ** leads/models.py, leads/serializers.py, leads/views.py: messages *)

Module Messages.
Import Users Permissions Leads.

(** A row of the message table. *)
Record Message : Type := mkMessage {
  lead : nat;
  sender : nat;
  receiver : nat;
  content : string;
  is_read : bool
}.

Definition set_is_read (b : bool) (m : Message) : Message :=
  mkMessage (lead m) (sender m) (receiver m) (content m) b.

(** The writable fields of [MessageSerializer], all required: the keys of a
    lead and of a receiver and the text after trimming. *)
Record MessageAttrs : Type := mkMessageAttrs {
  attr_lead : nat;
  attr_receiver : nat;
  attr_content : string
}.

(** [MessageSerializer.create]; [lead_key] and [lead_row] are the validated
    lead of the payload. *)
Definition MessageSerializer_create (sender_user : User) (lead_key : nat)
  (lead_row : Lead) (text : string)
  (properties : gmap nat Properties.Property) (messages : gmap nat Message)
  : Result (Message * gmap nat Message) :=
  receiver_pk <-
    (if bool_decide (pk sender_user = user lead_row) then
       match property_owner lead_row properties with
       | Some owner_pk => Ok owner_pk
       | None => Raise DoesNotExist
       end
     else Ok (user lead_row)) ;;;
  let message := mkMessage lead_key (pk sender_user) receiver_pk text false in
  Ok (message, <[fresh (dom messages) := message]> messages).

(** The test of [MessageViewSet.create] on the lead of the URL:
    [request.user != lead.user and request.user != lead.property.owner and
    not request.user.is_admin], evaluated left to right. *)
Definition not_a_participant (u : User) (lead_row : Lead)
  (properties : gmap nat Properties.Property) : Result bool :=
  if negb (bool_decide (pk u = user lead_row)) then
    match property_owner lead_row properties with
    | None => Raise DoesNotExist
    | Some owner_pk =>
      Ok (negb (bool_decide (pk u = owner_pk)) && negb (is_admin u))
    end
  else Ok false.

(** [MessageViewSet.create]; [lead_pk] is the lead of the URL. *)
Definition MessageViewSet_create (r : RequestUser) (lead_pk : nat)
  (data : MessageAttrs) (users : gmap nat User)
  (properties : gmap nat Properties.Property) (leads : gmap nat Lead)
  (messages : gmap nat Message) : Response Message * gmap nat Message :=
  match r with
  | AnonymousUser => (permission_denied r, messages)
  | Authenticated u =>
    match leads !! lead_pk with
    | None => (HTTP_500_SERVER_ERROR DoesNotExist, messages)
    | Some url_lead =>
      match not_a_participant u url_lead properties with
      | Raise e => (HTTP_500_SERVER_ERROR e, messages)
      | Ok true => (HTTP_403_FORBIDDEN, messages)
      | Ok false =>
        match leads !! attr_lead data, users !! attr_receiver data with
        | Some payload_lead, Some _ =>
          if negb (truthy (Some (attr_content data)))
          then (HTTP_400_BAD_REQUEST, messages)
          else
            match MessageSerializer_create u (attr_lead data) payload_lead
                    (attr_content data) properties messages with
            | Ok (message, messages') => (HTTP_201_CREATED message, messages')
            | Raise e => (HTTP_500_SERVER_ERROR e, messages)
            end
        | _, _ => (HTTP_400_BAD_REQUEST, messages)
        end
      end
    end
  end.

(** [MessageViewSet.get_queryset] *)
Definition MessageViewSet_get_queryset (lead_pk : nat)
  (messages : gmap nat Message) : gmap nat Message :=
  qfilter (fun m => bool_decide (lead m = lead_pk)) messages.

(** The queryset of [MessageViewSet.unread] *)
Definition unread_queryset (u : User) (lead_pk : nat)
  (messages : gmap nat Message) : gmap nat Message :=
  qfilter (fun m => bool_decide (lead m = lead_pk)
                    && bool_decide (receiver m = pk u) && negb (is_read m))
          messages.

(** [MessageViewSet.unread] *)
Definition MessageViewSet_unread (r : RequestUser) (lead_pk : nat)
  (messages : gmap nat Message) : Response (list (nat * Message)) :=
  match r with
  | AnonymousUser => permission_denied r
  | Authenticated u => HTTP_200_OK (rows (unread_queryset u lead_pk messages))
  end.

(** [MessageViewSet.mark_as_read] *)
Definition MessageViewSet_mark_as_read (r : RequestUser) (lead_pk key : nat)
  (messages : gmap nat Message) : Response Message * gmap nat Message :=
  match r with
  | AnonymousUser => (permission_denied r, messages)
  | Authenticated u =>
    match get_object (MessageViewSet_get_queryset lead_pk messages) key with
    | None => (HTTP_404_NOT_FOUND, messages)
    | Some message =>
      if negb (bool_decide (pk u = receiver message))
      then (HTTP_403_FORBIDDEN, messages)
      else
        let message := set_is_read true message in
        (HTTP_200_OK message, <[key := message]> messages)
    end
  end.

End Messages.

Module LeadSamples.
Import Users.

(** A second enquiry, by the verified buyer, about the same listing. *)
Definition tenant_lead : Leads.Lead :=
  Leads.mkLead 6%nat 2%nat Leads.NEW "Can I view it on Saturday?".

Definition two_leads : gmap nat Leads.Lead :=
  {[ 1%nat := Samples.buyer_lead; 2%nat := tenant_lead ]}.

(** The buyer writes about lead 1; the payload names the owner as receiver. *)
Definition buyer_message : Messages.MessageAttrs :=
  Messages.mkMessageAttrs 1%nat 3%nat "Is the price negotiable?".

Definition stored_buyer_message : Messages.Message :=
  Messages.mkMessage 1%nat 4%nat 3%nat "Is the price negotiable?" false.

Definition message_table : gmap nat Messages.Message :=
  {[ 1%nat := stored_buyer_message ]}.

End LeadSamples.

(** ** payments/models.py and payments/views.py: invoices, payments, subscriptions *)

Module Invoicing.
Import Users Permissions Payments.

Inductive PaymentType : Type :=
| RENT
| PURCHASE
| DEPOSIT
| COMMISSION.

#[global] Instance PaymentType_eq_dec : EqDecision PaymentType.
Proof. solve_decision. Defined.

(** The columns of a payment row that the payment record leaves out, kept in
    a table of their own under the key of the payment. *)
Record PaymentColumns : Type := mkPaymentColumns {
  payment_type : PaymentType;
  payment_method : string
}.

Definition set_inv_payment (k : option nat) (i : Invoice) : Invoice :=
  mkInvoice (inv_property i) (inv_user i) k (invoice_number i) (inv_amount i)
            (inv_status i) (due_date i).

(** The unique constraint on the reference column. *)
Definition reference_taken (ref : string) (tbl : gmap nat Payment) : bool :=
  bool_decide (Exists (fun kv => reference kv.2 = ref) (map_to_list tbl)).

(** [InvoiceViewSet.generate_payment].  [payment_method] is
    [request.data.get('payment_method')] and [ref] the reference drawn for
    the new payment; [now] and [today] are the clock readings of the two
    saves. *)
Definition InvoiceViewSet_generate_payment (r : RequestUser) (key : nat)
  (payment_method : option string) (ref : string) (now : Time) (today : Date)
  (properties : gmap nat Properties.Property) (db : Tables)
  (columns : gmap nat PaymentColumns)
  : Response (Payment * PaymentColumns) * Tables * gmap nat PaymentColumns :=
  match r with
  | AnonymousUser => (permission_denied r, db, columns)
  | Authenticated u =>
    match get_object (InvoiceViewSet_get_queryset u properties (invoices db)) key with
    | None => (HTTP_404_NOT_FOUND, db, columns)
    | Some invoice =>
      if bool_decide (is_Some (inv_payment invoice))
      then (HTTP_400_BAD_REQUEST, db, columns)
      else
        match payment_method with
        | None => (HTTP_400_BAD_REQUEST, db, columns)
        | Some method =>
          if negb (truthy payment_method) then (HTTP_400_BAD_REQUEST, db, columns)
          else
            match properties !! inv_property invoice with
            | None => (HTTP_500_SERVER_ERROR DoesNotExist, db, columns)
            | Some prop =>
              if reference_taken ref (payments db)
              then (HTTP_500_SERVER_ERROR IntegrityError, db, columns)
              else
                let pkey := fresh (dom (payments db)) in
                let payment :=
                  mkPayment (inv_property invoice) (inv_user invoice)
                    (Properties.owner prop) (inv_amount invoice) ref PENDING None in
                let cols :=
                  mkPaymentColumns
                    (if String.eqb (Properties.listing_type prop) "for_rent"
                     then RENT else PURCHASE)
                    method in
                let '(payment, payments') :=
                  Payment_save now pkey payment (payments db) in
                let invoice := set_inv_payment (Some pkey) invoice in
                let '(_, invoices') := Invoice_save today key invoice (invoices db) in
                (HTTP_201_CREATED (payment, cols),
                 mkTables payments' (transactions db) invoices',
                 <[pkey := cols]> columns)
            end
        end
    end
  end.

(** The querysets that [PaymentViewSet.my_payments] and
    [PaymentViewSet.received_payments] hand to the paginator. *)
Definition my_payments_queryset (u : User) (tbl : gmap nat Payment)
  : gmap nat Payment :=
  qfilter (fun p => bool_decide (payer p = pk u)) (PaymentViewSet_get_queryset u tbl).

Definition received_payments_queryset (u : User) (tbl : gmap nat Payment)
  : gmap nat Payment :=
  qfilter (fun p => bool_decide (receiver p = pk u))
          (PaymentViewSet_get_queryset u tbl).

End Invoicing.

Module Subscriptions.

Inductive SubscriptionStatus : Type :=
| ACTIVE
| EXPIRED
| CANCELLED.

#[global] Instance SubscriptionStatus_eq_dec : EqDecision SubscriptionStatus.
Proof. solve_decision. Defined.

(** A row of the subscription table. *)
Record Subscription : Type := mkSubscription {
  user : nat;
  payment_plan : nat;
  start_date : Date;
  end_date : Date;
  status : SubscriptionStatus
}.

Definition set_status (s : SubscriptionStatus) (x : Subscription) : Subscription :=
  mkSubscription (user x) (payment_plan x) (start_date x) (end_date x) s.

(** [Subscription.is_expired]; [today] is [timezone.now().date()]. *)
Definition Subscription_is_expired (today : Date) (x : Subscription) : bool :=
  (end_date x <? today)%Z.

(** [Subscription.save] *)
Definition Subscription_save (today : Date) (key : nat) (x : Subscription)
  (tbl : gmap nat Subscription) : Subscription * gmap nat Subscription :=
  let x :=
    if Subscription_is_expired today x && bool_decide (status x = ACTIVE)
    then set_status EXPIRED x
    else x in
  (x, <[key := x]> tbl).

End Subscriptions.

Module PaymentSamples.
Import Users.

(** A payment completed at time 100. *)
Definition completed_payment : Payments.Payment :=
  Payments.mkPayment 2%nat 4%nat 3%nat 5000000000 "PAY-9A8B7C6D"
    Payments.COMPLETED (Some 100).

(** A subscription of the buyer that ran out on day 30, still stored as
    active, and one the buyer cancelled. *)
Definition lapsed_subscription : Subscriptions.Subscription :=
  Subscriptions.mkSubscription 4%nat 1%nat 1 30 Subscriptions.ACTIVE.

Definition cancelled_subscription : Subscriptions.Subscription :=
  Subscriptions.mkSubscription 4%nat 1%nat 1 30 Subscriptions.CANCELLED.

(** The tables before any payment exists: one invoice of the buyer, due on
    day 500, for the verified listing. *)
Definition open_invoice : Payments.Invoice :=
  Payments.mkInvoice 2%nat 4%nat None "INV-2B3C4D5E" 5000000000
    Payments.INV_PENDING 500.

Definition opening_tables : Payments.Tables :=
  Payments.mkTables ∅ [] {[ 1%nat := open_invoice ]}.

End PaymentSamples.

Module InvoiceSamples.
Import Users.

(** The buyer has a payment generated for the open invoice. *)
Definition generated_payment : Payments.Payment :=
  Payments.mkPayment 2%nat 4%nat 3%nat 5000000000 "PAY-AAAA1111"
    Payments.PENDING None.

Definition generated_columns : Invoicing.PaymentColumns :=
  Invoicing.mkPaymentColumns Invoicing.PURCHASE "paystack".

Definition tables_after_generation : Payments.Tables :=
  (Invoicing.InvoiceViewSet_generate_payment (Authenticated Samples.buyer_user)
     1%nat (Some "paystack") "PAY-AAAA1111" 50 10 Samples.property_table
     PaymentSamples.opening_tables ∅).1.2.

Definition columns_after_generation : gmap nat Invoicing.PaymentColumns :=
  (Invoicing.InvoiceViewSet_generate_payment (Authenticated Samples.buyer_user)
     1%nat (Some "paystack") "PAY-AAAA1111" 50 10 Samples.property_table
     PaymentSamples.opening_tables ∅).2.

End InvoiceSamples.

(** ** favorites/models.py and favorites/views.py *)

Module Favorites.
Import Users Permissions.

(** A row of the favorite table; the pair of its columns is unique. *)
Record Favorite : Type := mkFavorite {
  user : nat;
  property : nat
}.

(** [FavoriteViewSet.get_queryset] *)
Definition FavoriteViewSet_get_queryset (u : User) (tbl : gmap nat Favorite)
  : gmap nat Favorite :=
  qfilter (fun f => bool_decide (user f = pk u)) tbl.

(** [Favorite.objects.filter(user=request.user, property_id=property_id)
    .first()]; a missing [property_id] matches no row. *)
Definition existing_favorite (u : User) (property_id : option nat)
  (tbl : gmap nat Favorite) : option (nat * Favorite) :=
  head (rows (qfilter (fun f => bool_decide (user f = pk u)
                                && bool_decide (Some (property f) = property_id))
                tbl)).

(** [FavoriteViewSet.create]; [property_id] is [request.data.get('property')].
    The serializer requires the field and checks that it is the key of a
    property. *)
Definition FavoriteViewSet_create (r : RequestUser) (property_id : option nat)
  (properties : gmap nat Properties.Property) (tbl : gmap nat Favorite)
  : Response Favorite * gmap nat Favorite :=
  match r with
  | AnonymousUser => (permission_denied r, tbl)
  | Authenticated u =>
    match existing_favorite u property_id tbl with
    | Some _ => (HTTP_400_BAD_REQUEST, tbl)
    | None =>
      match property_id with
      | None => (HTTP_400_BAD_REQUEST, tbl)
      | Some pid =>
        match properties !! pid with
        | None => (HTTP_400_BAD_REQUEST, tbl)
        | Some _ =>
          let favorite := mkFavorite (pk u) pid in
          (HTTP_201_CREATED favorite, <[fresh (dom tbl) := favorite]> tbl)
        end
      end
    end
  end.

End Favorites.

Module FavoriteSamples.

(** The buyer has saved the verified listing. *)
Definition buyer_favorite : Favorites.Favorite := Favorites.mkFavorite 4%nat 2%nat.

Definition favorite_table : gmap nat Favorites.Favorite :=
  {[ 1%nat := buyer_favorite ]}.

End FavoriteSamples.

(** * Properties of the code *)

(** ** Results and truth values *)

Lemma truthy_Some_nonempty (s : string) : s ≠ "" -> truthy (Some s) = true.
Proof.
  intros Hs. unfold truthy.
  destruct (String.eqb_spec s ""); [contradiction | reflexivity].
Qed.

Lemma truthy_false (o : option string) :
  truthy o = false <-> o = None \/ o = Some "".
Proof.
  destruct o as [s|]; simpl.
  - destruct (String.eqb_spec s ""); subst; split; intros H; auto.
    + discriminate.
    + destruct H as [H|H]; [discriminate | congruence].
  - split; auto.
Qed.

Lemma lookup_qfilter_Some {A : Type} (f : A -> bool) (q : gmap nat A) k x :
  qfilter f q !! k = Some x <-> q !! k = Some x /\ f x = true.
Proof. unfold qfilter. apply map_lookup_filter_Some. Qed.

Lemma elem_of_rows {A : Type} (q : gmap nat A) k x :
  (k, x) ∈ rows q <-> q !! k = Some x.
Proof. unfold rows. apply elem_of_map_to_list. Qed.

(** ** Property verification *)

Section PropertyVerification.
Import Users Permissions Properties.

Lemma assign_verified u now p r :
  let p' := PropertyVerificationSerializer_assign u now p
              (mkVerificationAttrs (Some VERIFIED) r) in
  verification_status p' = Some VERIFIED /\ verified_by p' = Some (pk u) /\
  verified_at p' = Some now /\ rejection_reason p' = None /\ owner p' = owner p.
Proof. cbn. repeat split. Qed.


Lemma update_saves u now key p s r tbl :
  PropertyVerificationSerializer_update u now key p
    (mkVerificationAttrs (Some s) r) tbl
  = Ok (PropertyVerificationSerializer_assign u now p (mkVerificationAttrs (Some s) r),
        <[key := PropertyVerificationSerializer_assign u now p
                   (mkVerificationAttrs (Some s) r)]> tbl).
Proof.
  unfold PropertyVerificationSerializer_update, Property_save.
  destruct s; reflexivity.
Qed.



Lemma verify_permission_iff (r : RequestUser) :
  PropertyViewSet_get_permissions act_verify r = true <->
  exists u, r = Authenticated u /\ (role u = ADMIN \/ role u = GOVERNMENT).
Proof.
  destruct r as [|u]; cbn.
  - split; [discriminate | intros (u & Hu & _); discriminate].
  - unfold is_admin, is_government. rewrite orb_true_iff, !bool_decide_eq_true.
    split; [eauto | intros (u' & [= <-] & H); exact H].
Qed.

Lemma verify_permission_reviewer (u : User) :
  is_admin u || is_government u = true ->
  PropertyViewSet_get_permissions act_verify (Authenticated u) = true.
Proof. intros H. exact H. Qed.

(** C7: for a user whose role is neither ADMIN nor GOVERNMENT, verified or
    not, the permission check of the verify action fails, the view answers
    403 and the property table is left as it was. *)
Theorem verify_forbidden_without_capability (u : User) (key : nat)
  (data : VerificationAttrs) (now : Time) (tbl : gmap nat Property) :
  role u <> ADMIN -> role u <> GOVERNMENT ->
  PropertyViewSet_get_permissions act_verify (Authenticated u) = false /\
  PropertyViewSet_verify (Authenticated u) key data now tbl
  = (HTTP_403_FORBIDDEN, tbl).
Proof.
  intros Ha Hg.
  assert (Hp : PropertyViewSet_get_permissions act_verify (Authenticated u) = false).
  { apply not_true_is_false. rewrite verify_permission_iff.
    intros (u' & [= <-] & [H|H]); contradiction. }
  split; [exact Hp |].
  unfold PropertyViewSet_verify. rewrite Hp. reflexivity.
Qed.

Lemma verify_forbidden_verified_buyer :
  (role Samples.verified_buyer_user <> ADMIN /\
   role Samples.verified_buyer_user <> GOVERNMENT /\
   is_verified Samples.verified_buyer_user = true) /\
  (PropertyViewSet_get_permissions act_verify
     (Authenticated Samples.verified_buyer_user) = false /\
   PropertyViewSet_verify (Authenticated Samples.verified_buyer_user) 1%nat
     Samples.verify_attrs 300 Samples.property_table
   = (HTTP_403_FORBIDDEN, Samples.property_table)).
Proof.
  split; [repeat split; discriminate |].
  apply (verify_forbidden_without_capability Samples.verified_buyer_user 1%nat
           Samples.verify_attrs 300 Samples.property_table); discriminate.
Defined.

Lemma verify_anonymous key data now tbl :
  PropertyViewSet_verify AnonymousUser key data now tbl
  = (HTTP_401_UNAUTHORIZED, tbl).
Proof. reflexivity. Qed.



End PropertyVerification.

(** ** KYC review *)

Section KYCReview.
Import Users Permissions UsersApi.









(** Had the time stamp of the approval evaluated to [t], the approval would
    have marked the owner verified and stamped the record with the reviewer
    and [t]. *)
Lemma update_with_approved_stamp t u key k reason owner users kycs :
  users !! kyc_user k = Some owner ->
  exists k',
    update_with (Ok t) u key k (mkKYCAttrs (Some KYC_APPROVED) reason) users kycs
    = Ok (k', User_save (set_is_verified true owner) users, <[key := k']> kycs) /\
    kyc_status k' = Some KYC_APPROVED /\
    kyc_verified_by k' = Some (pk u) /\
    kyc_verified_at k' = Some t.
Proof.
  intros Ho. unfold update_with. rewrite Ho. cbn.
  eexists. split; [reflexivity |]. cbn. repeat split.
Qed.

Lemma verified_at_expression_raises : verified_at_expression = Raise SkipField.
Proof. reflexivity. Qed.

(** As the code stands the approval never returns: the time stamp raises
    before either save. *)
Lemma update_approved_raises u key k reason users kycs :
  exists e,
    KYCVerificationUpdateSerializer_update u key k
      (mkKYCAttrs (Some KYC_APPROVED) reason) users kycs = Raise e.
Proof.
  unfold KYCVerificationUpdateSerializer_update, update_with.
  destruct (users !! kyc_user k); [| eauto].
  cbn. eauto.
Qed.

Lemma partial_update_approved_saves_nothing r key reason users kycs :
  (KYCVerificationViewSet_partial_update r key
     (mkKYCAttrs (Some KYC_APPROVED) reason) users kycs).2 = kycs /\
  (KYCVerificationViewSet_partial_update r key
     (mkKYCAttrs (Some KYC_APPROVED) reason) users kycs).1.2 = users /\
  response_data (KYCVerificationViewSet_partial_update r key
     (mkKYCAttrs (Some KYC_APPROVED) reason) users kycs).1.1 = None.
Proof.
  unfold KYCVerificationViewSet_partial_update.
  destruct r as [|u]; [repeat split |].
  destruct (KYCVerificationViewSet_update_permission _); [| repeat split].
  destruct (get_object _ _) as [k|]; [| repeat split].
  replace (KYCVerificationUpdateSerializer_validate
             (mkKYCAttrs (Some KYC_APPROVED) reason))
    with (Ok (mkKYCAttrs (Some KYC_APPROVED) reason)) by reflexivity.
  destruct (update_approved_raises u key k reason users kycs) as [e ->].
  repeat split.
Qed.

(** C4 at the request of the repository's own test: the administrator
    approves the buyer's pending KYC record.  The view ends in a server
    error raised by the time-stamp expression; the buyer is still
    unverified and the record still pending and unstamped. *)
Theorem kyc_approval_is_not_saved :
  KYCVerificationViewSet_partial_update (Authenticated Samples.admin_user) 2%nat
    (mkKYCAttrs (Some KYC_APPROVED) None) Samples.user_table Samples.kyc_table
  = (HTTP_500_SERVER_ERROR SkipField, Samples.user_table, Samples.kyc_table) /\
  is_verified <$> Samples.user_table !! 4%nat = Some false /\
  Samples.kyc_table !! 2%nat = Some Samples.buyer_kyc.
Proof. repeat split; vm_compute; reflexivity. Qed.

(** A rejection does reach both saves: the administrator rejects the owner's
    approved record and the owner is stored as unverified. *)
Lemma kyc_rejection_unverifies_owner :
  is_verified <$>
    (KYCVerificationViewSet_partial_update (Authenticated Samples.admin_user) 1%nat
       (mkKYCAttrs (Some KYC_REJECTED) (Some "ID document blurry"))
       Samples.user_table Samples.kyc_table).1.2 !! 3%nat
  = Some false.
Proof. vm_compute. reflexivity. Qed.

End KYCReview.

(** ** Which listings a query returns *)

Section PropertyQueries.
Import Users Permissions Properties.

Lemma lookup_filter_if {P : Type} (param : option P) cond q k p :
  filter_if param cond q !! k = Some p -> q !! k = Some p.
Proof.
  destruct param as [v|]; cbn; [| tauto].
  rewrite lookup_qfilter_Some. tauto.
Qed.

Lemma lookup_amenities_fold (l : list nat) (q : gmap nat Property) k p :
  foldl (fun q amenity => qfilter (fun p => bool_decide (amenity ∈ amenities p)) q)
        q l !! k = Some p ->
  q !! k = Some p.
Proof.
  revert q. induction l as [|a l IH]; intros q; cbn; [tauto |].
  intros H. apply IH in H. apply lookup_qfilter_Some in H. tauto.
Qed.

Lemma search_queryset_verified params tbl k p :
  search_queryset params tbl !! k = Some p ->
  tbl !! k = Some p /\ is_active p = true /\ verification_status p = Some VERIFIED.
Proof.
  unfold search_queryset. intros H.
  apply lookup_amenities_fold in H.
  do 7 apply lookup_filter_if in H.
  apply lookup_qfilter_Some in H. destruct H as [Hk Hf].
  apply andb_true_iff in Hf. destruct Hf as [Ha Hv].
  apply bool_decide_eq_true in Hv. auto.
Qed.

Lemma list_rows r flt tbl :
  PropertyViewSet_list r flt tbl
  = HTTP_200_OK (rows (qfilter flt (PropertyViewSet_queryset tbl))).
Proof. reflexivity. Qed.

Lemma list_row_iff flt tbl k p :
  (k, p) ∈ rows (qfilter flt (PropertyViewSet_queryset tbl)) <->
  tbl !! k = Some p /\ is_active p = true /\ flt p = true.
Proof.
  rewrite elem_of_rows, lookup_qfilter_Some.
  unfold PropertyViewSet_queryset. rewrite lookup_qfilter_Some. tauto.
Qed.

(** C6, as the code has it: to an unverified user, list answers with
    exactly the active rows that pass the client's own filters and retrieve
    with the active row under the key, whatever their verification status;
    search is refused with 403.  Every row that search returns to anyone is
    active and VERIFIED. *)
Theorem property_queries_scope (u : User) (flt : Property -> bool)
  (key : nat) (params : SearchParams) (tbl : gmap nat Property) :
  is_verified u = false ->
  (exists l,
     PropertyViewSet_list (Authenticated u) flt tbl = HTTP_200_OK l /\
     forall k p, (k, p) ∈ l <->
                 tbl !! k = Some p /\ is_active p = true /\ flt p = true) /\
  (forall p,
     PropertyViewSet_retrieve (Authenticated u) key tbl = HTTP_200_OK p <->
     tbl !! key = Some p /\ is_active p = true) /\
  PropertyViewSet_search (Authenticated u) params tbl = HTTP_403_FORBIDDEN /\
  (forall r l k p,
     PropertyViewSet_search r params tbl = HTTP_200_OK l -> (k, p) ∈ l ->
     is_active p = true /\ verification_status p = Some VERIFIED).
Proof.
  intros Hu. split; [| split; [| split]].
  - eexists. split; [apply list_rows |]. intros k p. apply list_row_iff.
  - intros p. unfold PropertyViewSet_retrieve, get_object. cbn.
    unfold PropertyViewSet_queryset.
    destruct (qfilter is_active tbl !! key) as [q|] eqn:Hq.
    + apply lookup_qfilter_Some in Hq. destruct Hq as [Hk Ha].
      split.
      * intros [= <-]. auto.
      * intros [Hk' _]. congruence.
    + split; [discriminate |]. intros [Hk Ha].
      assert (H : qfilter is_active tbl !! key = Some p)
        by (apply lookup_qfilter_Some; auto).
      congruence.
  - unfold PropertyViewSet_search. cbn. rewrite Hu. reflexivity.
  - intros r l k p Hs Hin. unfold PropertyViewSet_search in Hs.
    destruct (PropertyViewSet_get_permissions act_search r).
    + injection Hs as <-. apply elem_of_rows in Hin.
      apply search_queryset_verified in Hin. tauto.
    + unfold permission_denied in Hs. destruct (is_authenticated r); discriminate.
Qed.

Lemma property_queries_scope_buyer :
  is_verified Samples.buyer_user = false /\
  ((exists l,
      PropertyViewSet_list (Authenticated Samples.buyer_user) (fun _ => true)
        Samples.property_table = HTTP_200_OK l /\
      forall k p, (k, p) ∈ l <->
                  Samples.property_table !! k = Some p /\ is_active p = true /\
                  true = true) /\
   (forall p,
      PropertyViewSet_retrieve (Authenticated Samples.buyer_user) 1%nat
        Samples.property_table = HTTP_200_OK p <->
      Samples.property_table !! 1%nat = Some p /\ is_active p = true) /\
   PropertyViewSet_search (Authenticated Samples.buyer_user)
     (mkSearchParams None None None None None None None [])
     Samples.property_table = HTTP_403_FORBIDDEN /\
   (forall r l k p,
      PropertyViewSet_search r (mkSearchParams None None None None None None None [])
        Samples.property_table = HTTP_200_OK l -> (k, p) ∈ l ->
      is_active p = true /\ verification_status p = Some VERIFIED)).
Proof.
  split; [reflexivity |].
  apply (property_queries_scope Samples.buyer_user (fun _ => true) 1%nat
           (mkSearchParams None None None None None None None [])
           Samples.property_table).
  reflexivity.
Defined.

(** C6 as stated fails: the unverified buyer lists and retrieves the listing
    that is still pending review. *)
Lemma unverified_buyer_sees_pending_listing :
  is_verified Samples.buyer_user = false /\
  role Samples.buyer_user = BUYER_RENTER /\
  PropertyViewSet_list (Authenticated Samples.buyer_user) (fun _ => true)
    Samples.property_table
  = HTTP_200_OK [(2%nat, Samples.verified_property); (1%nat, Samples.pending_property)] /\
  PropertyViewSet_retrieve (Authenticated Samples.buyer_user) 1%nat
    Samples.property_table
  = HTTP_200_OK Samples.pending_property /\
  verification_status Samples.pending_property = Some PENDING.
Proof. repeat split; vm_compute; reflexivity. Qed.

End PropertyQueries.

(** ** Lead status *)

Section LeadStatus.
Import Users Permissions Leads.

Lemma status_key_truthy (value : string) :
  value ∈ STATUS_KEYS -> truthy (Some value) = true.
Proof.
  intros H. apply truthy_Some_nonempty. intros ->.
  vm_compute in H. repeat (apply elem_of_cons in H as [H|H]; [discriminate |]).
  inversion H.
Qed.

(** The owner of the listing, or an administrator who can see the lead,
    writes any of the five values, whatever the lead's status is. *)
Lemma update_status_allowed u key value properties leads lead owner_pk :
  get_object (LeadViewSet_get_queryset u properties leads) key = Some lead ->
  value ∈ STATUS_KEYS ->
  property_owner lead properties = Some owner_pk ->
  pk u = owner_pk \/ is_admin u = true ->
  LeadViewSet_update_status (Authenticated u) key (Some value) properties leads
  = (HTTP_200_OK (set_status value lead), <[key := set_status value lead]> leads).
Proof.
  intros Hl Hv Ho Hu. unfold LeadViewSet_update_status. rewrite Hl.
  rewrite (status_key_truthy value Hv), (bool_decide_eq_true_2 _ Hv). cbn [negb orb].
  rewrite Ho.
  destruct Hu as [Hu|Hu].
  - rewrite (bool_decide_eq_true_2 _ Hu). reflexivity.
  - rewrite Hu, andb_false_r. reflexivity.
Qed.

(** Anyone else who can see the lead is refused by [update_status]. *)
Lemma update_status_forbidden u key value properties leads lead owner_pk :
  get_object (LeadViewSet_get_queryset u properties leads) key = Some lead ->
  value ∈ STATUS_KEYS ->
  property_owner lead properties = Some owner_pk ->
  pk u <> owner_pk -> is_admin u = false ->
  LeadViewSet_update_status (Authenticated u) key (Some value) properties leads
  = (HTTP_403_FORBIDDEN, leads).
Proof.
  intros Hl Hv Ho Hne Ha. unfold LeadViewSet_update_status. rewrite Hl.
  rewrite (status_key_truthy value Hv), (bool_decide_eq_true_2 _ Hv). cbn [negb orb].
  rewrite Ho, (bool_decide_eq_false_2 _ Hne), Ha. reflexivity.
Qed.

(** A value outside the five is refused by [update_status] for everyone. *)
Lemma update_status_invalid_value u key value properties leads lead :
  get_object (LeadViewSet_get_queryset u properties leads) key = Some lead ->
  value ∉ STATUS_KEYS ->
  LeadViewSet_update_status (Authenticated u) key (Some value) properties leads
  = (HTTP_400_BAD_REQUEST, leads).
Proof.
  intros Hl Hv. unfold LeadViewSet_update_status. rewrite Hl.
  rewrite (bool_decide_eq_false_2 _ Hv), orb_true_r. reflexivity.
Qed.

(** The inherited update writes a valid status for whoever can see the
    lead. *)
Lemma partial_update_writes_status u key value properties leads lead :
  get_object (LeadViewSet_get_queryset u properties leads) key = Some lead ->
  value ∈ STATUS_KEYS ->
  LeadViewSet_partial_update (Authenticated u) key (Some value) properties leads
  = (HTTP_200_OK (set_status value lead), <[key := set_status value lead]> leads).
Proof.
  intros Hl Hv. unfold LeadViewSet_partial_update. rewrite Hl.
  rewrite (bool_decide_eq_true_2 _ Hv). reflexivity.
Qed.

(** C8 at a request the code accepts: the buyer who created lead 1, who is
    neither the owner of the listing nor an administrator, is refused by
    [update_status] but changes the status of the lead from [new] to
    [converted] through the inherited partial update. *)
Theorem lead_creator_writes_status :
  Leads.user Samples.buyer_lead = pk Samples.buyer_user /\
  property_owner Samples.buyer_lead Samples.property_table
  = Some (pk Samples.owner_user) /\
  is_admin Samples.buyer_user = false /\
  LeadViewSet_update_status (Authenticated Samples.buyer_user) 1%nat
    (Some CONVERTED) Samples.property_table Samples.lead_table
  = (HTTP_403_FORBIDDEN, Samples.lead_table) /\
  LeadViewSet_partial_update (Authenticated Samples.buyer_user) 1%nat
    (Some CONVERTED) Samples.property_table Samples.lead_table
  = (HTTP_200_OK (set_status CONVERTED Samples.buyer_lead),
     <[1%nat := set_status CONVERTED Samples.buyer_lead]> Samples.lead_table) /\
  status <$> (LeadViewSet_partial_update (Authenticated Samples.buyer_user) 1%nat
                (Some CONVERTED) Samples.property_table Samples.lead_table).2 !! 1%nat
  = Some "converted".
Proof. repeat split; vm_compute; reflexivity. Qed.

(** An administrator who did not create the lead does not find it:
    [get_queryset] has no branch for administrators. *)
Lemma admin_does_not_find_lead :
  LeadViewSet_update_status (Authenticated Samples.admin_user) 1%nat
    (Some CONTACTED) Samples.property_table Samples.lead_table
  = (HTTP_404_NOT_FOUND, Samples.lead_table).
Proof. vm_compute. reflexivity. Qed.

End LeadStatus.

(** ** Payments and invoices *)

Section PaymentStatus.
Import Users Permissions Payments.

(** [Payment.save] alone stamps a completed payment once: a stamp that is
    already there is kept. *)
Lemma Payment_save_keeps_stamp now key p t tbl :
  completed_at p = Some t ->
  Payment_save now key p tbl = (p, <[key := p]> tbl).
Proof.
  intros Ht. unfold Payment_save.
  rewrite (bool_decide_eq_true_2 (is_Some (completed_at p))) by (rewrite Ht; eauto).
  rewrite andb_false_r. reflexivity.
Qed.

Lemma Payment_save_stamps_once now key p tbl :
  status p = COMPLETED -> completed_at p = None ->
  Payment_save now key p tbl
  = (set_completed_at (Some now) p, <[key := set_completed_at (Some now) p]> tbl).
Proof.
  intros Hs Ht. unfold Payment_save.
  rewrite (bool_decide_eq_true_2 _ Hs).
  rewrite (bool_decide_eq_false_2 (is_Some (completed_at p)))
    by (rewrite Ht; intros [? [=]]).
  reflexivity.
Qed.

(** [verify_payment] completes any payment of the queryset, whatever its
    status, and stamps it with the current clock reading. *)
Lemma verify_payment_completes u key now today db p :
  get_object (PaymentViewSet_get_queryset u (payments db)) key = Some p ->
  exists p' db',
    PaymentViewSet_verify_payment (Authenticated u) key now today db
    = (HTTP_200_OK p', db') /\
    payments db' = <[key := p']> (payments db) /\
    status p' = COMPLETED /\
    completed_at p' = Some now /\
    List.length (transactions db') = S (List.length (transactions db)).
Proof.
  intros Hp. unfold PaymentViewSet_verify_payment. rewrite Hp.
  rewrite (Payment_save_keeps_stamp now key _ now) by reflexivity.
  eexists. eexists. split; [reflexivity |]. cbn.
  rewrite length_app. cbn. repeat split. lia.
Qed.

End PaymentStatus.

Section Transitions.
Import Users Permissions Payments.

(** C3, as the code has it: no transition table is consulted.
    [verify_payment] answers 200 for every payment of the caller's
    queryset, whatever its current status, and stores it as COMPLETED;
    [update_status], called by the
    owner of the listing, answers 200 for each of the five status values,
    whatever the lead's current status, and stores that value. *)
Theorem no_transition_table (u : User) (key : nat) (now : Time) (today : Date)
  (db : Tables) (p : Payment)
  (lu : User) (lkey : nat) (value : string)
  (properties : gmap nat Properties.Property) (leads : gmap nat Leads.Lead)
  (lead : Leads.Lead) :
  get_object (PaymentViewSet_get_queryset u (payments db)) key = Some p ->
  get_object (Leads.LeadViewSet_get_queryset lu properties leads) lkey = Some lead ->
  Leads.property_owner lead properties = Some (pk lu) ->
  value ∈ Leads.STATUS_KEYS ->
  (exists p' db',
     PaymentViewSet_verify_payment (Authenticated u) key now today db
     = (HTTP_200_OK p', db') /\
     payments db' = <[key := p']> (payments db) /\
     status p' = COMPLETED) /\
  Leads.LeadViewSet_update_status (Authenticated lu) lkey (Some value)
    properties leads
  = (HTTP_200_OK (Leads.set_status value lead),
     <[lkey := Leads.set_status value lead]> leads).
Proof.
  intros Hp Hl Ho Hv. split.
  - destruct (verify_payment_completes u key now today db p Hp)
      as (p' & db' & H1 & H2 & H3 & H4 & _).
    exists p', db'. auto.
  - apply (update_status_allowed lu lkey value properties leads lead (pk lu));
      auto.
Qed.

Lemma no_transition_table_sample :
  (get_object (PaymentViewSet_get_queryset Samples.buyer_user
                 (payments Samples.payment_tables)) 2%nat
   = Some Samples.failed_payment /\
   get_object (Leads.LeadViewSet_get_queryset Samples.owner_user
                 Samples.property_table Samples.lead_table) 1%nat
   = Some Samples.buyer_lead /\
   Leads.property_owner Samples.buyer_lead Samples.property_table
   = Some (pk Samples.owner_user) /\
   Leads.LOST ∈ Leads.STATUS_KEYS) /\
  ((exists p' db',
      PaymentViewSet_verify_payment (Authenticated Samples.buyer_user) 2%nat
        100 10 Samples.payment_tables
      = (HTTP_200_OK p', db') /\
      payments db' = <[2%nat := p']> (payments Samples.payment_tables) /\
      status p' = COMPLETED) /\
   Leads.LeadViewSet_update_status (Authenticated Samples.owner_user) 1%nat
     (Some Leads.LOST) Samples.property_table Samples.lead_table
   = (HTTP_200_OK (Leads.set_status Leads.LOST Samples.buyer_lead),
      <[1%nat := Leads.set_status Leads.LOST Samples.buyer_lead]>
        Samples.lead_table)).
Proof.
  assert (H1 : get_object (PaymentViewSet_get_queryset Samples.buyer_user
                             (payments Samples.payment_tables)) 2%nat
               = Some Samples.failed_payment) by (vm_compute; reflexivity).
  assert (H2 : get_object (Leads.LeadViewSet_get_queryset Samples.owner_user
                             Samples.property_table Samples.lead_table) 1%nat
               = Some Samples.buyer_lead) by (vm_compute; reflexivity).
  assert (H3 : Leads.property_owner Samples.buyer_lead Samples.property_table
               = Some (pk Samples.owner_user)) by (vm_compute; reflexivity).
  assert (H4 : Leads.LOST ∈ Leads.STATUS_KEYS)
    by (apply (bool_decide_eq_true_1 (Leads.LOST ∈ Leads.STATUS_KEYS));
        vm_compute; reflexivity).
  split; [repeat split; assumption |].
  exact (no_transition_table Samples.buyer_user 2%nat 100 10
           Samples.payment_tables Samples.failed_payment Samples.owner_user 1%nat
           Leads.LOST Samples.property_table Samples.lead_table Samples.buyer_lead
           H1 H2 H3 H4).
Defined.

(** C3 as stated fails: completing the payment whose status is FAILED is
    answered 200 and the payment is stored as COMPLETED. *)
Lemma failed_payment_is_completed :
  status Samples.failed_payment = FAILED /\
  status <$> response_data
    (PaymentViewSet_verify_payment (Authenticated Samples.buyer_user) 2%nat
       100 10 Samples.payment_tables).1
  = Some COMPLETED /\
  status <$> payments
    (PaymentViewSet_verify_payment (Authenticated Samples.buyer_user) 2%nat
       100 10 Samples.payment_tables).2 !! 2%nat
  = Some COMPLETED.
Proof. repeat split; vm_compute; reflexivity. Qed.

(** C5 at a request the code accepts: payment 1 is verified at time 100
    and the same request is repeated at time 200.  The second call replaces
    the completion time, records a second transaction and saves the linked
    invoice once more. *)
Theorem repeated_verification_restamps :
  completed_at <$> payments Samples.tables_after_first !! 1%nat = Some (Some 100) /\
  completed_at <$> payments Samples.tables_after_second !! 1%nat = Some (Some 200) /\
  List.length (transactions Samples.tables_after_first) = 1%nat /\
  List.length (transactions Samples.tables_after_second) = 2%nat /\
  inv_status <$> invoices Samples.tables_after_first !! 1%nat = Some PAID /\
  inv_status <$> invoices Samples.tables_after_second !! 1%nat = Some PAID.
Proof. repeat split; vm_compute; reflexivity. Qed.

(** C9, as the code has it: saving a PENDING invoice whose due date lies
    before today stores it as OVERDUE, with no transition asked for by
    anyone; saving an invoice that is not PENDING or not yet past its due
    date stores it as it is; [is_overdue] reports the condition and changes
    nothing. *)
Theorem invoice_overdue_rule (today : Date) (key : nat) (i j : Invoice)
  (tbl : gmap nat Invoice) :
  inv_status i = INV_PENDING ->
  (due_date i < today)%Z ->
  inv_status j <> INV_PENDING \/ (today <= due_date j)%Z ->
  Invoice_save today key i tbl
  = (set_inv_status OVERDUE i, <[key := set_inv_status OVERDUE i]> tbl) /\
  Invoice_save today key j tbl = (j, <[key := j]> tbl) /\
  Invoice_is_overdue today i = true /\
  Invoice_is_overdue today j = false.
Proof.
  intros Hs Hd Hj.
  assert (Ho : Invoice_is_overdue today i = true).
  { unfold Invoice_is_overdue. rewrite (bool_decide_eq_true_2 _ Hs).
    apply Z.ltb_lt in Hd. rewrite Hd. reflexivity. }
  assert (Hn : Invoice_is_overdue today j = false).
  { unfold Invoice_is_overdue. destruct Hj as [Hj|Hj].
    - rewrite (bool_decide_eq_false_2 _ Hj). reflexivity.
    - apply Z.ltb_ge in Hj. rewrite Hj. apply andb_false_r. }
  split; [| split; [| split]].
  - unfold Invoice_save. rewrite Ho, (bool_decide_eq_true_2 _ Hs). reflexivity.
  - unfold Invoice_save. rewrite Hn. reflexivity.
  - exact Ho.
  - exact Hn.
Qed.

Lemma invoice_overdue_rule_sample :
  (inv_status Samples.late_invoice = INV_PENDING /\
   (due_date Samples.late_invoice < 10)%Z /\
   (inv_status Samples.paid_invoice <> INV_PENDING \/
    (10 <= due_date Samples.paid_invoice)%Z)) /\
  (Invoice_save 10 2%nat Samples.late_invoice Samples.invoice_table
   = (set_inv_status OVERDUE Samples.late_invoice,
      <[2%nat := set_inv_status OVERDUE Samples.late_invoice]> Samples.invoice_table) /\
   Invoice_save 10 2%nat Samples.paid_invoice Samples.invoice_table
   = (Samples.paid_invoice, <[2%nat := Samples.paid_invoice]> Samples.invoice_table) /\
   Invoice_is_overdue 10 Samples.late_invoice = true /\
   Invoice_is_overdue 10 Samples.paid_invoice = false).
Proof.
  assert (H1 : inv_status Samples.late_invoice = INV_PENDING) by reflexivity.
  assert (H2 : (due_date Samples.late_invoice < 10)%Z) by (cbn; lia).
  assert (H3 : inv_status Samples.paid_invoice <> INV_PENDING \/
               (10 <= due_date Samples.paid_invoice)%Z) by (left; discriminate).
  split; [repeat split; assumption |].
  exact (invoice_overdue_rule 10 2%nat Samples.late_invoice Samples.paid_invoice
           Samples.invoice_table H1 H2 H3).
Defined.

Lemma bind_fields_raises :
  bind_fields InvoiceSerializer_fields = Raise AssertionError.
Proof. reflexivity. Qed.

(** C9 as stated fails: on day 10 the buyer retrieves the PENDING invoice
    that was due on day 9.  No status OVERDUE is read: the request ends in
    the assertion that refuses the [is_overdue] field of the serializer, the
    row is still stored as PENDING, and the queryset of overdue invoices
    does not select it. *)
Lemma late_invoice_read_shows_no_overdue :
  (due_date Samples.late_invoice < 10)%Z /\
  InvoiceViewSet_retrieve (Authenticated Samples.buyer_user) 2%nat 10
    Samples.property_table Samples.invoice_table
  = HTTP_500_SERVER_ERROR AssertionError /\
  inv_status <$> Samples.invoice_table !! 2%nat = Some INV_PENDING /\
  rows (InvoiceViewSet_overdue_queryset Samples.buyer_user
          Samples.property_table Samples.invoice_table)
  = [].
Proof. split; [cbn; lia |]. repeat split; vm_compute; reflexivity. Qed.

End Transitions.

(** ** Registration *)

Section Registration.
Import Users Permissions UsersApi.

Lemma create_permission_any (r : RequestUser) :
  UserViewSet_get_permissions user_create r = true.
Proof. reflexivity. Qed.

Lemma fresh_key_unused (tbl : gmap nat User) : tbl !! fresh (dom tbl) = None.
Proof. apply not_elem_of_dom. apply is_fresh. Qed.

Lemma update_serializer_keeps_role (instance : User) (upd : UserUpdateAttrs) :
  role (UserUpdateSerializer_assign instance upd) = role instance /\
  is_verified (UserUpdateSerializer_assign instance upd) = is_verified instance.
Proof. split; reflexivity. Qed.

(** C10: whoever sends it, logged in or not, a registration whose e-mail
    address is non-empty and, both as sent and in its normalised form, not
    the address of a stored user, and whose two passwords agree, is answered
    201 and adds, under an unused key, an unverified user with the
    normalised address whose role is the role of the payload, whichever of
    the five it is, and BUYER_RENTER when the payload has none; the update
    serializer never changes a role. *)
Theorem registration_stores_supplied_role (r : RequestUser) (data : UserAttrs)
  (tbl : gmap nat User) :
  attr_email data <> "" ->
  email_taken (attr_email data) tbl = false ->
  email_taken (normalize_email (attr_email data)) tbl = false ->
  attr_password data = attr_password_confirmation data ->
  UserViewSet_get_permissions user_create r = true /\
  (exists u,
     UserViewSet_create r data tbl = (HTTP_201_CREATED u, <[pk u := u]> tbl) /\
     tbl !! pk u = None /\
     email u = normalize_email (attr_email data) /\
     is_verified u = false /\
     (forall rho, attr_role data = Some rho -> role u = rho) /\
     (attr_role data = None -> role u = BUYER_RENTER)) /\
  (forall instance upd,
     role (UserUpdateSerializer_assign instance upd) = role instance).
Proof.
  intros He Ht Hn Hp. split; [reflexivity |]. split.
  - unfold UserViewSet_create. rewrite create_permission_any, Ht.
    unfold UserSerializer_validate. rewrite Hp, String.eqb_refl.
    unfold UserSerializer_create, UserManager_create_user.
    destruct (String.eqb_spec (attr_email data) ""); [contradiction |].
    rewrite Hn.
    eexists. split; [reflexivity |]. cbn.
    split; [apply fresh_key_unused |]. split; [reflexivity |].
    split; [reflexivity |].
    split.
    + intros rho ->. reflexivity.
    + intros ->. reflexivity.
  - intros instance upd. apply update_serializer_keeps_role.
Qed.

Lemma anonymous_registers_as_admin :
  (attr_email Samples.admin_registration <> "" /\
   email_taken (attr_email Samples.admin_registration) Samples.user_table = false /\
   email_taken (normalize_email (attr_email Samples.admin_registration))
     Samples.user_table = false /\
   attr_password Samples.admin_registration
   = attr_password_confirmation Samples.admin_registration) /\
  (UserViewSet_get_permissions user_create AnonymousUser = true /\
   (exists u,
      UserViewSet_create AnonymousUser Samples.admin_registration Samples.user_table
      = (HTTP_201_CREATED u, <[pk u := u]> Samples.user_table) /\
      Samples.user_table !! pk u = None /\
      email u = normalize_email (attr_email Samples.admin_registration) /\
      is_verified u = false /\
      (forall rho, attr_role Samples.admin_registration = Some rho -> role u = rho) /\
      (attr_role Samples.admin_registration = None -> role u = BUYER_RENTER)) /\
   (forall instance upd,
      role (UserUpdateSerializer_assign instance upd) = role instance)).
Proof.
  assert (H1 : attr_email Samples.admin_registration <> "") by discriminate.
  assert (H2 : email_taken (attr_email Samples.admin_registration)
                 Samples.user_table = false) by (vm_compute; reflexivity).
  assert (H3 : email_taken (normalize_email (attr_email Samples.admin_registration))
                 Samples.user_table = false) by (vm_compute; reflexivity).
  assert (H4 : attr_password Samples.admin_registration
               = attr_password_confirmation Samples.admin_registration)
    by reflexivity.
  split; [repeat split; assumption |].
  exact (registration_stores_supplied_role AnonymousUser
           Samples.admin_registration Samples.user_table H1 H2 H3 H4).
Defined.

(** The normal form of an address: the domain in lower case, the local part
    as it came. *)
Example normalize_email_sample :
  normalize_email " Root@EXAMPLE.Com " = "Root@example.com" /\
  normalize_email "no-at-sign " = "no-at-sign ".
Proof. split; reflexivity. Qed.

(** An address that is new as sent and stored in its normal form: the
    unique validator lets it pass and the insertion fails.  Nothing is
    stored. *)
Example registration_of_stored_normal_form :
  email_taken "admin@EXAMPLE.COM" Samples.user_table = false /\
  UserViewSet_create AnonymousUser
    (mkUserAttrs "admin@EXAMPLE.COM" "pw12345678" "pw12345678" None None
       (Some ADMIN) None None)
    Samples.user_table
  = (HTTP_500_SERVER_ERROR IntegrityError, Samples.user_table).
Proof. split; vm_compute; reflexivity. Qed.

(** The request of the repository's test [test_admin_user_creation]. *)
Example anonymous_admin_registration_row :
  role <$> response_data
    (UserViewSet_create AnonymousUser Samples.admin_registration
       Samples.user_table).1 = Some ADMIN /\
  is_admin <$> response_data
    (UserViewSet_create AnonymousUser Samples.admin_registration
       Samples.user_table).1 = Some true.
Proof. split; vm_compute; reflexivity. Qed.

End Registration.

(** * Further properties of the code *)

(** ** Substring search and the search action *)

Section SearchSpec.
Import Users Permissions Properties.

Lemma starts_with_spec (p s : string) :
  starts_with p s = true <-> exists post, s = p ++ post.
Proof.
  revert s. induction p as [|a p IH]; intros s; cbn.
  - split; eauto.
  - destruct s as [|b s].
    + split; [discriminate | intros [post H]; discriminate].
    + rewrite andb_true_iff, IH. split.
      * intros [Hab [post ->]]. apply Ascii.eqb_eq in Hab. subst. eauto.
      * intros [post [= -> ->]]. split; [apply Ascii.eqb_refl | eauto].
Qed.

Lemma contains_spec (needle hay : string) :
  contains needle hay = true <-> exists pre post, hay = pre ++ needle ++ post.
Proof.
  induction hay as [|c hay IH].
  - cbn. rewrite orb_false_r, starts_with_spec. split.
    + intros [post H]. exists "", post. exact H.
    + intros (pre & post & H). destruct pre as [|a pre]; [| discriminate].
      exists post. exact H.
  - cbn [contains]. rewrite orb_true_iff, IH, starts_with_spec. split.
    + intros [[post H] | (pre & post & H)].
      * exists "", post. exact H.
      * exists (String c pre), post. rewrite H. reflexivity.
    + intros (pre & post & H). destruct pre as [|a pre].
      * left. exists post. exact H.
      * right. cbn in H. injection H as -> H. eauto.
Qed.

(** The substring test behind the location filter: a column matches exactly
    when, after lower-casing both texts, the needle occurs in the column. *)
Theorem icontains_spec (needle column : string) :
  icontains needle column = true <->
  exists pre post, lower_string column = pre ++ lower_string needle ++ post.
Proof. unfold icontains. apply contains_spec. Qed.

Lemma lookup_filter_if_iff {P : Type} (param : option P) cond q k p :
  filter_if param cond q !! k = Some p <->
  q !! k = Some p /\ (forall v, param = Some v -> cond v p = true).
Proof.
  destruct param as [v|]; cbn.
  - rewrite lookup_qfilter_Some. split.
    + intros [H1 H2]. split; [exact H1 |]. intros v' [= <-]. exact H2.
    + intros [H1 H2]. auto.
  - split; [intros H; split; [exact H | discriminate] | tauto].
Qed.

Lemma lookup_amenities_fold_iff (l : list nat) (q : gmap nat Property) k p :
  foldl (fun q amenity => qfilter (fun p => bool_decide (amenity ∈ amenities p)) q)
        q l !! k = Some p <->
  q !! k = Some p /\ (forall a, a ∈ l -> a ∈ amenities p).
Proof.
  revert q. induction l as [|a l IH]; intros q; cbn.
  - split; [intros H; split; [exact H |]; intros a Ha; inversion Ha | tauto].
  - rewrite IH, lookup_qfilter_Some, bool_decide_eq_true. split.
    + intros [[H1 H2] H3]. split; [exact H1 |].
      intros b Hb. apply elem_of_cons in Hb as [-> | Hb]; auto.
    + intros [H1 H2]. repeat split; [exact H1 | |].
      * apply H2. apply elem_of_cons. auto.
      * intros b Hb. apply H2. apply elem_of_cons. auto.
Qed.

Lemma gte_nullable_spec (bound : nat) (column : option nat) :
  gte_nullable bound column = true <->
  exists v, column = Some v /\ (bound <= v)%nat.
Proof.
  destruct column as [v|]; cbn.
  - rewrite Nat.leb_le. split; [eauto | intros (v' & [= <-] & H); exact H].
  - split; [discriminate | intros (v & H & _); discriminate].
Qed.

(** The rows of a search are exactly the active, verified rows of the table
    that meet every filter the request carries; a row whose bedroom or
    bathroom count is null meets no minimum, not even zero. *)
Theorem search_queryset_spec (params : SearchParams) (tbl : gmap nat Property)
  (k : nat) (p : Property) :
  search_queryset params tbl !! k = Some p <->
  tbl !! k = Some p /\
  is_active p = true /\
  verification_status p = Some VERIFIED /\
  (forall v, min_price params = Some v -> (v <= price p)%Z) /\
  (forall v, max_price params = Some v -> (price p <= v)%Z) /\
  (forall v, q_property_type params = Some v -> property_type p = v) /\
  (forall v, q_listing_type params = Some v -> listing_type p = v) /\
  (forall v, q_location params = Some v ->
     icontains v (location_name p) = true \/
     icontains v (location_city p) = true \/
     icontains v (address p) = true) /\
  (forall v, min_bedrooms params = Some v ->
     exists b, bedrooms p = Some b /\ (v <= b)%nat) /\
  (forall v, min_bathrooms params = Some v ->
     exists b, bathrooms p = Some b /\ (v <= b)%nat) /\
  (forall a, a ∈ q_amenities params -> a ∈ amenities p).
Proof.
  unfold search_queryset.
  rewrite lookup_amenities_fold_iff, !lookup_filter_if_iff, lookup_qfilter_Some.
  rewrite andb_true_iff, bool_decide_eq_true.
  split.
  - intros [[[[[[[[[Hk [Ha Hv]] H1] H2] H3] H4] H5] H6] H7] H8].
    repeat split; auto.
    + intros v E. apply Z.leb_le. auto.
    + intros v E. apply Z.leb_le. auto.
    + intros v E. apply String.eqb_eq. auto.
    + intros v E. apply String.eqb_eq. auto.
    + intros v E. specialize (H5 v E).
      rewrite !orb_true_iff in H5. tauto.
    + intros v E. apply gte_nullable_spec. auto.
    + intros v E. apply gte_nullable_spec. auto.
  - intros (Hk & Ha & Hv & H1 & H2 & H3 & H4 & H5 & H6 & H7 & H8).
    repeat split; auto.
    + intros v E. apply Z.leb_le. auto.
    + intros v E. apply Z.leb_le. auto.
    + intros v E. apply String.eqb_eq. auto.
    + intros v E. apply String.eqb_eq. auto.
    + intros v E. specialize (H5 v E). rewrite !orb_true_iff. tauto.
    + intros v E. apply gte_nullable_spec. auto.
    + intros v E. apply gte_nullable_spec. auto.
Qed.

End SearchSpec.

(** ** The owner's and the reviewer's listings *)

Section OwnerActions.
Import Users Permissions Properties PropertyActions.

(** The pending-review list is answered only to a requester who is both
    KYC-verified and an administrator or government user; it then holds
    exactly the rows whose status is PENDING, inactive ones included. *)
Theorem pending_verification_spec (u : User) (tbl : gmap nat Property)
  (l : list (nat * Property)) :
  PropertyViewSet_pending_verification (Authenticated u) tbl = HTTP_200_OK l ->
  is_verified u = true /\
  (role u = ADMIN \/ role u = GOVERNMENT) /\
  (forall k p, (k, p) ∈ l <->
               tbl !! k = Some p /\ verification_status p = Some PENDING).
Proof.
  unfold PropertyViewSet_pending_verification. cbn.
  destruct (is_verified u); [| discriminate].
  destruct (is_admin u || is_government u) eqn:Hr; cbn; [| discriminate].
  intros [= <-]. split; [reflexivity |]. split.
  - unfold is_admin, is_government in Hr.
    rewrite orb_true_iff, !bool_decide_eq_true in Hr. exact Hr.
  - intros k p. rewrite elem_of_rows, lookup_qfilter_Some, bool_decide_eq_true.
    tauto.
Qed.

Lemma pending_verification_government :
  PropertyViewSet_pending_verification (Authenticated Samples.government_user)
    Samples.property_table
  = HTTP_200_OK [(1%nat, Samples.pending_property)] /\
  (is_verified Samples.government_user = true /\
   (role Samples.government_user = ADMIN \/
    role Samples.government_user = GOVERNMENT) /\
   (forall k p, (k, p) ∈ [(1%nat, Samples.pending_property)] <->
                Samples.property_table !! k = Some p /\
                verification_status p = Some PENDING)).
Proof.
  assert (H : PropertyViewSet_pending_verification
                (Authenticated Samples.government_user) Samples.property_table
              = HTTP_200_OK [(1%nat, Samples.pending_property)])
    by (vm_compute; reflexivity).
  split; [exact H |].
  exact (pending_verification_spec Samples.government_user Samples.property_table
           [(1%nat, Samples.pending_property)] H).
Defined.

(** A reviewer who is not KYC-verified is refused the pending-review list,
    although the verify action itself does not ask for verification. *)
Theorem unverified_reviewer_verifies_but_cannot_list (u : User) (key : nat)
  (p : Property) (now : Time) (tbl : gmap nat Property) :
  is_verified u = false ->
  is_admin u || is_government u = true ->
  PropertyViewSet_queryset tbl !! key = Some p ->
  PropertyViewSet_pending_verification (Authenticated u) tbl = HTTP_403_FORBIDDEN /\
  exists p',
    PropertyViewSet_verify (Authenticated u) key
      (mkVerificationAttrs (Some VERIFIED) None) now tbl
    = (HTTP_200_OK p', <[key := p']> tbl) /\
    verification_status p' = Some VERIFIED /\
    verified_by p' = Some (pk u).
Proof.
  intros Hv Hr Hp. split.
  - unfold PropertyViewSet_pending_verification. cbn. rewrite Hv. reflexivity.
  - unfold PropertyViewSet_verify.
    rewrite (verify_permission_reviewer u Hr). unfold get_object. rewrite Hp.
    replace (PropertyVerificationSerializer_validate
               (mkVerificationAttrs (Some VERIFIED) None))
      with (Ok (mkVerificationAttrs (Some VERIFIED) None)) by reflexivity.
    rewrite update_saves. eexists. split; [reflexivity |].
    pose proof (assign_verified u now p None) as H. cbn zeta in H. tauto.
Qed.

(** The requester's own listings are read from the whole table: every row
    the requester owns, whatever its status and whether active or not, and
    no other row. *)
Theorem my_properties_spec (u : User) (tbl : gmap nat Property)
  (l : list (nat * Property)) :
  PropertyViewSet_my_properties (Authenticated u) tbl = HTTP_200_OK l ->
  is_verified u = true /\
  (forall k p, (k, p) ∈ l <-> tbl !! k = Some p /\ owner p = pk u).
Proof.
  unfold PropertyViewSet_my_properties. cbn.
  destruct (is_verified u); [| discriminate].
  intros [= <-]. split; [reflexivity |].
  intros k p. rewrite elem_of_rows, lookup_qfilter_Some, bool_decide_eq_true.
  tauto.
Qed.

Lemma update_result key p data tbl p' tbl' :
  PropertyDetailSerializer_update key p data tbl = Ok (p', tbl') ->
  tbl' = <[key := p']> tbl /\
  owner p' = owner p /\
  verification_status p' = verification_status p /\
  rejection_reason p' = rejection_reason p /\
  verified_by p' = verified_by p /\
  verified_at p' = verified_at p /\
  is_active p' = or_keep (upd_is_active data) (is_active p).
Proof.
  unfold PropertyDetailSerializer_update, Property_save. cbn.
  destruct (verification_status p) eqn:Hv; cbn; [| discriminate].
  destruct (upd_amenities data) as [l|]; intros [= <- <-].
  - split; [apply insert_insert_eq |]. repeat split; exact Hv.
  - repeat split; exact Hv.
Qed.

Lemma partial_update_ok u key data tbl p' tbl' :
  PropertyViewSet_partial_update u key data tbl = (HTTP_200_OK p', tbl') ->
  exists p,
    PropertyViewSet_queryset tbl !! key = Some p /\
    IsOwnerOrAdmin_object (Authenticated u) (owner p) = true /\
    PropertyDetailSerializer_update key p data tbl = Ok (p', tbl').
Proof.
  unfold PropertyViewSet_partial_update, get_object. cbn.
  destruct (PropertyViewSet_queryset tbl !! key) as [p|]; [| discriminate].
  destruct (is_admin u || bool_decide (owner p = pk u)) eqn:Ho; [| discriminate].
  destruct (PropertyDetailSerializer_update key p data tbl) as [[q t]|e] eqn:Hu;
    [| discriminate].
  intros [= <- <-]. exists p. auto.
Qed.

(** An update of a listing that succeeds was asked for by its owner or an
    administrator, on an active listing; it writes that row only and leaves
    its owner, verification status, rejection reason and verifier stamp as
    they were: an edited listing keeps its review. *)
Theorem listing_update_keeps_review (u : User) (key : nat)
  (data : PropertyDetailAttrs) (tbl tbl' : gmap nat Property) (p' : Property) :
  PropertyViewSet_partial_update u key data tbl = (HTTP_200_OK p', tbl') ->
  exists p,
    tbl !! key = Some p /\
    is_active p = true /\
    (role u = ADMIN \/ owner p = pk u) /\
    tbl' = <[key := p']> tbl /\
    owner p' = owner p /\
    verification_status p' = verification_status p /\
    rejection_reason p' = rejection_reason p /\
    verified_by p' = verified_by p /\
    verified_at p' = verified_at p.
Proof.
  intros H. apply partial_update_ok in H as (p & Hq & Ho & Hu).
  apply update_result in Hu as (Ht & H1 & H2 & H3 & H4 & H5 & _).
  unfold PropertyViewSet_queryset in Hq. apply lookup_qfilter_Some in Hq as [Hk Ha].
  exists p. repeat split; auto.
  cbn in Ho. unfold is_admin in Ho.
  rewrite orb_true_iff, !bool_decide_eq_true in Ho. exact Ho.
Qed.

End OwnerActions.

Section OwnerActionsSamples.
Import Users Permissions Properties PropertyActions.

Lemma unverified_reviewer_sample :
  (is_verified MoreSamples.unverified_government_user = false /\
   is_admin MoreSamples.unverified_government_user
   || is_government MoreSamples.unverified_government_user = true /\
   PropertyViewSet_queryset Samples.property_table !! 1%nat
   = Some Samples.pending_property) /\
  (PropertyViewSet_pending_verification
     (Authenticated MoreSamples.unverified_government_user) Samples.property_table
   = HTTP_403_FORBIDDEN /\
   exists p',
     PropertyViewSet_verify (Authenticated MoreSamples.unverified_government_user)
       1%nat (mkVerificationAttrs (Some VERIFIED) None) 300 Samples.property_table
     = (HTTP_200_OK p', <[1%nat := p']> Samples.property_table) /\
     verification_status p' = Some VERIFIED /\
     verified_by p' = Some (pk MoreSamples.unverified_government_user)).
Proof.
  assert (H1 : is_verified MoreSamples.unverified_government_user = false)
    by reflexivity.
  assert (H2 : is_admin MoreSamples.unverified_government_user
               || is_government MoreSamples.unverified_government_user = true)
    by reflexivity.
  assert (H3 : PropertyViewSet_queryset Samples.property_table !! 1%nat
               = Some Samples.pending_property) by (vm_compute; reflexivity).
  split; [repeat split; assumption |].
  exact (unverified_reviewer_verifies_but_cannot_list
           MoreSamples.unverified_government_user 1%nat Samples.pending_property
           300 Samples.property_table H1 H2 H3).
Defined.

Lemma my_properties_owner_sample :
  PropertyViewSet_my_properties (Authenticated Samples.owner_user)
    Samples.property_table
  = HTTP_200_OK [(2%nat, Samples.verified_property);
                 (1%nat, Samples.pending_property)] /\
  (is_verified Samples.owner_user = true /\
   (forall k p,
      (k, p) ∈ [(2%nat, Samples.verified_property);
                (1%nat, Samples.pending_property)] <->
      Samples.property_table !! k = Some p /\ owner p = pk Samples.owner_user)).
Proof.
  assert (H : PropertyViewSet_my_properties (Authenticated Samples.owner_user)
                Samples.property_table
              = HTTP_200_OK [(2%nat, Samples.verified_property);
                             (1%nat, Samples.pending_property)])
    by (vm_compute; reflexivity).
  split; [exact H |].
  exact (my_properties_spec Samples.owner_user Samples.property_table _ H).
Defined.

Lemma listing_update_owner_sample :
  PropertyViewSet_partial_update Samples.owner_user 2%nat MoreSamples.price_change
    Samples.property_table
  = (HTTP_200_OK MoreSamples.repriced_property,
     <[2%nat := MoreSamples.repriced_property]> Samples.property_table) /\
  (exists p,
     Samples.property_table !! 2%nat = Some p /\
     is_active p = true /\
     (role Samples.owner_user = ADMIN \/ owner p = pk Samples.owner_user) /\
     <[2%nat := MoreSamples.repriced_property]> Samples.property_table
     = <[2%nat := MoreSamples.repriced_property]> Samples.property_table /\
     owner MoreSamples.repriced_property = owner p /\
     verification_status MoreSamples.repriced_property = verification_status p /\
     rejection_reason MoreSamples.repriced_property = rejection_reason p /\
     verified_by MoreSamples.repriced_property = verified_by p /\
     verified_at MoreSamples.repriced_property = verified_at p).
Proof.
  assert (H : PropertyViewSet_partial_update Samples.owner_user 2%nat
                MoreSamples.price_change Samples.property_table
              = (HTTP_200_OK MoreSamples.repriced_property,
                 <[2%nat := MoreSamples.repriced_property]> Samples.property_table))
    by (vm_compute; reflexivity).
  split; [exact H |].
  exact (listing_update_keeps_review Samples.owner_user 2%nat
           MoreSamples.price_change Samples.property_table _ _ H).
Defined.

(** Whoever is neither the owner of an active listing nor an administrator
    is refused the update and the table is left as it was. *)
Theorem listing_update_refused (u : User) (key : nat)
  (data : PropertyDetailAttrs) (tbl : gmap nat Property) (p : Property) :
  tbl !! key = Some p ->
  is_active p = true ->
  role u <> ADMIN ->
  owner p <> pk u ->
  PropertyViewSet_partial_update u key data tbl = (HTTP_403_FORBIDDEN, tbl).
Proof.
  intros Hk Ha Hr Ho. unfold PropertyViewSet_partial_update, get_object. cbn.
  assert (Hq : PropertyViewSet_queryset tbl !! key = Some p)
    by (apply lookup_qfilter_Some; auto).
  rewrite Hq. unfold is_admin.
  rewrite (bool_decide_eq_false_2 _ Hr), (bool_decide_eq_false_2 _ Ho). reflexivity.
Qed.

Lemma listing_update_refused_sample :
  (Samples.property_table !! 2%nat = Some Samples.verified_property /\
   is_active Samples.verified_property = true /\
   role Samples.government_user <> ADMIN /\
   owner Samples.verified_property <> pk Samples.government_user) /\
  PropertyViewSet_partial_update Samples.government_user 2%nat
    MoreSamples.price_change Samples.property_table
  = (HTTP_403_FORBIDDEN, Samples.property_table).
Proof.
  assert (H1 : Samples.property_table !! 2%nat = Some Samples.verified_property)
    by (vm_compute; reflexivity).
  assert (H2 : is_active Samples.verified_property = true) by reflexivity.
  assert (H3 : role Samples.government_user <> ADMIN) by discriminate.
  assert (H4 : owner Samples.verified_property <> pk Samples.government_user)
    by discriminate.
  split; [repeat split; assumption |].
  exact (listing_update_refused Samples.government_user 2%nat
           MoreSamples.price_change Samples.property_table
           Samples.verified_property H1 H2 H3 H4).
Defined.

(** Once an update has set [is_active] to false the listing is outside the
    queryset of the view set: retrieving it, updating it again (also to
    reactivate it) and verifying it all answer 404, for every requester. *)
Theorem deactivated_listing_is_unreachable (u : User) (key : nat)
  (data : PropertyDetailAttrs) (tbl tbl' : gmap nat Property) (p' : Property)
  (r : RequestUser) (u2 : User) (data2 : PropertyDetailAttrs)
  (reviewer : User) (vdata : VerificationAttrs) (now : Time) :
  PropertyViewSet_partial_update u key data tbl = (HTTP_200_OK p', tbl') ->
  upd_is_active data = Some false ->
  is_admin reviewer || is_government reviewer = true ->
  PropertyViewSet_retrieve r key tbl' = HTTP_404_NOT_FOUND /\
  PropertyViewSet_partial_update u2 key data2 tbl' = (HTTP_404_NOT_FOUND, tbl') /\
  PropertyViewSet_verify (Authenticated reviewer) key vdata now tbl'
  = (HTTP_404_NOT_FOUND, tbl').
Proof.
  intros H Hd Hr. apply partial_update_ok in H as (p & Hq & Ho & Hu).
  apply update_result in Hu as (-> & _ & _ & _ & _ & _ & Ha).
  rewrite Hd in Ha. cbn in Ha.
  assert (Hn : PropertyViewSet_queryset (<[key := p']> tbl) !! key = None).
  { destruct (PropertyViewSet_queryset (<[key := p']> tbl) !! key) as [q|] eqn:E;
      [| reflexivity].
    apply lookup_qfilter_Some in E as [E1 E2].
    rewrite lookup_insert_eq in E1. congruence. }
  split; [| split].
  - unfold PropertyViewSet_retrieve, get_object. cbn. rewrite Hn. reflexivity.
  - unfold PropertyViewSet_partial_update, get_object. cbn. rewrite Hn. reflexivity.
  - unfold PropertyViewSet_verify, get_object.
    rewrite (verify_permission_reviewer reviewer Hr), Hn. reflexivity.
Qed.

Lemma deactivated_listing_sample :
  (PropertyViewSet_partial_update Samples.owner_user 2%nat MoreSamples.deactivation
     Samples.property_table
   = (HTTP_200_OK MoreSamples.deactivated_property,
      <[2%nat := MoreSamples.deactivated_property]> Samples.property_table) /\
   upd_is_active MoreSamples.deactivation = Some false /\
   is_admin Samples.admin_user || is_government Samples.admin_user = true) /\
  (PropertyViewSet_retrieve AnonymousUser 2%nat
     (<[2%nat := MoreSamples.deactivated_property]> Samples.property_table)
   = HTTP_404_NOT_FOUND /\
   PropertyViewSet_partial_update Samples.owner_user 2%nat MoreSamples.reactivation
     (<[2%nat := MoreSamples.deactivated_property]> Samples.property_table)
   = (HTTP_404_NOT_FOUND,
      <[2%nat := MoreSamples.deactivated_property]> Samples.property_table) /\
   PropertyViewSet_verify (Authenticated Samples.admin_user) 2%nat
     Samples.verify_attrs 300
     (<[2%nat := MoreSamples.deactivated_property]> Samples.property_table)
   = (HTTP_404_NOT_FOUND,
      <[2%nat := MoreSamples.deactivated_property]> Samples.property_table)).
Proof.
  assert (H1 : PropertyViewSet_partial_update Samples.owner_user 2%nat
                 MoreSamples.deactivation Samples.property_table
               = (HTTP_200_OK MoreSamples.deactivated_property,
                  <[2%nat := MoreSamples.deactivated_property]>
                    Samples.property_table)) by (vm_compute; reflexivity).
  assert (H2 : upd_is_active MoreSamples.deactivation = Some false) by reflexivity.
  assert (H3 : is_admin Samples.admin_user || is_government Samples.admin_user
               = true) by reflexivity.
  split; [repeat split; assumption |].
  exact (deactivated_listing_is_unreachable Samples.owner_user 2%nat
           MoreSamples.deactivation Samples.property_table _ _ AnonymousUser
           Samples.owner_user MoreSamples.reactivation Samples.admin_user
           Samples.verify_attrs 300 H1 H2 H3).
Defined.

End OwnerActionsSamples.

(** ** KYC submission, passwords and profiles *)

Section UserActionProperties.
Import Users Permissions UsersApi UserActions.

Lemma head_rows_Some {A : Type} (q : gmap nat A) k x :
  head (rows q) = Some (k, x) -> q !! k = Some x.
Proof.
  intros H. apply elem_of_rows.
  destruct (rows q) as [|y l]; [discriminate |].
  cbn in H. injection H as ->. apply elem_of_cons. auto.
Qed.

Lemma head_rows_None {A : Type} (q : gmap nat A) :
  head (rows q) = None -> q = ∅.
Proof.
  intros H. apply map_to_list_empty_iff.
  unfold rows in H. destruct (map_to_list q); [reflexivity | discriminate].
Qed.

Lemma qfilter_empty_inv {A : Type} (f : A -> bool) (q : gmap nat A) k x :
  qfilter f q = ∅ -> q !! k = Some x -> f x = false.
Proof.
  intros He Hk. destruct (f x) eqn:Hf; [| reflexivity].
  assert (H : qfilter f q !! k = Some x) by (apply lookup_qfilter_Some; auto).
  rewrite He, lookup_empty in H. discriminate.
Qed.

Lemma fresh_key_unused_kyc (kycs : gmap nat KYCVerification) :
  kycs !! fresh (dom kycs) = None.
Proof. apply not_elem_of_dom. apply is_fresh. Qed.

(** Which papers a submission needs: an owner or a buyer must give the type,
    the number and the document of an identity paper, a firm the name, the
    registration number and the document of the business; an administrator
    or a government user needs nothing. *)
Theorem submission_requirements (user : User) (attrs : KYCSubmissionAttrs) :
  KYCSubmissionSerializer_validate user attrs = Ok attrs <->
  (role user = PROPERTY_OWNER \/ role user = BUYER_RENTER ->
   truthy (id_type attrs) = true /\ truthy (id_number attrs) = true /\
   truthy (id_document attrs) = true) /\
  (role user = REAL_ESTATE_FIRM ->
   truthy (business_name attrs) = true /\
   truthy (business_registration_number attrs) = true /\
   truthy (business_document attrs) = true).
Proof.
  unfold KYCSubmissionSerializer_validate.
  repeat case_bool_decide; set_unfold;
    destruct (truthy (id_type attrs)), (truthy (id_number attrs)),
      (truthy (id_document attrs)), (truthy (business_name attrs)),
      (truthy (business_registration_number attrs)),
      (truthy (business_document attrs));
    cbn; intuition congruence.
Qed.

(** A valid submission is answered 200 and leaves the requester with a
    record that is PENDING, without rejection reason or verifier stamp and
    submitted now, whatever the record said before; every other record is
    kept, and the row of the requester is written back as it is, so a user
    who was verified stays verified while the record is pending again. *)
Theorem submit_resets_record (user : User) (data : KYCSubmissionAttrs)
  (now : Time) (users : gmap nat User) (kycs : gmap nat KYCVerification) :
  KYCSubmissionSerializer_validate user data = Ok data ->
  exists key kyc,
    KYCVerificationViewSet_submit (Authenticated user) data now users kycs
    = (HTTP_200_OK tt, <[pk user := user]> users, <[key := kyc]> kycs) /\
    (forall old, kycs !! key = Some old -> kyc_user old = pk user) /\
    kyc_user kyc = pk user /\
    kyc_status kyc = Some KYC_PENDING /\
    kyc_rejection_reason kyc = None /\
    kyc_verified_by kyc = None /\
    kyc_verified_at kyc = None /\
    submitted_at kyc = now.
Proof.
  intros Hv. unfold KYCVerificationViewSet_submit, get_or_create. rewrite Hv.
  destruct (head (rows (qfilter (fun k => bool_decide (kyc_user k = pk user)) kycs)))
    as [[key old]|] eqn:Hh.
  - apply head_rows_Some, lookup_qfilter_Some in Hh as [Hk Hu].
    apply bool_decide_eq_true in Hu.
    eexists key, _. cbn. split; [reflexivity |].
    split; [intros old' Ho; congruence |]. repeat split. exact Hu.
  - eexists _, _. cbn. rewrite insert_insert_eq. split; [reflexivity |].
    split; [| repeat split].
    intros old Ho. rewrite fresh_key_unused_kyc in Ho. discriminate.
Qed.

End UserActionProperties.

Section UserActionInvariants.
Import Users Permissions UsersApi UserActions.

Lemma submit_resets_record_buyer :
  KYCSubmissionSerializer_validate Samples.buyer_user UserSamples.buyer_submission
  = Ok UserSamples.buyer_submission /\
  (exists key kyc,
     KYCVerificationViewSet_submit (Authenticated Samples.buyer_user)
       UserSamples.buyer_submission 70 Samples.user_table Samples.kyc_table
     = (HTTP_200_OK tt, <[pk Samples.buyer_user := Samples.buyer_user]> Samples.user_table,
        <[key := kyc]> Samples.kyc_table) /\
     (forall old, Samples.kyc_table !! key = Some old ->
                  kyc_user old = pk Samples.buyer_user) /\
     kyc_user kyc = pk Samples.buyer_user /\
     kyc_status kyc = Some KYC_PENDING /\
     kyc_rejection_reason kyc = None /\
     kyc_verified_by kyc = None /\
     kyc_verified_at kyc = None /\
     submitted_at kyc = 70).
Proof.
  assert (H : KYCSubmissionSerializer_validate Samples.buyer_user
                UserSamples.buyer_submission = Ok UserSamples.buyer_submission)
    by (vm_compute; reflexivity).
  split; [exact H |].
  exact (submit_resets_record Samples.buyer_user UserSamples.buyer_submission 70
           Samples.user_table Samples.kyc_table H).
Defined.

(** The owner, whose record was approved, submits again: the record is
    pending and unstamped, the owner's row still says verified. *)
Example resubmission_keeps_verified_flag :
  kyc_status <$>
    (KYCVerificationViewSet_submit (Authenticated Samples.owner_user)
       UserSamples.owner_submission 70 Samples.user_table Samples.kyc_table).2
    !! 1%nat = Some (Some KYC_PENDING) /\
  is_verified <$>
    (KYCVerificationViewSet_submit (Authenticated Samples.owner_user)
       UserSamples.owner_submission 70 Samples.user_table Samples.kyc_table).1.2
    !! 3%nat = Some true.
Proof. split; vm_compute; reflexivity. Qed.

(** Submission keeps the table at one record per user: if no two records of
    the table belong to the same user, the same holds after any submission,
    accepted or not. *)
Theorem submit_keeps_one_record_per_user (r : RequestUser)
  (data : KYCSubmissionAttrs) (now : Time) (users : gmap nat User)
  (kycs : gmap nat KYCVerification) :
  (forall k1 k2 r1 r2,
     kycs !! k1 = Some r1 -> kycs !! k2 = Some r2 ->
     kyc_user r1 = kyc_user r2 -> k1 = k2) ->
  forall k1 k2 r1 r2,
    (KYCVerificationViewSet_submit r data now users kycs).2 !! k1 = Some r1 ->
    (KYCVerificationViewSet_submit r data now users kycs).2 !! k2 = Some r2 ->
    kyc_user r1 = kyc_user r2 -> k1 = k2.
Proof.
  intros Hinv. unfold KYCVerificationViewSet_submit.
  destruct r as [|user]; [exact Hinv |].
  destruct (KYCSubmissionSerializer_validate user data); [| exact Hinv].
  unfold get_or_create.
  destruct (head (rows (qfilter (fun k => bool_decide (kyc_user k = pk user)) kycs)))
    as [[key old]|] eqn:Hh; cbn.
  - apply head_rows_Some, lookup_qfilter_Some in Hh as [Hk Hu].
    apply bool_decide_eq_true in Hu.
    intros k1 k2 r1 r2 H1 H2 Hr.
    destruct (decide (k1 = key)) as [->|N1], (decide (k2 = key)) as [->|N2];
      [reflexivity | | |].
    + rewrite lookup_insert_eq in H1. rewrite lookup_insert_ne in H2 by auto.
      injection H1 as <-. cbn in Hr. symmetry. apply (Hinv k2 key r2 old); congruence.
    + rewrite lookup_insert_eq in H2. rewrite lookup_insert_ne in H1 by auto.
      injection H2 as <-. cbn in Hr. apply (Hinv k1 key r1 old); congruence.
    + rewrite lookup_insert_ne in H1, H2 by auto. eauto.
  - apply head_rows_None in Hh. rewrite insert_insert_eq.
    intros k1 k2 r1 r2 H1 H2 Hr.
    destruct (decide (k1 = fresh (dom kycs))) as [->|N1],
             (decide (k2 = fresh (dom kycs))) as [->|N2]; [reflexivity | | |].
    + rewrite lookup_insert_eq in H1. rewrite lookup_insert_ne in H2 by auto.
      injection H1 as <-. cbn in Hr.
      pose proof (qfilter_empty_inv _ _ k2 r2 Hh H2) as Hf.
      apply bool_decide_eq_false in Hf. congruence.
    + rewrite lookup_insert_eq in H2. rewrite lookup_insert_ne in H1 by auto.
      injection H2 as <-. cbn in Hr.
      pose proof (qfilter_empty_inv _ _ k1 r1 Hh H1) as Hf.
      apply bool_decide_eq_false in Hf. congruence.
    + rewrite lookup_insert_ne in H1, H2 by auto. eauto.
Qed.

Lemma submit_resubmission_sample :
  (forall k1 k2 r1 r2,
     Samples.kyc_table !! k1 = Some r1 ->
     Samples.kyc_table !! k2 = Some r2 ->
     kyc_user r1 = kyc_user r2 -> k1 = k2) /\
  (forall k1 k2 r1 r2,
     (KYCVerificationViewSet_submit (Authenticated Samples.owner_user)
        UserSamples.owner_submission 70 Samples.user_table Samples.kyc_table).2
     !! k1 = Some r1 ->
     (KYCVerificationViewSet_submit (Authenticated Samples.owner_user)
        UserSamples.owner_submission 70 Samples.user_table Samples.kyc_table).2
     !! k2 = Some r2 ->
     kyc_user r1 = kyc_user r2 -> k1 = k2).
Proof.
  assert (H : forall k1 k2 r1 r2,
             Samples.kyc_table !! k1 = Some r1 ->
             Samples.kyc_table !! k2 = Some r2 ->
             kyc_user r1 = kyc_user r2 -> k1 = k2).
  { intros k1 k2 r1 r2 H1 H2 Hr. unfold Samples.kyc_table in H1, H2.
    apply lookup_insert_Some in H1 as [[<- <-]|[N1 H1]];
      apply lookup_insert_Some in H2 as [[<- <-]|[N2 H2]].
    - reflexivity.
    - apply lookup_singleton_Some in H2 as [<- <-]. discriminate Hr.
    - apply lookup_singleton_Some in H1 as [<- <-]. discriminate Hr.
    - apply lookup_singleton_Some in H1 as [<- _].
      apply lookup_singleton_Some in H2 as [<- _]. reflexivity. }
  split; [exact H |].
  exact (submit_keeps_one_record_per_user (Authenticated Samples.owner_user)
           UserSamples.owner_submission 70 Samples.user_table Samples.kyc_table H).
Defined.

(** The sample table has a record of the owner and one of the buyer; after
    the owner's second submission it still has these two keys, the owner's
    record under its old key. *)
Example resubmission_keeps_two_records :
  List.length (rows Samples.kyc_table) = 2%nat /\
  (fun kv => (kv.1, kyc_user kv.2)) <$>
    rows (KYCVerificationViewSet_submit (Authenticated Samples.owner_user)
            UserSamples.owner_submission 70 Samples.user_table
            Samples.kyc_table).2
  = (fun kv => (kv.1, kyc_user kv.2)) <$> rows Samples.kyc_table.
Proof. split; vm_compute; reflexivity. Qed.

(** A user who is neither administrator nor government user cannot review:
    the update of a KYC record and the pending list answer 403 and change
    nothing, and the queryset holds no record but the user's own. *)
Theorem kyc_review_refused (u : User) (key : nat) (data : KYCAttrs)
  (users : gmap nat User) (kycs : gmap nat KYCVerification) :
  role u <> ADMIN -> role u <> GOVERNMENT ->
  KYCVerificationViewSet_partial_update (Authenticated u) key data users kycs
  = (HTTP_403_FORBIDDEN, users, kycs) /\
  KYCVerificationViewSet_pending (Authenticated u) kycs = HTTP_403_FORBIDDEN /\
  (forall k row,
     KYCVerificationViewSet_get_queryset u kycs !! k = Some row ->
     kycs !! k = Some row /\ kyc_user row = pk u).
Proof.
  intros Ha Hg.
  assert (Hr : is_admin u || is_government u = false).
  { unfold is_admin, is_government.
    rewrite (bool_decide_eq_false_2 _ Ha), (bool_decide_eq_false_2 _ Hg).
    reflexivity. }
  split; [| split].
  - unfold KYCVerificationViewSet_partial_update,
      KYCVerificationViewSet_update_permission. cbn.
    fold (is_admin u || is_government u). rewrite Hr. reflexivity.
  - unfold KYCVerificationViewSet_pending. rewrite Hr. reflexivity.
  - intros k row. unfold KYCVerificationViewSet_get_queryset. rewrite Hr.
    rewrite lookup_qfilter_Some, bool_decide_eq_true. tauto.
Qed.

Lemma kyc_review_refused_buyer :
  (role Samples.buyer_user <> ADMIN /\ role Samples.buyer_user <> GOVERNMENT) /\
  (KYCVerificationViewSet_partial_update (Authenticated Samples.buyer_user) 2%nat
     (mkKYCAttrs (Some KYC_APPROVED) None) Samples.user_table Samples.kyc_table
   = (HTTP_403_FORBIDDEN, Samples.user_table, Samples.kyc_table) /\
   KYCVerificationViewSet_pending (Authenticated Samples.buyer_user)
     Samples.kyc_table = HTTP_403_FORBIDDEN /\
   (forall k row,
      KYCVerificationViewSet_get_queryset Samples.buyer_user Samples.kyc_table
        !! k = Some row ->
      Samples.kyc_table !! k = Some row /\ kyc_user row = pk Samples.buyer_user)).
Proof.
  assert (H1 : role Samples.buyer_user <> ADMIN) by discriminate.
  assert (H2 : role Samples.buyer_user <> GOVERNMENT) by discriminate.
  split; [split; assumption |].
  exact (kyc_review_refused Samples.buyer_user 2%nat
           (mkKYCAttrs (Some KYC_APPROVED) None) Samples.user_table
           Samples.kyc_table H1 H2).
Defined.

(** A password change succeeds exactly when the old password is the stored
    one and the new password is confirmed; it then replaces the password of
    the requester's row and nothing else, and otherwise answers 400 and
    changes nothing. *)
Theorem change_password_spec (user : User) (data : ChangePasswordAttrs)
  (users : gmap nat User) :
  (password user = old_password data /\
   new_password data = confirm_password data ->
   UserViewSet_change_password (Authenticated user) data users
   = (HTTP_200_OK tt, <[pk user := set_password (new_password data) user]> users) /\
   check_password (set_password (new_password data) user) (new_password data) = true /\
   role (set_password (new_password data) user) = role user /\
   is_verified (set_password (new_password data) user) = is_verified user) /\
  (password user <> old_password data \/
   new_password data <> confirm_password data ->
   UserViewSet_change_password (Authenticated user) data users
   = (HTTP_400_BAD_REQUEST, users)).
Proof.
  unfold UserViewSet_change_password, ChangePasswordSerializer_validate,
    check_password. cbn.
  destruct (String.eqb_spec (new_password data) (confirm_password data)) as [Hn|Hn];
    destruct (String.eqb_spec (password user) (old_password data)) as [Ho|Ho];
    cbn; split; try tauto.
  intros _. repeat split. apply String.eqb_refl.
Qed.

(** A profile update is open to every authenticated requester for every
    user row, not only the requester's own; it rewrites the name, phone and
    address texts of that row and never its role, verification flag, staff
    flags, e-mail address or password. *)
Theorem profile_update_spec (u : User) (key : nat) (data : UserUpdateAttrs)
  (users : gmap nat User) (target : User) :
  users !! key = Some target ->
  pk target = key ->
  exists t,
    UserViewSet_partial_update (Authenticated u) key data users
    = (HTTP_200_OK t, <[key := t]> users) /\
    role t = role target /\
    is_verified t = is_verified target /\
    is_staff t = is_staff target /\
    is_superuser t = is_superuser target /\
    email t = email target /\
    password t = password target /\
    (forall v, upd_first_name data = Some v -> first_name t = v).
Proof.
  intros Hk Hp. unfold UserViewSet_partial_update, get_object. cbn. rewrite Hk.
  eexists. unfold User_save. cbn. rewrite Hp. split; [reflexivity |].
  repeat split. intros v Hv. cbn. rewrite Hv. reflexivity.
Qed.

Lemma profile_update_by_another_user :
  (Samples.user_table !! 3%nat = Some Samples.owner_user /\
   pk Samples.owner_user = 3%nat) /\
  (exists t,
     UserViewSet_partial_update (Authenticated Samples.buyer_user) 3%nat
       UserSamples.profile_change Samples.user_table
     = (HTTP_200_OK t, <[3%nat := t]> Samples.user_table) /\
     role t = role Samples.owner_user /\
     is_verified t = is_verified Samples.owner_user /\
     is_staff t = is_staff Samples.owner_user /\
     is_superuser t = is_superuser Samples.owner_user /\
     email t = email Samples.owner_user /\
     password t = password Samples.owner_user /\
     (forall v, upd_first_name UserSamples.profile_change = Some v ->
                first_name t = v)).
Proof.
  assert (H1 : Samples.user_table !! 3%nat = Some Samples.owner_user)
    by (vm_compute; reflexivity).
  assert (H2 : pk Samples.owner_user = 3%nat) by reflexivity.
  split; [split; assumption |].
  exact (profile_update_spec Samples.buyer_user 3%nat UserSamples.profile_change
           Samples.user_table Samples.owner_user H1 H2).
Defined.

End UserActionInvariants.

(** ** Leads and their messages *)

Section LeadScope.
Import Users Permissions Leads Messages.

Lemma lead_queryset_scope u properties leads k l :
  LeadViewSet_get_queryset u properties leads !! k = Some l ->
  leads !! k = Some l /\
  (user l = pk u \/ property_owner l properties = Some (pk u)).
Proof.
  unfold LeadViewSet_get_queryset.
  destruct (is_property_owner u || is_real_estate_firm u);
    rewrite lookup_qfilter_Some, bool_decide_eq_true; tauto.
Qed.



(** A buyer sees and writes only the buyer's own leads: a lead created by
    someone else is answered 404 on both write paths and stays as it is. *)
Theorem foreign_lead_not_found (u : User) (key : nat) (value : option string)
  (properties : gmap nat Properties.Property) (leads : gmap nat Lead) (l : Lead) :
  leads !! key = Some l ->
  user l <> pk u ->
  property_owner l properties <> Some (pk u) ->
  LeadViewSet_update_status (Authenticated u) key value properties leads
  = (HTTP_404_NOT_FOUND, leads) /\
  LeadViewSet_partial_update (Authenticated u) key value properties leads
  = (HTTP_404_NOT_FOUND, leads).
Proof.
  intros Hk Hu Ho.
  assert (Hq : LeadViewSet_get_queryset u properties leads !! key = None).
  { destruct (LeadViewSet_get_queryset u properties leads !! key) as [x|] eqn:E;
      [| reflexivity].
    apply lead_queryset_scope in E as [E1 E2].
    assert (x = l) by congruence. subst x. tauto. }
  unfold LeadViewSet_update_status, LeadViewSet_partial_update, get_object.
  rewrite Hq. split; reflexivity.
Qed.

Lemma foreign_lead_sample :
  (LeadSamples.two_leads !! 2%nat = Some LeadSamples.tenant_lead /\
   user LeadSamples.tenant_lead <> pk Samples.buyer_user /\
   property_owner LeadSamples.tenant_lead Samples.property_table
   <> Some (pk Samples.buyer_user)) /\
  (LeadViewSet_update_status (Authenticated Samples.buyer_user) 2%nat
     (Some LOST) Samples.property_table LeadSamples.two_leads
   = (HTTP_404_NOT_FOUND, LeadSamples.two_leads) /\
   LeadViewSet_partial_update (Authenticated Samples.buyer_user) 2%nat
     (Some LOST) Samples.property_table LeadSamples.two_leads
   = (HTTP_404_NOT_FOUND, LeadSamples.two_leads)).
Proof.
  assert (H1 : LeadSamples.two_leads !! 2%nat = Some LeadSamples.tenant_lead)
    by (vm_compute; reflexivity).
  assert (H2 : user LeadSamples.tenant_lead <> pk Samples.buyer_user)
    by discriminate.
  assert (H3 : property_owner LeadSamples.tenant_lead Samples.property_table
               <> Some (pk Samples.buyer_user)) by (vm_compute; discriminate).
  split; [repeat split; assumption |].
  exact (foreign_lead_not_found Samples.buyer_user 2%nat (Some LOST)
           Samples.property_table LeadSamples.two_leads LeadSamples.tenant_lead
           H1 H2 H3).
Defined.

Lemma fresh_message_key (messages : gmap nat Message) :
  messages !! fresh (dom messages) = None.
Proof. apply not_elem_of_dom. apply is_fresh. Qed.

(** A message that is created was sent by a participant of the lead of the
    URL (its creator, the owner of its listing, or an administrator).  It is
    stored under an unused key, unread, with the requester as sender and
    attached to the lead named in the payload; its receiver is computed from
    that lead (the owner of its listing when the sender created it, its
    creator otherwise), whatever receiver the payload names. *)
Theorem message_create_spec (r : RequestUser) (lead_pk : nat)
  (data : MessageAttrs) (users : gmap nat User)
  (properties : gmap nat Properties.Property) (leads : gmap nat Lead)
  (messages messages' : gmap nat Message) (m : Message) :
  MessageViewSet_create r lead_pk data users properties leads messages
  = (HTTP_201_CREATED m, messages') ->
  exists u url_lead payload_lead,
    r = Authenticated u /\
    leads !! lead_pk = Some url_lead /\
    (pk u = user url_lead \/
     property_owner url_lead properties = Some (pk u) \/
     is_admin u = true) /\
    leads !! attr_lead data = Some payload_lead /\
    messages !! fresh (dom messages) = None /\
    messages' = <[fresh (dom messages) := m]> messages /\
    sender m = pk u /\
    lead m = attr_lead data /\
    content m = attr_content data /\
    is_read m = false /\
    (pk u = user payload_lead ->
     property_owner payload_lead properties = Some (receiver m)) /\
    (pk u <> user payload_lead -> receiver m = user payload_lead).
Proof.
  unfold MessageViewSet_create. destruct r as [|u].
  { unfold permission_denied. cbn. discriminate. }
  destruct (leads !! lead_pk) as [url_lead|] eqn:Hl; [| discriminate].
  destruct (not_a_participant u url_lead properties) as [[|]|e] eqn:Hp;
    [discriminate | | discriminate].
  destruct (leads !! attr_lead data) as [payload_lead|] eqn:Hd; [| discriminate].
  destruct (users !! attr_receiver data); [| discriminate].
  destruct (negb (truthy (Some (attr_content data)))); [discriminate |].
  unfold MessageSerializer_create.
  intros H. exists u, url_lead, payload_lead.
  split; [reflexivity |]. split; [reflexivity |].
  split.
  { unfold not_a_participant in Hp.
    destruct (decide (pk u = user url_lead)) as [Hc|Hc]; [auto |].
    rewrite (bool_decide_eq_false_2 _ Hc) in Hp. cbn [negb] in Hp.
    destruct (property_owner url_lead properties) as [o|]; [| discriminate].
    injection Hp as Hp. apply andb_false_iff in Hp as [Hp|Hp].
    - apply negb_false_iff, bool_decide_eq_true in Hp. right. left. congruence.
    - apply negb_false_iff in Hp. auto. }
  split; [reflexivity |]. split; [apply fresh_message_key |].
  case_bool_decide as Hs.
  - destruct (property_owner payload_lead properties) as [o|]; [| discriminate].
    cbn in H. injection H as <- <-. do 5 (split; [reflexivity |]).
    split; [intros _; reflexivity | intros N; contradiction].
  - cbn in H. injection H as <- <-. do 5 (split; [reflexivity |]).
    split; [intros N; contradiction | intros _; reflexivity].
Qed.

End LeadScope.

Section MessageProperties.
Import Users Permissions Leads Messages.

Lemma message_create_buyer_sample :
  MessageViewSet_create (Authenticated Samples.buyer_user) 1%nat
    LeadSamples.buyer_message Samples.user_table Samples.property_table
    LeadSamples.two_leads (∅ : gmap nat Message)
  = (HTTP_201_CREATED LeadSamples.stored_buyer_message,
     <[fresh (dom (∅ : gmap nat Message)) := LeadSamples.stored_buyer_message]> (∅ : gmap nat Message)) /\
  (exists u url_lead payload_lead,
     Authenticated Samples.buyer_user = Authenticated u /\
     LeadSamples.two_leads !! 1%nat = Some url_lead /\
     (pk u = user url_lead \/
      property_owner url_lead Samples.property_table = Some (pk u) \/
      is_admin u = true) /\
     LeadSamples.two_leads !! attr_lead LeadSamples.buyer_message
     = Some payload_lead /\
     (∅ : gmap nat Message) !! fresh (dom (∅ : gmap nat Message)) = None /\
     <[fresh (dom (∅ : gmap nat Message)) := LeadSamples.stored_buyer_message]> (∅ : gmap nat Message)
     = <[fresh (dom (∅ : gmap nat Message)) := LeadSamples.stored_buyer_message]> (∅ : gmap nat Message) /\
     sender LeadSamples.stored_buyer_message = pk u /\
     lead LeadSamples.stored_buyer_message = attr_lead LeadSamples.buyer_message /\
     content LeadSamples.stored_buyer_message
     = attr_content LeadSamples.buyer_message /\
     is_read LeadSamples.stored_buyer_message = false /\
     (pk u = user payload_lead ->
      property_owner payload_lead Samples.property_table
      = Some (receiver LeadSamples.stored_buyer_message)) /\
     (pk u <> user payload_lead ->
      receiver LeadSamples.stored_buyer_message = user payload_lead)).
Proof.
  assert (H : MessageViewSet_create (Authenticated Samples.buyer_user) 1%nat
                LeadSamples.buyer_message Samples.user_table
                Samples.property_table LeadSamples.two_leads (∅ : gmap nat Message)
              = (HTTP_201_CREATED LeadSamples.stored_buyer_message,
                 <[fresh (dom (∅ : gmap nat Message))
                     := LeadSamples.stored_buyer_message]> (∅ : gmap nat Message)))
    by (vm_compute; reflexivity).
  split; [exact H |].
  exact (message_create_spec (Authenticated Samples.buyer_user) 1%nat
           LeadSamples.buyer_message Samples.user_table Samples.property_table
           LeadSamples.two_leads (∅ : gmap nat Message) _ _ H).
Defined.

(** Someone who is neither the creator of the lead of the URL, nor the owner
    of its listing, nor an administrator is refused, and no message is
    stored. *)
Theorem message_create_refused (u : User) (lead_pk : nat) (data : MessageAttrs)
  (users : gmap nat User) (properties : gmap nat Properties.Property)
  (leads : gmap nat Lead) (messages : gmap nat Message)
  (url_lead : Lead) (owner_pk : nat) :
  leads !! lead_pk = Some url_lead ->
  property_owner url_lead properties = Some owner_pk ->
  pk u <> user url_lead ->
  pk u <> owner_pk ->
  is_admin u = false ->
  MessageViewSet_create (Authenticated u) lead_pk data users properties leads
    messages
  = (HTTP_403_FORBIDDEN, messages).
Proof.
  intros Hl Ho Hu Hn Ha. unfold MessageViewSet_create, not_a_participant.
  rewrite Hl, (bool_decide_eq_false_2 _ Hu). cbn [negb].
  rewrite Ho, (bool_decide_eq_false_2 _ Hn), Ha. reflexivity.
Qed.

Lemma message_create_refused_sample :
  (LeadSamples.two_leads !! 1%nat = Some Samples.buyer_lead /\
   property_owner Samples.buyer_lead Samples.property_table = Some 3%nat /\
   pk Samples.verified_buyer_user <> user Samples.buyer_lead /\
   pk Samples.verified_buyer_user <> 3%nat /\
   is_admin Samples.verified_buyer_user = false) /\
  MessageViewSet_create (Authenticated Samples.verified_buyer_user) 1%nat
    LeadSamples.buyer_message Samples.user_table Samples.property_table
    LeadSamples.two_leads LeadSamples.message_table
  = (HTTP_403_FORBIDDEN, LeadSamples.message_table).
Proof.
  assert (H1 : LeadSamples.two_leads !! 1%nat = Some Samples.buyer_lead)
    by (vm_compute; reflexivity).
  assert (H2 : property_owner Samples.buyer_lead Samples.property_table
               = Some 3%nat) by (vm_compute; reflexivity).
  assert (H3 : pk Samples.verified_buyer_user <> user Samples.buyer_lead)
    by discriminate.
  assert (H4 : pk Samples.verified_buyer_user <> 3%nat) by discriminate.
  assert (H5 : is_admin Samples.verified_buyer_user = false) by reflexivity.
  split; [repeat split; assumption |].
  exact (message_create_refused Samples.verified_buyer_user 1%nat
           LeadSamples.buyer_message Samples.user_table Samples.property_table
           LeadSamples.two_leads LeadSamples.message_table Samples.buyer_lead
           3%nat H1 H2 H3 H4 H5).
Defined.

(** Marking as read succeeds only for the receiver of a message of the lead
    of the URL; it sets the read flag of that message and nothing else, and
    afterwards the message is gone from the receiver's unread list while
    every other entry of that list is kept. *)
Theorem mark_as_read_spec (u : User) (lead_pk key : nat)
  (messages messages' : gmap nat Message) (m' : Message) :
  MessageViewSet_mark_as_read (Authenticated u) lead_pk key messages
  = (HTTP_200_OK m', messages') ->
  exists m,
    messages !! key = Some m /\
    lead m = lead_pk /\
    receiver m = pk u /\
    m' = set_is_read true m /\
    messages' = <[key := m']> messages /\
    (forall k x,
       unread_queryset u lead_pk messages' !! k = Some x <->
       k <> key /\ unread_queryset u lead_pk messages !! k = Some x).
Proof.
  unfold MessageViewSet_mark_as_read, get_object, MessageViewSet_get_queryset.
  destruct (qfilter _ messages !! key) as [m|] eqn:Hq; [| discriminate].
  apply lookup_qfilter_Some in Hq as [Hk Hl]. apply bool_decide_eq_true in Hl.
  case_bool_decide as Hr; cbn [negb]; [| discriminate].
  intros [= <- <-]. exists m. repeat split; auto.
  - apply lookup_qfilter_Some in H as [H1 H2].
    intros ->. rewrite lookup_insert_eq in H1. injection H1 as <-.
    cbn in H2. rewrite andb_false_r in H2. discriminate.
  - apply lookup_qfilter_Some in H as [H1 H2].
    apply lookup_qfilter_Some.
    destruct (decide (k = key)) as [->|N].
    + rewrite lookup_insert_eq in H1. injection H1 as <-.
      cbn in H2. rewrite andb_false_r in H2. discriminate.
    + rewrite lookup_insert_ne in H1 by auto. auto.
  - intros [N H]. apply lookup_qfilter_Some in H as [H1 H2].
    apply lookup_qfilter_Some. rewrite lookup_insert_ne by auto. auto.
Qed.

Lemma mark_as_read_owner_sample :
  MessageViewSet_mark_as_read (Authenticated Samples.owner_user) 1%nat 1%nat
    LeadSamples.message_table
  = (HTTP_200_OK (set_is_read true LeadSamples.stored_buyer_message),
     <[1%nat := set_is_read true LeadSamples.stored_buyer_message]>
       LeadSamples.message_table) /\
  (exists m,
     LeadSamples.message_table !! 1%nat = Some m /\
     lead m = 1%nat /\
     receiver m = pk Samples.owner_user /\
     set_is_read true LeadSamples.stored_buyer_message = set_is_read true m /\
     <[1%nat := set_is_read true LeadSamples.stored_buyer_message]>
       LeadSamples.message_table
     = <[1%nat := set_is_read true LeadSamples.stored_buyer_message]>
         LeadSamples.message_table /\
     (forall k x,
        unread_queryset Samples.owner_user 1%nat
          (<[1%nat := set_is_read true LeadSamples.stored_buyer_message]>
             LeadSamples.message_table) !! k = Some x <->
        k <> 1%nat /\
        unread_queryset Samples.owner_user 1%nat LeadSamples.message_table !! k
        = Some x)).
Proof.
  assert (H : MessageViewSet_mark_as_read (Authenticated Samples.owner_user)
                1%nat 1%nat LeadSamples.message_table
              = (HTTP_200_OK (set_is_read true LeadSamples.stored_buyer_message),
                 <[1%nat := set_is_read true LeadSamples.stored_buyer_message]>
                   LeadSamples.message_table)) by (vm_compute; reflexivity).
  split; [exact H |].
  exact (mark_as_read_spec Samples.owner_user 1%nat 1%nat
           LeadSamples.message_table _ _ H).
Defined.

End MessageProperties.

(** ** Saving payments, invoices and subscriptions *)

Section SaveHooks.
Import Users Permissions Payments.

(** The save hook of a payment stamps at most once: whatever the payment,
    saving the saved instance again, at any time, gives the same instance;
    and a save changes no column but the completion time. *)
Theorem payment_save_is_idempotent (t1 t2 : Time) (k1 k2 : nat) (p : Payment)
  (tbl1 tbl2 : gmap nat Payment) :
  (Payment_save t2 k2 (Payment_save t1 k1 p tbl1).1 tbl2).1
  = (Payment_save t1 k1 p tbl1).1 /\
  status (Payment_save t1 k1 p tbl1).1 = status p /\
  amount (Payment_save t1 k1 p tbl1).1 = amount p /\
  payer (Payment_save t1 k1 p tbl1).1 = payer p /\
  receiver (Payment_save t1 k1 p tbl1).1 = receiver p /\
  (status p <> COMPLETED ->
   completed_at (Payment_save t1 k1 p tbl1).1 = completed_at p) /\
  (status p = COMPLETED ->
   completed_at (Payment_save t1 k1 p tbl1).1
   = Some (default t1 (completed_at p))).
Proof.
  unfold Payment_save.
  destruct p as [pr pa re am rf st ca]. cbn.
  destruct st, ca as [t|]; cbn; repeat split; intros; congruence.
Qed.

(** Saving an invoice on a day and again on the same or a later day stores
    what a single save on the later day stores; in particular a save is
    idempotent, and an invoice stored as OVERDUE is never set back. *)
Theorem invoice_save_composes (t1 t2 : Date) (k1 k2 : nat) (i : Invoice)
  (tbl1 tbl2 : gmap nat Invoice) :
  (t1 <= t2)%Z ->
  Invoice_save t2 k2 (Invoice_save t1 k1 i tbl1).1 tbl2
  = Invoice_save t2 k2 i tbl2.
Proof.
  intros Ht. unfold Invoice_save, Invoice_is_overdue.
  destruct i as [pr us pa nu am st du]. cbn.
  destruct st;
    destruct (Z.ltb_spec du t1), (Z.ltb_spec du t2); cbn;
    repeat (first [ rewrite bool_decide_eq_true_2 by reflexivity
                  | rewrite bool_decide_eq_false_2 by discriminate ]; cbn);
    try reflexivity; try lia;
    destruct (Z.ltb_spec du t2); try reflexivity; lia.
Qed.

Lemma invoice_save_composes_sample :
  (10 <= 20)%Z /\
  Invoice_save 20 2%nat
    (Invoice_save 10 2%nat Samples.late_invoice Samples.invoice_table).1
    Samples.invoice_table
  = Invoice_save 20 2%nat Samples.late_invoice Samples.invoice_table.
Proof.
  assert (H : (10 <= 20)%Z) by lia.
  split; [exact H |].
  exact (invoice_save_composes 10 20 2%nat 2%nat Samples.late_invoice
           Samples.invoice_table Samples.invoice_table H).
Defined.

End SaveHooks.

Ltac decide_simpl :=
  cbn;
  repeat (first [ rewrite bool_decide_eq_true_2 by reflexivity
                | rewrite bool_decide_eq_false_2 by discriminate ]; cbn).

Section SubscriptionHook.
Import Subscriptions.

(** Saving a subscription stores it as EXPIRED exactly when it was EXPIRED
    already or was ACTIVE with an end date before today; a CANCELLED
    subscription is saved as it is, although [is_expired] reports it expired
    once its end date has passed; and two saves on successive days store
    what one save on the later day stores. *)
Theorem subscription_save_spec (t1 t2 : Date) (k1 k2 : nat) (x : Subscription)
  (tbl1 tbl2 : gmap nat Subscription) :
  (t1 <= t2)%Z ->
  (status (Subscription_save t1 k1 x tbl1).1 = EXPIRED <->
   status x = EXPIRED \/ (status x = ACTIVE /\ (end_date x < t1)%Z)) /\
  (status x = CANCELLED -> (Subscription_save t1 k1 x tbl1).1 = x) /\
  (status x = CANCELLED -> (end_date x < t1)%Z ->
   Subscription_is_expired t1 x = true) /\
  Subscription_save t2 k2 (Subscription_save t1 k1 x tbl1).1 tbl2
  = Subscription_save t2 k2 x tbl2.
Proof.
  intros Ht. unfold Subscription_save, Subscription_is_expired.
  destruct x as [us pl sd ed st]. cbn [fst end_date status].
  split; [| split; [| split]].
  - destruct st, (Z.ltb_spec ed t1); decide_simpl;
      intuition (congruence || lia).
  - intros ->. decide_simpl. rewrite andb_false_r. reflexivity.
  - intros _ H. apply Z.ltb_lt. exact H.
  - destruct st, (Z.ltb_spec ed t1); decide_simpl;
      destruct (Z.ltb_spec ed t2); decide_simpl; try reflexivity; lia.
Qed.

Lemma subscription_save_sample :
  (31 <= 40)%Z /\
  ((status (Subscription_save 31 1%nat PaymentSamples.cancelled_subscription ∅).1
    = EXPIRED <->
    status PaymentSamples.cancelled_subscription = EXPIRED \/
    (status PaymentSamples.cancelled_subscription = ACTIVE /\
     (end_date PaymentSamples.cancelled_subscription < 31)%Z)) /\
   (status PaymentSamples.cancelled_subscription = CANCELLED ->
    (Subscription_save 31 1%nat PaymentSamples.cancelled_subscription ∅).1
    = PaymentSamples.cancelled_subscription) /\
   (status PaymentSamples.cancelled_subscription = CANCELLED ->
    (end_date PaymentSamples.cancelled_subscription < 31)%Z ->
    Subscription_is_expired 31 PaymentSamples.cancelled_subscription = true) /\
   Subscription_save 40 1%nat
     (Subscription_save 31 1%nat PaymentSamples.cancelled_subscription ∅).1 ∅
   = Subscription_save 40 1%nat PaymentSamples.cancelled_subscription ∅).
Proof.
  assert (H : (31 <= 40)%Z) by lia.
  split; [exact H |].
  exact (subscription_save_spec 31 40 1%nat 1%nat
           PaymentSamples.cancelled_subscription ∅ ∅ H).
Defined.

End SubscriptionHook.

(** ** Who reaches a payment, and what verifying it touches *)

Section PaymentScope.
Import Users Permissions Payments Invoicing.

Lemma payment_queryset_scope u tbl k p :
  PaymentViewSet_get_queryset u tbl !! k = Some p <->
  tbl !! k = Some p /\ (is_staff u = true \/ payer p = pk u \/ receiver p = pk u).
Proof.
  unfold PaymentViewSet_get_queryset. destruct (is_staff u).
  - split; [auto | tauto].
  - rewrite lookup_qfilter_Some, orb_true_iff, !bool_decide_eq_true.
    split; [tauto |]. intros [H [N|H']]; [discriminate | tauto].
Qed.

(** The payments a list draws from: [my_payments] pages through exactly the
    payments the requester made and [received_payments] through exactly
    those the requester received, for staff as for everyone else. *)
Theorem payment_lists_spec (u : User) (tbl : gmap nat Payment) (k : nat)
  (p : Payment) :
  (my_payments_queryset u tbl !! k = Some p <->
   tbl !! k = Some p /\ payer p = pk u) /\
  (received_payments_queryset u tbl !! k = Some p <->
   tbl !! k = Some p /\ receiver p = pk u).
Proof.
  unfold my_payments_queryset, received_payments_queryset.
  rewrite !lookup_qfilter_Some, payment_queryset_scope, !bool_decide_eq_true.
  tauto.
Qed.

(** A requester who is not staff and neither paid nor receives a payment
    cannot have it verified: the answer is 404 and no table changes. *)
Theorem payment_outsider_not_found (u : User) (key : nat) (now : Time)
  (today : Date) (db : Tables) (p : Payment) :
  payments db !! key = Some p ->
  is_staff u = false ->
  payer p <> pk u ->
  receiver p <> pk u ->
  PaymentViewSet_verify_payment (Authenticated u) key now today db
  = (HTTP_404_NOT_FOUND, db).
Proof.
  intros Hk Hs Hp Hr. unfold PaymentViewSet_verify_payment, get_object.
  destruct (PaymentViewSet_get_queryset u (payments db) !! key) as [q|] eqn:E;
    [| reflexivity].
  apply payment_queryset_scope in E as [E1 [E2|[E2|E2]]]; congruence.
Qed.

Lemma payment_outsider_sample :
  (payments Samples.payment_tables !! 1%nat = Some Samples.pending_payment /\
   is_staff Samples.verified_buyer_user = false /\
   payer Samples.pending_payment <> pk Samples.verified_buyer_user /\
   receiver Samples.pending_payment <> pk Samples.verified_buyer_user) /\
  PaymentViewSet_verify_payment (Authenticated Samples.verified_buyer_user) 1%nat
    100 10 Samples.payment_tables
  = (HTTP_404_NOT_FOUND, Samples.payment_tables).
Proof.
  assert (H1 : payments Samples.payment_tables !! 1%nat
               = Some Samples.pending_payment) by (vm_compute; reflexivity).
  assert (H2 : is_staff Samples.verified_buyer_user = false) by reflexivity.
  assert (H3 : payer Samples.pending_payment <> pk Samples.verified_buyer_user)
    by discriminate.
  assert (H4 : receiver Samples.pending_payment <> pk Samples.verified_buyer_user)
    by discriminate.
  split; [repeat split; assumption |].
  exact (payment_outsider_not_found Samples.verified_buyer_user 1%nat 100 10
           Samples.payment_tables Samples.pending_payment H1 H2 H3 H4).
Defined.

Lemma payment_invoice_Some key tbl ikey inv :
  payment_invoice key tbl = Some (ikey, inv) ->
  tbl !! ikey = Some inv /\ inv_payment inv = Some key.
Proof.
  unfold payment_invoice. intros H.
  apply head_rows_Some, lookup_qfilter_Some in H as [H1 H2].
  apply bool_decide_eq_true in H2. auto.
Qed.

(** Verifying a payment touches nothing else: every other payment is kept,
    every invoice that is not linked to the payment is kept, an invoice that
    changes is the linked one and becomes PAID, and at most one transaction
    is appended to the transactions there were. *)
Theorem verify_payment_frame (r : RequestUser) (key : nat) (now : Time)
  (today : Date) (db db' : Tables) (resp : Response Payment) :
  PaymentViewSet_verify_payment r key now today db = (resp, db') ->
  (forall k, k <> key -> payments db' !! k = payments db !! k) /\
  (forall k i, invoices db !! k = Some i -> inv_payment i <> Some key ->
               invoices db' !! k = Some i) /\
  (forall k i', invoices db' !! k = Some i' ->
                invoices db !! k = Some i' \/
                (inv_status i' = PAID /\ inv_payment i' = Some key)) /\
  (exists suffix, transactions db' = (transactions db ++ suffix)%list /\
                  (List.length suffix <= 1)%nat).
Proof.
  unfold PaymentViewSet_verify_payment. destruct r as [|u].
  { intros [= <- <-]. repeat split; auto.
    exists []. rewrite app_nil_r. split; [reflexivity | cbn; lia]. }
  destruct (get_object _ key) as [p|].
  2:{ intros [= <- <-]. repeat split; auto.
      exists []. rewrite app_nil_r. split; [reflexivity | cbn; lia]. }
  rewrite (Payment_save_keeps_stamp now key _ now) by reflexivity.
  intros [= <- <-]. cbn [payments invoices transactions].
  split; [intros k Hk; apply lookup_insert_ne; auto |].
  destruct (payment_invoice key (invoices db)) as [[ikey inv]|] eqn:Hi.
  - apply payment_invoice_Some in Hi as [Hi1 Hi2].
    unfold Invoice_save, Invoice_is_overdue. decide_simpl.
    split; [| split].
    + intros k i Hk Hn. rewrite lookup_insert_ne; [exact Hk |].
      intros ->. congruence.
    + intros k i'. destruct (decide (k = ikey)) as [->|N].
      * rewrite lookup_insert_eq. intros [= <-]. right. split; [reflexivity | exact Hi2].
      * rewrite lookup_insert_ne by auto. auto.
    + eexists. split; [reflexivity | cbn; lia].
  - split; [auto |]. split; [auto |].
    eexists. split; [reflexivity | cbn; lia].
Qed.

Lemma verify_payment_frame_sample :
  PaymentViewSet_verify_payment (Authenticated Samples.buyer_user) 1%nat 100 10
    Samples.payment_tables
  = ((PaymentViewSet_verify_payment (Authenticated Samples.buyer_user) 1%nat
        100 10 Samples.payment_tables).1,
     Samples.tables_after_first) /\
  ((forall k, k <> 1%nat ->
      payments Samples.tables_after_first !! k
      = payments Samples.payment_tables !! k) /\
   (forall k i, invoices Samples.payment_tables !! k = Some i ->
                inv_payment i <> Some 1%nat ->
                invoices Samples.tables_after_first !! k = Some i) /\
   (forall k i', invoices Samples.tables_after_first !! k = Some i' ->
                 invoices Samples.payment_tables !! k = Some i' \/
                 (inv_status i' = PAID /\ inv_payment i' = Some 1%nat)) /\
   (exists suffix,
      transactions Samples.tables_after_first
      = (transactions Samples.payment_tables ++ suffix)%list /\
      (List.length suffix <= 1)%nat)).
Proof.
  assert (H : PaymentViewSet_verify_payment (Authenticated Samples.buyer_user)
                1%nat 100 10 Samples.payment_tables
              = ((PaymentViewSet_verify_payment (Authenticated Samples.buyer_user)
                    1%nat 100 10 Samples.payment_tables).1,
                 Samples.tables_after_first)) by (vm_compute; reflexivity).
  split; [exact H |].
  exact (verify_payment_frame (Authenticated Samples.buyer_user) 1%nat 100 10
           Samples.payment_tables Samples.tables_after_first _ H).
Defined.

End PaymentScope.

(** ** Generating the payment of an invoice *)

Section GeneratePayment.
Import Users Permissions Payments Invoicing.

Lemma fresh_payment_key (tbl : gmap nat Payment) : tbl !! fresh (dom tbl) = None.
Proof. apply not_elem_of_dom. apply is_fresh. Qed.

Lemma generate_payment_ok r key method ref now today properties db columns
  payment cols db' columns' :
  InvoiceViewSet_generate_payment r key method ref now today properties db columns
  = (HTTP_201_CREATED (payment, cols), db', columns') ->
  exists u invoice prop m invoice',
    r = Authenticated u /\
    InvoiceViewSet_get_queryset u properties (invoices db) !! key = Some invoice /\
    inv_payment invoice = None /\
    method = Some m /\
    properties !! inv_property invoice = Some prop /\
    payment = mkPayment (inv_property invoice) (inv_user invoice)
                (Properties.owner prop) (inv_amount invoice) ref PENDING None /\
    cols = mkPaymentColumns
             (if String.eqb (Properties.listing_type prop) "for_rent"
              then RENT else PURCHASE) m /\
    invoice' = (Invoice_save today key
                  (set_inv_payment (Some (fresh (dom (payments db)))) invoice)
                  (invoices db)).1 /\
    db' = mkTables (<[fresh (dom (payments db)) := payment]> (payments db))
            (transactions db) (<[key := invoice']> (invoices db)) /\
    columns' = <[fresh (dom (payments db)) := cols]> columns.
Proof.
  unfold InvoiceViewSet_generate_payment, get_object.
  destruct r as [|u]; [unfold permission_denied; cbn; discriminate |].
  destruct (InvoiceViewSet_get_queryset u properties (invoices db) !! key)
    as [invoice|] eqn:Hq; [| discriminate].
  case_bool_decide as Hp; [discriminate |].
  destruct method as [m|]; [| discriminate].
  destruct (negb (truthy (Some m))); [discriminate |].
  destruct (properties !! inv_property invoice) as [prop|] eqn:Hprop;
    [| discriminate].
  destruct (reference_taken ref (payments db)); [discriminate |].
  unfold Payment_save. decide_simpl.
  intros [= <- <- <- <-].
  exists u, invoice, prop, m. eexists.
  repeat split; try reflexivity; try assumption.
  destruct (inv_payment invoice) eqn:E; [| reflexivity].
  exfalso. apply Hp. eauto.
Qed.

(** A payment that is generated belongs to an invoice of the requester's
    queryset that had none.  It is a new PENDING payment, without completion
    time, of the invoice's amount, paid by the invoice's user to the owner
    of the invoice's listing, of type RENT for a listing for rent and
    PURCHASE otherwise; the invoice is linked to it, its user, listing and
    amount unchanged, and no transaction is recorded. *)
Theorem generate_payment_spec (r : RequestUser) (key : nat)
  (method : option string) (ref : string) (now : Time) (today : Date)
  (properties : gmap nat Properties.Property) (db db' : Tables)
  (columns columns' : gmap nat PaymentColumns)
  (payment : Payment) (cols : PaymentColumns) :
  InvoiceViewSet_generate_payment r key method ref now today properties db columns
  = (HTTP_201_CREATED (payment, cols), db', columns') ->
  exists invoice prop invoice',
    invoices db !! key = Some invoice /\
    inv_payment invoice = None /\
    properties !! inv_property invoice = Some prop /\
    payments db !! fresh (dom (payments db)) = None /\
    payments db' = <[fresh (dom (payments db)) := payment]> (payments db) /\
    status payment = PENDING /\
    completed_at payment = None /\
    amount payment = inv_amount invoice /\
    payer payment = inv_user invoice /\
    receiver payment = Properties.owner prop /\
    (payment_type cols = RENT <-> Properties.listing_type prop = "for_rent") /\
    (payment_type cols = PURCHASE <-> Properties.listing_type prop <> "for_rent") /\
    invoices db' = <[key := invoice']> (invoices db) /\
    inv_payment invoice' = Some (fresh (dom (payments db))) /\
    inv_user invoice' = inv_user invoice /\
    inv_property invoice' = inv_property invoice /\
    inv_amount invoice' = inv_amount invoice /\
    transactions db' = transactions db.
Proof.
  intros H. apply generate_payment_ok in H
    as (u & invoice & prop & m & invoice' & -> & Hq & Hp & -> & Hprop & -> & ->
        & Hi & -> & ->).
  exists invoice, prop, invoice'.
  assert (Hk : invoices db !! key = Some invoice).
  { unfold InvoiceViewSet_get_queryset in Hq.
    destruct (is_staff u); [exact Hq |].
    case_bool_decide; apply lookup_qfilter_Some in Hq; tauto. }
  assert (Hf : inv_payment invoice' = Some (fresh (dom (payments db))) /\
               inv_user invoice' = inv_user invoice /\
               inv_property invoice' = inv_property invoice /\
               inv_amount invoice' = inv_amount invoice).
  { subst invoice'. unfold Invoice_save. cbn [fst].
    destruct (Invoice_is_overdue today _ && _); repeat split. }
  destruct Hf as (F1 & F2 & F3 & F4).
  cbn [payments invoices transactions status completed_at amount payer receiver
       payment_type].
  repeat split; auto using fresh_payment_key.
  - destruct (String.eqb_spec (Properties.listing_type prop) "for_rent");
      [auto | discriminate].
  - intros ->. reflexivity.
  - destruct (String.eqb_spec (Properties.listing_type prop) "for_rent");
      [discriminate | auto].
  - intros N. destruct (String.eqb_spec (Properties.listing_type prop) "for_rent");
      [contradiction | reflexivity].
Qed.



End GeneratePayment.

Section GeneratePaymentSamples.
Import Users Permissions Payments Invoicing.

Lemma generation_sample_runs :
  InvoiceViewSet_generate_payment (Authenticated Samples.buyer_user) 1%nat
    (Some "paystack") "PAY-AAAA1111" 50 10 Samples.property_table
    PaymentSamples.opening_tables ∅
  = (HTTP_201_CREATED (InvoiceSamples.generated_payment,
                       InvoiceSamples.generated_columns),
     InvoiceSamples.tables_after_generation,
     InvoiceSamples.columns_after_generation).
Proof. vm_compute. reflexivity. Qed.

Lemma generate_payment_spec_sample :
  InvoiceViewSet_generate_payment (Authenticated Samples.buyer_user) 1%nat
    (Some "paystack") "PAY-AAAA1111" 50 10 Samples.property_table
    PaymentSamples.opening_tables ∅
  = (HTTP_201_CREATED (InvoiceSamples.generated_payment,
                       InvoiceSamples.generated_columns),
     InvoiceSamples.tables_after_generation,
     InvoiceSamples.columns_after_generation) /\
  (exists invoice prop invoice',
     invoices PaymentSamples.opening_tables !! 1%nat = Some invoice /\
     inv_payment invoice = None /\
     Samples.property_table !! inv_property invoice = Some prop /\
     payments PaymentSamples.opening_tables
       !! fresh (dom (payments PaymentSamples.opening_tables)) = None /\
     payments InvoiceSamples.tables_after_generation
     = <[fresh (dom (payments PaymentSamples.opening_tables))
           := InvoiceSamples.generated_payment]>
         (payments PaymentSamples.opening_tables) /\
     status InvoiceSamples.generated_payment = PENDING /\
     completed_at InvoiceSamples.generated_payment = None /\
     amount InvoiceSamples.generated_payment = inv_amount invoice /\
     payer InvoiceSamples.generated_payment = inv_user invoice /\
     receiver InvoiceSamples.generated_payment = Properties.owner prop /\
     (payment_type InvoiceSamples.generated_columns = RENT <->
      Properties.listing_type prop = "for_rent") /\
     (payment_type InvoiceSamples.generated_columns = PURCHASE <->
      Properties.listing_type prop <> "for_rent") /\
     invoices InvoiceSamples.tables_after_generation
     = <[1%nat := invoice']> (invoices PaymentSamples.opening_tables) /\
     inv_payment invoice'
     = Some (fresh (dom (payments PaymentSamples.opening_tables))) /\
     inv_user invoice' = inv_user invoice /\
     inv_property invoice' = inv_property invoice /\
     inv_amount invoice' = inv_amount invoice /\
     transactions InvoiceSamples.tables_after_generation
     = transactions PaymentSamples.opening_tables).
Proof.
  assert (H : InvoiceViewSet_generate_payment (Authenticated Samples.buyer_user)
                1%nat (Some "paystack") "PAY-AAAA1111" 50 10
                Samples.property_table PaymentSamples.opening_tables ∅
              = (HTTP_201_CREATED (InvoiceSamples.generated_payment,
                                   InvoiceSamples.generated_columns),
                 InvoiceSamples.tables_after_generation,
                 InvoiceSamples.columns_after_generation))
    by (vm_compute; reflexivity).
  split; [exact H |].
  exact (generate_payment_spec (Authenticated Samples.buyer_user) 1%nat
           (Some "paystack") "PAY-AAAA1111" 50 10 Samples.property_table
           PaymentSamples.opening_tables InvoiceSamples.tables_after_generation
           ∅ InvoiceSamples.columns_after_generation
           InvoiceSamples.generated_payment InvoiceSamples.generated_columns H).
Defined.


Lemma payment_invoice_unique pkey key (i' : Invoice) (tbl : gmap nat Invoice) :
  (forall k i, tbl !! k = Some i -> inv_payment i <> Some pkey) ->
  inv_payment i' = Some pkey ->
  payment_invoice pkey (<[key := i']> tbl) = Some (key, i').
Proof.
  intros Hn Hi. unfold payment_invoice, rows.
  replace (qfilter (fun i => bool_decide (inv_payment i = Some pkey))
             (<[key := i']> tbl))
    with ({[key := i']} : gmap nat Invoice).
  { rewrite map_to_list_singleton. reflexivity. }
  apply map_eq. intros k. apply option_eq. intros x.
  rewrite lookup_qfilter_Some, lookup_singleton_Some, bool_decide_eq_true.
  destruct (decide (k = key)) as [->|N].
  - rewrite lookup_insert_eq. split.
    + intros [_ <-]. auto.
    + intros [[= <-] _]. auto.
  - rewrite lookup_insert_ne by auto. split.
    + intros [E _]. congruence.
    + intros [Hk Hp]. exfalso. exact (Hn k x Hk Hp).
Qed.

(** Generation and verification compose: when every invoice that names a
    payment names an existing one, the payment generated for an invoice can
    be verified by its payer, its receiver or staff, and the verification
    completes that payment at the time of the call and stores the invoice it
    was generated for as PAID. *)
Theorem generate_then_verify (r : RequestUser) (key : nat)
  (method : option string) (ref : string) (now now2 : Time) (today today2 : Date)
  (properties : gmap nat Properties.Property) (db db' : Tables)
  (columns columns' : gmap nat PaymentColumns)
  (payment : Payment) (cols : PaymentColumns) (u2 : User) :
  InvoiceViewSet_generate_payment r key method ref now today properties db columns
  = (HTTP_201_CREATED (payment, cols), db', columns') ->
  (forall k i pkey, invoices db !! k = Some i -> inv_payment i = Some pkey ->
                    is_Some (payments db !! pkey)) ->
  is_staff u2 = true \/ payer payment = pk u2 \/ receiver payment = pk u2 ->
  exists p'' db'',
    PaymentViewSet_verify_payment (Authenticated u2) (fresh (dom (payments db)))
      now2 today2 db'
    = (HTTP_200_OK p'', db'') /\
    status p'' = COMPLETED /\
    completed_at p'' = Some now2 /\
    amount p'' = amount payment /\
    payments db'' !! fresh (dom (payments db)) = Some p'' /\
    inv_status <$> invoices db'' !! key = Some PAID.
Proof.
  intros H Hfk Hu2. apply generate_payment_ok in H
    as (u & invoice & prop & m & invoice' & -> & Hq & Hp & -> & Hprop & -> & ->
        & Hi & -> & ->).
  assert (F1 : inv_payment invoice' = Some (fresh (dom (payments db)))).
  { subst invoice'. unfold Invoice_save. cbn [fst].
    destruct (Invoice_is_overdue today _ && _); reflexivity. }
  set (pkey := fresh (dom (payments db))) in *.
  set (payment := mkPayment (inv_property invoice) (inv_user invoice)
                    (Properties.owner prop) (inv_amount invoice) ref PENDING None)
    in *.
  assert (Hg : get_object
                 (PaymentViewSet_get_queryset u2 (<[pkey := payment]> (payments db)))
                 pkey = Some payment).
  { unfold get_object. apply payment_queryset_scope.
    rewrite lookup_insert_eq. auto. }
  assert (Hpi : payment_invoice pkey (<[key := invoice']> (invoices db))
                = Some (key, invoice')).
  { apply payment_invoice_unique; [| exact F1].
    intros k i Hk Hn. destruct (Hfk k i pkey Hk Hn) as [x Hx].
    unfold pkey in Hx. rewrite fresh_payment_key in Hx. discriminate. }
  unfold PaymentViewSet_verify_payment. cbn [payments invoices transactions].
  rewrite Hg, Hpi.
  rewrite (Payment_save_keeps_stamp now2 pkey _ now2) by reflexivity.
  eexists _, _. split; [reflexivity |].
  cbn [payments invoices]. repeat split.
  - apply lookup_insert_eq.
  - unfold Invoice_save, Invoice_is_overdue. decide_simpl.
    rewrite lookup_insert_eq. reflexivity.
Qed.

Lemma generate_then_verify_sample :
  (InvoiceViewSet_generate_payment (Authenticated Samples.buyer_user) 1%nat
     (Some "paystack") "PAY-AAAA1111" 50 10 Samples.property_table
     PaymentSamples.opening_tables ∅
   = (HTTP_201_CREATED (InvoiceSamples.generated_payment,
                        InvoiceSamples.generated_columns),
      InvoiceSamples.tables_after_generation,
      InvoiceSamples.columns_after_generation) /\
   (forall k i pkey,
      invoices PaymentSamples.opening_tables !! k = Some i ->
      inv_payment i = Some pkey ->
      is_Some (payments PaymentSamples.opening_tables !! pkey)) /\
   (is_staff Samples.owner_user = true \/
    payer InvoiceSamples.generated_payment = pk Samples.owner_user \/
    receiver InvoiceSamples.generated_payment = pk Samples.owner_user)) /\
  (exists p'' db'',
     PaymentViewSet_verify_payment (Authenticated Samples.owner_user)
       (fresh (dom (payments PaymentSamples.opening_tables))) 80 12
       InvoiceSamples.tables_after_generation
     = (HTTP_200_OK p'', db'') /\
     status p'' = COMPLETED /\
     completed_at p'' = Some 80 /\
     amount p'' = amount InvoiceSamples.generated_payment /\
     payments db'' !! fresh (dom (payments PaymentSamples.opening_tables))
     = Some p'' /\
     inv_status <$> invoices db'' !! 1%nat = Some PAID).
Proof.
  assert (H1 : InvoiceViewSet_generate_payment (Authenticated Samples.buyer_user)
                 1%nat (Some "paystack") "PAY-AAAA1111" 50 10
                 Samples.property_table PaymentSamples.opening_tables ∅
               = (HTTP_201_CREATED (InvoiceSamples.generated_payment,
                                    InvoiceSamples.generated_columns),
                  InvoiceSamples.tables_after_generation,
                  InvoiceSamples.columns_after_generation))
    by (vm_compute; reflexivity).
  assert (H2 : forall k i pkey,
             invoices PaymentSamples.opening_tables !! k = Some i ->
             inv_payment i = Some pkey ->
             is_Some (payments PaymentSamples.opening_tables !! pkey)).
  { intros k i pkey Hk Hp. cbn in Hk.
    apply lookup_singleton_Some in Hk as [_ <-]. discriminate. }
  assert (H3 : is_staff Samples.owner_user = true \/
               payer InvoiceSamples.generated_payment = pk Samples.owner_user \/
               receiver InvoiceSamples.generated_payment = pk Samples.owner_user)
    by (right; right; reflexivity).
  split; [repeat split; assumption |].
  exact (generate_then_verify (Authenticated Samples.buyer_user) 1%nat
           (Some "paystack") "PAY-AAAA1111" 50 80 10 12 Samples.property_table
           PaymentSamples.opening_tables InvoiceSamples.tables_after_generation
           ∅ InvoiceSamples.columns_after_generation
           InvoiceSamples.generated_payment InvoiceSamples.generated_columns
           Samples.owner_user H1 H2 H3).
Defined.

End GeneratePaymentSamples.

(** ** Favorites *)

Section FavoriteProperties.
Import Users Permissions Favorites.

Lemma fresh_favorite_key (tbl : gmap nat Favorite) : tbl !! fresh (dom tbl) = None.
Proof. apply not_elem_of_dom. apply is_fresh. Qed.

Lemma head_rows_is_Some {A : Type} (q : gmap nat A) k x :
  q !! k = Some x -> is_Some (head (rows q)).
Proof.
  intros Hk. destruct (head (rows q)) eqn:E; [eauto |].
  apply head_rows_None in E. rewrite E, lookup_empty in Hk. discriminate.
Qed.

Lemma favorite_create_ok r property_id properties tbl f tbl' :
  FavoriteViewSet_create r property_id properties tbl = (HTTP_201_CREATED f, tbl') ->
  exists u pid,
    r = Authenticated u /\ property_id = Some pid /\
    is_Some (properties !! pid) /\
    (forall k x, tbl !! k = Some x -> user x = pk u -> property x <> pid) /\
    f = mkFavorite (pk u) pid /\
    tbl' = <[fresh (dom tbl) := f]> tbl.
Proof.
  unfold FavoriteViewSet_create. destruct r as [|u].
  { unfold permission_denied. cbn. discriminate. }
  destruct (existing_favorite u property_id tbl) eqn:He; [discriminate |].
  destruct property_id as [pid|]; [| discriminate].
  destruct (properties !! pid) eqn:Hp; [| discriminate].
  intros [= <- <-]. exists u, pid. repeat split; eauto.
  intros k x Hk Hu Hx. unfold existing_favorite in He.
  apply head_rows_None in He.
  pose proof (qfilter_empty_inv _ _ k x He Hk) as Hf. cbn in Hf.
  rewrite (bool_decide_eq_true_2 _ Hu) in Hf.
  rewrite bool_decide_eq_true_2 in Hf by congruence. discriminate.
Qed.

(** Creating favorites keeps the pair of user and property unique: if no
    two rows of the table agree on both, the same holds after any create
    request, whoever sends it and whatever it names. *)
Theorem favorite_create_keeps_pairs_unique (r : RequestUser)
  (property_id : option nat) (properties : gmap nat Properties.Property)
  (tbl : gmap nat Favorite) :
  (forall k1 k2 f1 f2,
     tbl !! k1 = Some f1 -> tbl !! k2 = Some f2 ->
     user f1 = user f2 -> property f1 = property f2 -> k1 = k2) ->
  forall k1 k2 f1 f2,
    (FavoriteViewSet_create r property_id properties tbl).2 !! k1 = Some f1 ->
    (FavoriteViewSet_create r property_id properties tbl).2 !! k2 = Some f2 ->
    user f1 = user f2 -> property f1 = property f2 -> k1 = k2.
Proof.
  intros Hinv.
  destruct (FavoriteViewSet_create r property_id properties tbl) as [resp tbl']
    eqn:Hc.
  assert (Hcases : tbl' = tbl \/ exists f, resp = HTTP_201_CREATED f).
  { unfold FavoriteViewSet_create in Hc. destruct r as [|u].
    - injection Hc as <- <-. auto.
    - destruct (existing_favorite u property_id tbl);
        [injection Hc as <- <-; auto |].
      destruct property_id as [pid|]; [| injection Hc as <- <-; auto].
      destruct (properties !! pid); injection Hc as <- <-; eauto. }
  destruct Hcases as [-> | [f ->]]; [exact Hinv |].
  apply favorite_create_ok in Hc as (u & pid & -> & -> & _ & Hnew & -> & ->).
  cbn [snd]. intros k1 k2 f1 f2 H1 H2 Hu Hp.
  destruct (decide (k1 = fresh (dom tbl))) as [->|N1],
           (decide (k2 = fresh (dom tbl))) as [->|N2]; [reflexivity | | |].
  - rewrite lookup_insert_eq in H1. rewrite lookup_insert_ne in H2 by auto.
    injection H1 as <-. cbn in Hu, Hp.
    exfalso. apply (Hnew k2 f2 H2); congruence.
  - rewrite lookup_insert_eq in H2. rewrite lookup_insert_ne in H1 by auto.
    injection H2 as <-. cbn in Hu, Hp.
    exfalso. apply (Hnew k1 f1 H1); congruence.
  - rewrite lookup_insert_ne in H1, H2 by auto. eauto.
Qed.

Lemma favorite_pairs_unique_sample :
  (forall k1 k2 f1 f2,
     FavoriteSamples.favorite_table !! k1 = Some f1 ->
     FavoriteSamples.favorite_table !! k2 = Some f2 ->
     user f1 = user f2 -> property f1 = property f2 -> k1 = k2) /\
  (forall k1 k2 f1 f2,
     (FavoriteViewSet_create (Authenticated Samples.verified_buyer_user)
        (Some 2%nat) Samples.property_table FavoriteSamples.favorite_table).2
       !! k1 = Some f1 ->
     (FavoriteViewSet_create (Authenticated Samples.verified_buyer_user)
        (Some 2%nat) Samples.property_table FavoriteSamples.favorite_table).2
       !! k2 = Some f2 ->
     user f1 = user f2 -> property f1 = property f2 -> k1 = k2).
Proof.
  assert (H : forall k1 k2 f1 f2,
             FavoriteSamples.favorite_table !! k1 = Some f1 ->
             FavoriteSamples.favorite_table !! k2 = Some f2 ->
             user f1 = user f2 -> property f1 = property f2 -> k1 = k2).
  { intros k1 k2 f1 f2 H1 H2 _ _.
    unfold FavoriteSamples.favorite_table in H1, H2.
    apply lookup_singleton_Some in H1 as [<- _].
    apply lookup_singleton_Some in H2 as [<- _]. reflexivity. }
  split; [exact H |].
  exact (favorite_create_keeps_pairs_unique
           (Authenticated Samples.verified_buyer_user) (Some 2%nat)
           Samples.property_table FavoriteSamples.favorite_table H).
Defined.

(** A favorite that is created belongs to the requester and names an
    existing property; it is in the requester's queryset, asking for it
    again is answered 400 and changes nothing, and the queryset of every
    other user is the same as before. *)
Theorem favorite_create_spec (u other : User) (property_id : option nat)
  (properties : gmap nat Properties.Property) (tbl tbl' : gmap nat Favorite)
  (f : Favorite) :
  FavoriteViewSet_create (Authenticated u) property_id properties tbl
  = (HTTP_201_CREATED f, tbl') ->
  pk other <> pk u ->
  user f = pk u /\
  property_id = Some (property f) /\
  is_Some (properties !! property f) /\
  FavoriteViewSet_get_queryset u tbl' !! fresh (dom tbl) = Some f /\
  FavoriteViewSet_create (Authenticated u) property_id properties tbl'
  = (HTTP_400_BAD_REQUEST, tbl') /\
  FavoriteViewSet_get_queryset other tbl' = FavoriteViewSet_get_queryset other tbl.
Proof.
  intros Hc Ho.
  apply favorite_create_ok in Hc as (u' & pid & [= <-] & -> & Hp & Hnew & -> & ->).
  split; [reflexivity |]. split; [reflexivity |].
  split; [exact Hp |]. split; [| split].
  - unfold FavoriteViewSet_get_queryset. apply lookup_qfilter_Some.
    rewrite lookup_insert_eq. split; [reflexivity |].
    apply bool_decide_eq_true. reflexivity.
  - unfold FavoriteViewSet_create.
    assert (Hs : is_Some (existing_favorite u (Some pid)
                            (<[fresh (dom tbl) := mkFavorite (pk u) pid]> tbl))).
    { unfold existing_favorite.
      apply (head_rows_is_Some _ (fresh (dom tbl)) (mkFavorite (pk u) pid)).
      apply lookup_qfilter_Some. rewrite lookup_insert_eq.
      split; [reflexivity |]. cbn.
      rewrite !bool_decide_eq_true_2 by reflexivity. reflexivity. }
    destruct Hs as [x ->]. reflexivity.
  - unfold FavoriteViewSet_get_queryset.
    apply map_eq. intros k. apply option_eq. intros x.
    rewrite !lookup_qfilter_Some, bool_decide_eq_true.
    destruct (decide (k = fresh (dom tbl))) as [->|N].
    + rewrite lookup_insert_eq, fresh_favorite_key. split.
      * intros [[= <-] Hu]. cbn in Hu. congruence.
      * intros [E _]. discriminate.
    + rewrite lookup_insert_ne by auto. tauto.
Qed.

End FavoriteProperties.

Section FavoriteSamplesProperties.
Import Users Permissions Favorites.

Lemma favorite_create_sample :
  (FavoriteViewSet_create (Authenticated Samples.verified_buyer_user) (Some 2%nat)
     Samples.property_table FavoriteSamples.favorite_table
   = (HTTP_201_CREATED (mkFavorite 6%nat 2%nat),
      <[fresh (dom FavoriteSamples.favorite_table) := mkFavorite 6%nat 2%nat]>
        FavoriteSamples.favorite_table) /\
   pk Samples.buyer_user <> pk Samples.verified_buyer_user) /\
  (user (mkFavorite 6%nat 2%nat) = pk Samples.verified_buyer_user /\
   Some 2%nat = Some (property (mkFavorite 6%nat 2%nat)) /\
   is_Some (Samples.property_table !! property (mkFavorite 6%nat 2%nat)) /\
   FavoriteViewSet_get_queryset Samples.verified_buyer_user
     (<[fresh (dom FavoriteSamples.favorite_table) := mkFavorite 6%nat 2%nat]>
        FavoriteSamples.favorite_table)
     !! fresh (dom FavoriteSamples.favorite_table)
   = Some (mkFavorite 6%nat 2%nat) /\
   FavoriteViewSet_create (Authenticated Samples.verified_buyer_user) (Some 2%nat)
     Samples.property_table
     (<[fresh (dom FavoriteSamples.favorite_table) := mkFavorite 6%nat 2%nat]>
        FavoriteSamples.favorite_table)
   = (HTTP_400_BAD_REQUEST,
      <[fresh (dom FavoriteSamples.favorite_table) := mkFavorite 6%nat 2%nat]>
        FavoriteSamples.favorite_table) /\
   FavoriteViewSet_get_queryset Samples.buyer_user
     (<[fresh (dom FavoriteSamples.favorite_table) := mkFavorite 6%nat 2%nat]>
        FavoriteSamples.favorite_table)
   = FavoriteViewSet_get_queryset Samples.buyer_user
       FavoriteSamples.favorite_table).
Proof.
  assert (H1 : FavoriteViewSet_create (Authenticated Samples.verified_buyer_user)
                 (Some 2%nat) Samples.property_table
                 FavoriteSamples.favorite_table
               = (HTTP_201_CREATED (mkFavorite 6%nat 2%nat),
                  <[fresh (dom FavoriteSamples.favorite_table)
                      := mkFavorite 6%nat 2%nat]>
                    FavoriteSamples.favorite_table))
    by (vm_compute; reflexivity).
  assert (H2 : pk Samples.buyer_user <> pk Samples.verified_buyer_user)
    by discriminate.
  split; [split; assumption |].
  exact (favorite_create_spec Samples.verified_buyer_user Samples.buyer_user
           (Some 2%nat) Samples.property_table FavoriteSamples.favorite_table
           _ _ H1 H2).
Defined.

End FavoriteSamplesProperties.
